(** * nltools.data.adjacency: the [Adjacency] class

    A shallow embedding of [src/nltools/data/adjacency.py].  An [Adjacency]
    keeps a square matrix as a flat vector: the upper triangle (without the
    diagonal) when the matrix is symmetric, the row-major flattening when it is
    directed; several matrices are stacked as the rows of a 2-D array.

    Layout: exceptions and the error monad; the element type of the arrays
    (numpy's dtype) as a class with two instances; the numpy and scipy
    primitives the class calls; the constructor and the methods; a store-level
    model of [threshold], which writes into an array in place; then the
    lemmas. *)

From Stdlib Require Import ZArith List Bool Lia String Floats Uint63 Zmod.
From stdpp Require Import base option list gmap.

Set Warnings "-inexact-float".

(** ** Exceptions *)

(** The Python exceptions the class can end with.  [Unsupported] is not a
    Python exception: it marks the few places where numpy would build an array
    of more than two dimensions or of dimension zero, which [ndarray] below
    does not represent. *)
Inductive exn : Type :=
| ValueError (msg : string)
| IndexError
| TypeError
| AttributeError
| UnboundLocalError
| Unsupported (what : string).

Inductive result (T : Type) : Type :=
| Ok (x : T)
| Raise (e : exn).
Arguments Ok {T} x.
Arguments Raise {T} e.

#[global] Instance result_ret : MRet result := @Ok.
#[global] Instance result_bind : MBind result :=
  λ _ _ f m, match m with Ok x => f x | Raise e => Raise e end.
#[global] Instance result_fmap : FMap result :=
  λ _ _ f m, match m with Ok x => Ok (f x) | Raise e => Raise e end.

(** An [option] read as "the index exists", with [IndexError] otherwise. *)
Definition or_IndexError {T} (o : option T) : result T :=
  match o with Some x => Ok x | None => Raise IndexError end.

(** [try: e  except ValueError: (print)], keeping [dflt] when [e] raised a
    [ValueError]; any other exception goes through. *)
Definition except_ValueError {T} (e : result T) (dflt : T) : result T :=
  match e with
  | Ok x => Ok x
  | Raise (ValueError _) => Ok dflt
  | Raise other => Raise other
  end.

Module Msg.
Definition bad_matrix_type : string :=
  "matrix_type must be [None,'distance', 'similarity','directed','distance_flat', 'similarity_flat','directed_flat']".
Definition not_square : string := "Data matrix must be square".
Definition mixed_symmetry : string := "Not all matrices are of the same symmetric type.".
Definition mixed_type : string := "Not all matrices are of the same matrix type.".
Definition Y_size : string := "Y does not match the correct size of data".
Definition labels_single : string := "Make sure the length of labels matches the shape of data.".
Definition labels_stack : string :=
  "Make sure length of labels either matches the number of Adjacency matrices or the size of a single matrix.".
Definition labels_nested : string := "All lists of labels must be same length as shape of data.".
Definition same_shape : string := "Both Adjacency() instances need to be the same shape.".
Definition ttest_single : string := "t-test cannot be run on single matrices.".
Definition not_distance : string := "Matrix is not a distance matrix.".
Definition not_similarity : string := "Matrix is not a similarity matrix.".
Definition vector_size : string :=
  "Incompatible vector size. It must be a binomial coefficient n choose 2 for some integer n >= 2.".
Definition reshape : string := "cannot reshape array".
Definition broadcast : string := "operands could not be broadcast together".
Definition ragged : string := "setting an array element with a sequence".
Definition deep_array : string := "array of more than two dimensions".
Definition scalar_array : string := "zero-dimensional array".
Definition matrix_to_vector : string := "scipy squareform of a 2-D array".
End Msg.

(** ** The element type of an array *)

(** What the class asks of numpy's element type: the three arithmetic
    operators, the comparisons [==] and [<], the conversion of a Python [int]
    that the class itself compares with (the literals 0 and 1, an array
    length), and how [np.add.reduce] walks a vector of that type: numpy's
    loop for a floating type adds pairwise, its loop for an integer type adds
    from the left. *)
Class DType (A : Type) : Type := {
  dadd : A → A → A;
  dsub : A → A → A;
  dmul : A → A → A;
  deqb : A → A → bool;
  dltb : A → A → bool;
  dof_Z : Z → A;
  dpairwise : bool;
}.

(** float64: IEEE 754 binary64, as numpy's default dtype.  A Python [int]
    becomes the nearest float64, ties to even (an [int] beyond the range of
    float64, which Python refuses to convert, becomes an infinity here). *)
Definition float_of_Z (z : Z) : float :=
  SF2Prim (binary_normalize prec emax z 0 false).

#[global] Instance float64 : DType float := {|
  dadd := PrimFloat.add;
  dsub := PrimFloat.sub;
  dmul := PrimFloat.mul;
  deqb := PrimFloat.eqb;
  dltb := PrimFloat.ltb;
  dof_Z := float_of_Z;
  dpairwise := true;
|}.

(** int64: integers modulo 2^64, compared as signed numbers. *)
Definition int64 : Type := Zmod (2 ^ 64).

#[global] Instance int64_dtype : DType int64 := {|
  dadd := Zmod.add;
  dsub := Zmod.sub;
  dmul := Zmod.mul;
  deqb := Zmod.eqb;
  dltb := λ x y, (Zmod.signed x <? Zmod.signed y)%Z;
  dof_Z := Zmod.of_Z (2 ^ 64);
  dpairwise := false;
|}.

(** The numeric routines of numpy, scipy and [nltools.stats] that the class
    only calls: they stay abstract. *)
Class Collaborators (A : Type) : Type := {
  (** [np.percentile(data, q)] *)
  np_percentile : list A → A → A;
  (** [np.mean(data, axis=0)] of an [r] by [c] array: one value per column *)
  np_mean_axis0 : nat → nat → list A → list A;
  (** [scipy.stats.ttest_1samp(data, 0, 0)] of an [r] by [c] array *)
  ttest_1samp : nat → nat → list A → list A * list A;
  (** [one_sample_permutation(column)]: the fields [mean] and [p] *)
  one_sample_permutation : list A → A * A;
  (** [np.std] of all the entries of an array *)
  np_std : list A → A;
  (** unary minus, true division and [np.exp] *)
  dneg : A → A;
  ddiv : A → A → A;
  dexp : A → A;
}.

(** ** Arrays *)

(** A numpy array of one or two dimensions, with its row-major buffer. *)
Inductive ndarray (A : Type) : Type :=
| Arr1 (buf : list A)
| Arr2 (r c : nat) (buf : list A).
Arguments Arr1 {A} buf.
Arguments Arr2 {A} r c buf.

(** [a.shape] *)
Definition np_shape {A} (a : ndarray A) : list nat :=
  match a with
  | Arr1 buf => [length buf]
  | Arr2 r c _ => [r; c]
  end.

Definition ndim {A} (a : ndarray A) : nat := length (np_shape a).

(** [a.flatten()] *)
Definition flatten {A} (a : ndarray A) : list A :=
  match a with
  | Arr1 buf => buf
  | Arr2 _ _ buf => buf
  end.

(** The buffer has as many cells as the shape says. *)
Definition wf_array {A} (a : ndarray A) : Prop :=
  match a with
  | Arr1 _ => True
  | Arr2 r c buf => length buf = r * c
  end.

(** [a.shape[0]] *)
Definition shape0 {A} (a : ndarray A) : nat :=
  match a with
  | Arr1 buf => length buf
  | Arr2 r _ _ => r
  end.

(** [a.shape[1]]: a tuple index out of range on a vector. *)
Definition shape1 {A} (a : ndarray A) : result nat :=
  match a with
  | Arr1 _ => Raise IndexError
  | Arr2 _ c _ => Ok c
  end.

(** The cell [(i, j)] of an [r] by [c] buffer. *)
Definition get2 {A} (r c : nat) (buf : list A) (i j : nat) : option A :=
  if bool_decide (i < r ∧ j < c) then buf !! (i * c + j) else None.

(** A Python index into a sequence of [n] items: negative indices count from
    the end. *)
Definition py_index (n : nat) (i : Z) : option nat :=
  if bool_decide (0 ≤ i < Z.of_nat n)%Z then Some (Z.to_nat i)
  else if bool_decide (- Z.of_nat n ≤ i < 0)%Z then Some (Z.to_nat (Z.of_nat n + i))
  else None.

(** [np.triu_indices(n, k=1)]: the pairs [(i, j)] with [i < j < n], row by
    row. *)
Definition triu_indices (n : nat) : list (nat * nat) :=
  i ← seq 0 n; pair i <$> seq (S i) (n - S i).

(** [a[(rows, cols)]] for two index arrays, given as the list of their pairs.
    A vector has too many indices. *)
Definition take_pairs {A} (a : ndarray A) (idx : list (nat * nat)) : result (list A) :=
  match a with
  | Arr1 _ => Raise IndexError
  | Arr2 r c buf => or_IndexError (mapM (λ '(i, j), get2 r c buf i j) idx)
  end.

(** [a.T[(rows, cols)]]: the transpose is a view, whose cell [(i, j)] is the
    cell [(j, i)] of [a]; the transpose of a vector is the vector. *)
Definition take_pairs_T {A} (a : ndarray A) (idx : list (nat * nat)) : result (list A) :=
  take_pairs a ((λ '(i, j), (j, i)) <$> idx).

(** [np.diag(a)] of a 2-D array: the main diagonal. *)
Definition np_diag {A} (r c : nat) (buf : list A) : list A :=
  omap (λ i, get2 r c buf i i) (seq 0 (r `min` c)).

(** [a[i, :]] *)
Definition row {A} (a : ndarray A) (i : Z) : result (list A) :=
  match a with
  | Arr1 _ => Raise IndexError
  | Arr2 r c buf =>
      k ← or_IndexError (py_index r i);
      Ok (take c (drop (k * c) buf))
  end.

(** [a[lo:hi, :]] for a slice with bounds inside [0 .. r]. *)
Definition rows {A} (a : ndarray A) (lo hi : nat) : result (ndarray A) :=
  match a with
  | Arr1 _ => Raise IndexError
  | Arr2 r c buf =>
      let lo' := lo `min` r in
      let hi' := hi `min` r in
      Ok (Arr2 (hi' - lo') c (take ((hi' - lo') * c) (drop (lo' * c) buf)))
  end.

(** [a.reshape(r, c)] *)
Definition reshape {A} (a : ndarray A) (r c : nat) : result (ndarray A) :=
  if length (flatten a) =? r * c then Ok (Arr2 r c (flatten a))
  else Raise (ValueError Msg.reshape).

(** [np.array(rows)] for a list of arrays: vectors of one length become the
    rows of a 2-D array, vectors of several lengths are refused. *)
Definition np_array {A} (items : list (ndarray A)) : result (ndarray A) :=
  match items with
  | [] => Ok (Arr1 [])
  | Arr1 v :: _ =>
      if forallb (λ a, match a with
                       | Arr1 w => length w =? length v
                       | Arr2 _ _ _ => false
                       end) items
      then Ok (Arr2 (length items) (length v) (mjoin (flatten <$> items)))
      else Raise (ValueError Msg.ragged)
  | Arr2 _ _ _ :: _ => Raise (Unsupported Msg.deep_array)
  end.

(** The row-major buffer of the [r] by [c] array whose cell [(i, j)] is
    [f i j]. *)
Definition tabulate2 {A} (r c : nat) (f : nat → nat → A) : list A :=
  i ← seq 0 r; f i <$> seq 0 c.

(** [int(np.sqrt(n))], for the sizes an array can have. *)
Definition int_sqrt (n : nat) : nat := Nat.sqrt n.

(** [int(np.ceil(np.sqrt(n)))] *)
Definition ceil_sqrt (n : nat) : nat :=
  let s := Nat.sqrt n in if s * s =? n then s else S s.

Section Numpy.
Context {A : Type} {dt : DType A}.

Definition d0 : A := dof_Z 0.
Definition d1 : A := dof_Z 1.

(** [x > y] and [x != y] *)
Definition dgtb (x y : A) : bool := dltb y x.
Definition dneb (x y : A) : bool := negb (deqb x y).

(** The truth value of a number: it is not zero. *)
Definition truthy (x : A) : bool := dneb x d0.

(** The truth value of an optional number: [None] is false. *)
Definition truthy_opt (o : option A) : bool :=
  match o with
  | None => false
  | Some x => truthy x
  end.

(** numpy's unrolled loop over a vector of 8 to 128 values: eight running
    sums start as the first eight values, every further full block of eight
    is added to them position by position, the eight sums are added as a
    balanced tree, and the values after the last full block are added one by
    one.  [add_blocks k r v] adds the next [k] blocks of [v] to [r]. *)
Fixpoint add_blocks (k : nat) (r v : list A) : list A * list A :=
  match k with
  | 0 => (r, v)
  | S k => add_blocks k (zip_with dadd r (take 8 v)) (drop 8 v)
  end.

Definition sum_unrolled (v : list A) : A :=
  let '(r, rest) := add_blocks (length v / 8 - 1) (take 8 v) (drop 8 v) in
  let r i := default d0 (r !! i) in
  foldl dadd
    (dadd (dadd (dadd (r 0) (r 1)) (dadd (r 2) (r 3)))
          (dadd (dadd (r 4) (r 5)) (dadd (r 6) (r 7))))
    rest.

(** numpy's pairwise sum: fewer than 8 values are added from the left,
    starting from 0; up to 128 values go through the unrolled loop; a longer
    vector is cut at [n / 2], rounded down to a multiple of 8, and the sums
    of the two parts are added.  [depth] bounds the number of cuts; the
    length of the vector is always enough ([pairwise_sum_depth]). *)
Fixpoint pairwise_sum (depth : nat) (v : list A) : A :=
  let n := length v in
  if n <? 8 then foldl dadd d0 v
  else
    match depth with
    | S depth =>
        if 128 <? n then
          let n2 := n / 2 - (n / 2) mod 8 in
          dadd (pairwise_sum depth (take n2 v)) (pairwise_sum depth (drop n2 v))
        else sum_unrolled v
    | 0 => sum_unrolled v
    end.

(** [np.sum] of a vector: [np.add.reduce] starts from the identity 0 and
    adds what the loop of the element type makes of the vector, the pairwise
    sum for a floating type, the values one by one for an integer type. *)
Definition np_sum (v : list A) : A :=
  if dpairwise then dadd d0 (pairwise_sum (length v) v)
  else foldl dadd d0 v.

(** [np.all(u == v)] for two vectors of one length. *)
Definition all_equal (u v : list A) : bool := forallb id (zip_with deqb u v).

(** scipy's condensed storage: the pairs [(i, j)], [i < j < n], row by row;
    row [i] starts at [row_offset n i]. *)
Fixpoint row_offset (n i : nat) : nat :=
  match i with
  | 0 => 0
  | S i' => row_offset n i' + (n - S i')
  end.

Definition condensed_index (n i j : nat) : nat := row_offset n i + (j - S i).

(** The [n] by [n] matrix scipy fills from a condensed vector: zeros, then
    each value written at [(i, j)] and at [(j, i)]. *)
Definition to_squareform_from_vector (n : nat) (v : list A) : list A :=
  tabulate2 n n (λ i j,
    if i <? j then default d0 (v !! condensed_index n i j)
    else if j <? i then default d0 (v !! condensed_index n j i)
    else d0).

(** [scipy.spatial.distance.squareform(v)] on a vector: the empty vector
    gives the 1 by 1 zero matrix; a vector of [d * (d - 1) / 2] values gives
    the [d] by [d] symmetric matrix with a zero diagonal; any other length
    is a [ValueError]. *)
Definition scipy_squareform (v : list A) : result (ndarray A) :=
  if length v =? 0 then Ok (Arr2 1 1 [d0])
  else
    let d := ceil_sqrt (length v * 2) in
    if d * (d - 1) =? length v * 2
    then Ok (Arr2 d d (to_squareform_from_vector d v))
    else Raise (ValueError Msg.vector_size).

(** [op] between two arrays of the same shape. *)
Definition np_binop (op : A → A → A) (a b : ndarray A) : result (ndarray A) :=
  match a, b with
  | Arr1 u, Arr1 v =>
      if length u =? length v then Ok (Arr1 (zip_with op u v))
      else Raise (ValueError Msg.broadcast)
  | Arr2 r c u, Arr2 r' c' v =>
      if (r =? r') && (c =? c') then Ok (Arr2 r c (zip_with op u v))
      else Raise (ValueError Msg.broadcast)
  | _, _ => Raise (ValueError Msg.broadcast)
  end.

(** [f] on each cell. *)
Definition np_map (f : A → A) (a : ndarray A) : ndarray A :=
  match a with
  | Arr1 buf => Arr1 (f <$> buf)
  | Arr2 r c buf => Arr2 r c (f <$> buf)
  end.
End Numpy.

(** ** The data of an instance *)

(** The argument [matrix_type] after [.lower()]: the six names the constructor
    accepts, or any other string. *)
Inductive matrix_type_arg : Type :=
| MT_distance
| MT_similarity
| MT_directed
| MT_distance_flat
| MT_similarity_flat
| MT_directed_flat
| MT_other (s : string).

(** The attribute [matrix_type] when it is a string. *)
Inductive mtype : Type := Distance | Similarity | Directed | Empty.

#[global] Instance mtype_eq_dec : EqDecision mtype.
Proof. solve_decision. Defined.

(** [self.matrix_type + '_flat'], read as a constructor argument. *)
Definition flat_of (t : mtype) : matrix_type_arg :=
  match t with
  | Distance => MT_distance_flat
  | Similarity => MT_similarity_flat
  | Directed => MT_directed_flat
  | Empty => MT_other "empty_flat"
  end.

(** An attribute that holds [True], [False] or [np.nan]. *)
Inductive pybool : Type := PTrue | PFalse | PNaN.

#[global] Instance pybool_eq_dec : EqDecision pybool.
Proof. solve_decision. Defined.

Definition of_bool (b : bool) : pybool := if b then PTrue else PFalse.

(** The truth value in an [if]: [np.nan] is a non-zero float. *)
Definition truth (b : pybool) : bool :=
  match b with
  | PFalse => false
  | PTrue | PNaN => true
  end.

(** A pandas DataFrame, kept as its rows of cells. *)
Abbreviation DataFrame := (list (list string)).

(** [df.empty] *)
Definition df_empty (df : DataFrame) : bool :=
  match df with
  | [] => true
  | r :: _ => bool_decide (r = [])
  end.

(** Labels: a list of names, or one list of names per matrix. *)
Inductive labels_t : Type :=
| Labels (l : list string)
| NestedLabels (l : list (list string)).

(** [len(labels)] *)
Definition labels_len (l : labels_t) : nat :=
  match l with
  | Labels l => length l
  | NestedLabels l => length l
  end.

(** [[len(x) for x in labels]] *)
Definition labels_item_lens (l : labels_t) : list nat :=
  match l with
  | Labels l => String.length <$> l
  | NestedLabels l => length <$> l
  end.

(** [list(labels) * k] *)
Definition labels_repeat (l : labels_t) (k : nat) : labels_t :=
  match l with
  | Labels l => Labels (mjoin (replicate k l))
  | NestedLabels l => NestedLabels (mjoin (replicate k l))
  end.

Record Adjacency (A : Type) : Type := mkAdjacency {
  data : ndarray A;
  matrix_type : option mtype;
  is_single_matrix : pybool;
  issymmetric : pybool;
  Y : DataFrame;
  labels : option labels_t;
}.
Arguments mkAdjacency {A} data matrix_type is_single_matrix issymmetric Y labels.
Arguments data {A} _.
Arguments matrix_type {A} _.
Arguments is_single_matrix {A} _.
Arguments issymmetric {A} _.
Arguments Y {A} _.
Arguments labels {A} _.

Definition set_data {A} (a : Adjacency A) (d : ndarray A) : Adjacency A :=
  mkAdjacency d (matrix_type a) (is_single_matrix a) (issymmetric a) (Y a) (labels a).
Definition set_is_single_matrix {A} (a : Adjacency A) (b : pybool) : Adjacency A :=
  mkAdjacency (data a) (matrix_type a) b (issymmetric a) (Y a) (labels a).
Definition set_Y {A} (a : Adjacency A) (y : DataFrame) : Adjacency A :=
  mkAdjacency (data a) (matrix_type a) (is_single_matrix a) (issymmetric a) y (labels a).
Definition set_labels {A} (a : Adjacency A) (l : option labels_t) : Adjacency A :=
  mkAdjacency (data a) (matrix_type a) (is_single_matrix a) (issymmetric a) (Y a) l.

(** [deepcopy(x)]: instances are values here, a copy is the value itself.
    [Store] below models the one place where the difference shows. *)
Definition deepcopy {T} (x : T) : T := x.

(** What the constructor takes as [data]: nothing, one array, or a list of
    arrays.  (A path to a file, and a list of instances, which goes through
    [nltools.utils.concatenate], are left out.) *)
Inductive data_arg (A : Type) : Type :=
| DNone
| DArr (a : ndarray A)
| DList (items : list (ndarray A)).
Arguments DNone {A}.
Arguments DArr {A} a.
Arguments DList {A} items.

(** A subscript: an [int], or a slice [lo:hi]. *)
Inductive index : Type :=
| Int (i : Z)
| Slice (lo hi : nat).

(** A Python number next to an array of element type [A]: whether it is an
    [int] or a [float], and the element [v] that numpy makes of it when it
    combines it with the array.  This covers the numbers that leave the
    element type of the array as it is: on float64 data any [float] ([v] is
    the number) and any [int] that has a float64 ([v] is the nearest one,
    [float_of_Z]); on int64 data the [int]s of the int64 range ([v] is the
    number).  A [float], or an [int] out of that range, next to int64 data
    makes numpy answer an array of another element type, or raise, with the
    version of numpy: such a pair is not an operand here. *)
Inductive pynum (A : Type) : Type :=
| PyInt (v : A)
| PyFloat (v : A).
Arguments PyInt {A} v.
Arguments PyFloat {A} v.

(** The right operand of [+], [-] and [*]: a number, an instance, or a value
    of any other type (a string, a list, a numpy array ...). *)
Inductive operand (A : Type) : Type :=
| Num (y : pynum A)
| Adj (y : Adjacency A)
| Other (repr : string).
Arguments Num {A} y.
Arguments Adj {A} y.
Arguments Other {A} repr.

(** A cutoff of [threshold]: a number, or a percentage given as ['q%']. *)
Inductive cutoff (A : Type) : Type :=
| Abs (x : A)
| Pct (q : A).
Arguments Abs {A} x.
Arguments Pct {A} q.

(** What [squareform] returns: one matrix, or a list of matrices. *)
Inductive squares (A : Type) : Type :=
| One (m : ndarray A)
| Many (ms : list (ndarray A)).
Arguments One {A} m.
Arguments Many {A} ms.

(** Modelled from the spec: [all_same] of [nltools.utils], absent from src/.
    Section 4.1 step 6 of the spec asks that every element of the list
    resolves to the same value: each item equals the first. *)
Definition all_same {T} `{EqDecision T} (items : list T) : bool :=
  match items with
  | [] => true
  | x :: _ => forallb (λ y, bool_decide (y = x)) items
  end.

(** [iloc] on the rows of a DataFrame; the row an [int] selects is kept as a
    table of one row. *)
Definition iloc (df : DataFrame) (i : index) : result DataFrame :=
  match i with
  | Int i =>
      k ← or_IndexError (py_index (length df) i);
      r ← or_IndexError (df !! k);
      Ok [r]
  | Slice lo hi => Ok (take (hi - lo) (drop lo df))
  end.

(** ** The class *)

Section Methods.
Context {A : Type} {dt : DType A} {co : Collaborators A}.

(** [test_is_single_matrix], the helper inside [_import_single_data]. *)
Definition test_is_single_matrix (d : ndarray A) : bool := ndim d =? 1.

(** [np.sum(np.diag(d))]: of a matrix [np.diag] takes the diagonal; of a
    vector it builds the square matrix with the vector on the diagonal and
    zeros elsewhere, and [np.sum] adds all the cells of that matrix. *)
Definition diag_sum (d : ndarray A) : A :=
  match d with
  | Arr1 v =>
      np_sum (tabulate2 (length v) (length v)
                (λ i j, if i =? j then default d0 (v !! i) else d0))
  | Arr2 r c buf => np_sum (np_diag r c buf)
  end.

(** The test [np.all(d[triu] == d.T[triu])]. *)
Definition symmetric_test (d : ndarray A) : result bool :=
  upper ← take_pairs d (triu_indices (shape0 d));
  lower ← take_pairs_T d (triu_indices (shape0 d));
  Ok (all_equal upper lower).

(** The type read off the diagonal of a symmetric matrix.  The local
    variable [matrix_type] is the parameter, [None] here: it keeps that
    value when neither test holds. *)
Definition infer_type (d : ndarray A) : option mtype :=
  if deqb (diag_sum d) d0 then Some Distance
  else if deqb (diag_sum d) (dof_Z (Z.of_nat (shape0 d))) then Some Similarity
  else None.

(** [_import_single_data(data, matrix_type)]: the tuple
    [(data, issymmetric, matrix_type, is_single_matrix)]. *)
Definition _import_single_data (d : ndarray A) (mt : option matrix_type_arg)
  : result (ndarray A * bool * option mtype * bool) :=
  match mt with
  | Some MT_distance_flat =>
      Ok (d, true, Some Distance, test_is_single_matrix d)
  | Some MT_similarity_flat =>
      Ok (d, true, Some Similarity, test_is_single_matrix d)
  | Some MT_directed_flat =>
      let d := Arr1 (flatten d) in
      Ok (d, false, Some Directed, test_is_single_matrix d)
  | Some MT_distance | Some MT_similarity =>
      c ← shape1 d;
      if negb (shape0 d =? c) then Raise (ValueError Msg.not_square)
      else
        upper ← take_pairs d (triu_indices (shape0 d));
        Ok (Arr1 upper, true,
            Some (if mt is Some MT_distance then Distance else Similarity), true)
  | Some MT_directed =>
      c ← shape1 d;
      if negb (shape0 d =? c) then Raise (ValueError Msg.not_square)
      else Ok (Arr1 (flatten d), false, Some Directed, true)
  | Some (MT_other _) =>
      (* no branch binds [issymmetric]: the [return] fails *)
      Raise UnboundLocalError
  | None =>
      '(sq, is_single) ←
        match d with
        | Arr1 v =>
            sq ← except_ValueError (scipy_squareform v) d;
            Ok (sq, true)
        | Arr2 r c _ =>
            if r =? c then Ok (d, true)
            else
              first ← row d 0;
              sq ← except_ValueError (scipy_squareform first) d;
              Ok (sq, false)
        end;
      sym ← symmetric_test sq;
      '(flat, t) ←
        (if sym : bool then
           upper ← take_pairs sq (triu_indices (shape0 sq));
           Ok (Arr1 upper, infer_type sq)
         else Ok (Arr1 (flatten sq), Some Directed));
      Ok (if is_single : bool then flat else d, sym, t, is_single)
  end.

(** [isempty] *)
Definition isempty (self : Adjacency A) : bool :=
  bool_decide (matrix_type self = Some Empty).

(** [shape] *)
Definition shape (self : Adjacency A) : list nat := np_shape (data self).

(** [copy] *)
Definition copy (self : Adjacency A) : Adjacency A := deepcopy self.

(** [__len__] *)
Definition __len__ (self : Adjacency A) : nat :=
  if truth (is_single_matrix self) then 1 else shape0 (data self).

(** [__getitem__] *)
Definition __getitem__ (self : Adjacency A) (i : index) : result (Adjacency A) :=
  let new := copy self in
  new ← match i with
        | Int k =>
            r ← row (data self) k;
            Ok (set_is_single_matrix (set_data new (Arr1 r)) PTrue)
        | Slice lo hi =>
            d ← rows (data self) lo hi;
            Ok (set_data new d)
        end;
  if negb (df_empty (Y self)) then
    y ← iloc (Y self) i;
    Ok (set_Y new y)
  else Ok new.

(** [__iter__]: the generator, as the outcome of each of its steps,
    [self[0]], [self[1]], ...  A step that raises ends the iteration. *)
Definition __iter__ (self : Adjacency A) : list (result (Adjacency A)) :=
  (λ x, __getitem__ self (Int (Z.of_nat x))) <$> seq 0 (__len__ self).

(** [[f(x) for x in self]] *)
Definition for_each {T} (self : Adjacency A) (f : Adjacency A → result T)
  : result (list T) :=
  mapM (λ step, x ← step; f x) (__iter__ self).

(** [squareform] *)
Definition squareform (self : Adjacency A) : result (squares A) :=
  let square x :=
    match x with
    | Arr1 v => scipy_squareform v
    | Arr2 _ _ _ => Raise (Unsupported Msg.matrix_to_vector)
    end in
  let unflatten x :=
    reshape x (int_sqrt (shape0 x)) (int_sqrt (shape0 x)) in
  if truth (issymmetric self) then
    if truth (is_single_matrix self) then One <$> square (data self)
    else Many <$> for_each self (λ x, square (data x))
  else
    if truth (is_single_matrix self) then One <$> unflatten (data self)
    else Many <$> for_each self (λ x, unflatten (data x)).

(** [x.shape] of what [squareform] returned: a list has no shape. *)
Definition squares_shape (s : squares A) : result (list nat) :=
  match s with
  | One m => Ok (np_shape m)
  | Many _ => Raise AttributeError
  end.

(** [square_shape]; the empty instance answers [np.array([])]. *)
Definition square_shape (self : Adjacency A) : result (list nat) :=
  if bool_decide (matrix_type self = Some Empty) then Ok []
  else if truth (is_single_matrix self) then
    s ← squareform self; squares_shape s
  else
    x ← __getitem__ self (Int 0);
    s ← squareform x; squares_shape s.

(** [self.square_shape()[0]] *)
Definition square_side (self : Adjacency A) : result nat :=
  s ← square_shape self; or_IndexError (head s).

(** The part of [__init__] that reads [data]. *)
Definition init_data (d : data_arg A) (mt : option matrix_type_arg)
  : result (Adjacency A) :=
  match d with
  | DNone => Ok (mkAdjacency (Arr1 []) (Some Empty) PNaN PNaN [] None)
  | DList items =>
      (* [data[0]] is read first *)
      _ ← or_IndexError (head items);
      imported ← mapM (λ x, _import_single_data x mt) items;
      let d_all := (λ '(x, _, _, _), x) <$> imported in
      let symmetric_all := (λ '(_, s, _, _), s) <$> imported in
      let matrix_type_all := (λ '(_, _, t, _), t) <$> imported in
      if negb (all_same symmetric_all) then Raise (ValueError Msg.mixed_symmetry)
      else if negb (all_same matrix_type_all) then Raise (ValueError Msg.mixed_type)
      else
        stacked ← np_array d_all;
        s ← or_IndexError (head symmetric_all);
        t ← or_IndexError (head matrix_type_all);
        Ok (mkAdjacency stacked t PFalse (of_bool s) [] None)
  | DArr x =>
      '(x, s, t, single) ← _import_single_data x mt;
      Ok (mkAdjacency x t (of_bool single) (of_bool s) [] None)
  end.

(** The part of [__init__] that reads [Y]. *)
Definition init_Y (self : Adjacency A) (y : option DataFrame) : result (Adjacency A) :=
  match y with
  | Some y =>
      if negb (shape0 (data self) =? length y) then Raise (ValueError Msg.Y_size)
      else Ok (set_Y self y)
  | None => Ok (set_Y self [])
  end.

(** The part of [__init__] that reads [labels]. *)
Definition init_labels (self : Adjacency A) (l : option labels_t) : result (Adjacency A) :=
  match l with
  | Some l =>
      if truth (is_single_matrix self) then
        n ← square_side self;
        if negb (labels_len l =? n) then Raise (ValueError Msg.labels_single)
        else Ok (set_labels self (Some (deepcopy l)))
      else
        if negb (labels_len l =? __len__ self) then
          n ← square_side self;
          if negb (labels_len l =? n) then Raise (ValueError Msg.labels_stack)
          else Ok (set_labels self (Some (labels_repeat l (__len__ self))))
        else
          n ← square_side self;
          if forallb (λ k, negb (k =? n)) (labels_item_lens l)
          then Raise (ValueError Msg.labels_nested)
          else Ok (set_labels self (Some (deepcopy l)))
  | None => Ok (set_labels self None)
  end.

(** [Adjacency(data, Y, matrix_type, labels)] *)
Definition __init__ (d : data_arg A) (y : option DataFrame)
    (mt : option matrix_type_arg) (l : option labels_t) : result (Adjacency A) :=
  _ ← match mt with
      | Some (MT_other _) => Raise (ValueError Msg.bad_matrix_type)
      | _ => Ok ()
      end;
  self ← init_data d mt;
  self ← init_Y self y;
  init_labels self l.

(** [Adjacency(x)] with every other argument left out. *)
Definition construct (x : ndarray A) : result (Adjacency A) :=
  __init__ (DArr x) None None None.

(** The element a Python operand is in the array's element type. *)
Definition as_dtype (y : pynum A) : A :=
  match y with
  | PyInt v => v
  | PyFloat v => v
  end.

(** [__add__] *)
Definition __add__ (self : Adjacency A) (y : operand A) : result (Adjacency A) :=
  let new := deepcopy self in
  match y with
  | Num y => Ok (set_data new (np_map (λ x, dadd x (as_dtype y)) (data new)))
  | Adj y =>
      if negb (bool_decide (shape self = shape y)) then Raise (ValueError Msg.same_shape)
      else d ← np_binop dadd (data new) (data y); Ok (set_data new d)
  | Other _ => Ok new
  end.

(** [__sub__] *)
Definition __sub__ (self : Adjacency A) (y : operand A) : result (Adjacency A) :=
  let new := deepcopy self in
  match y with
  | Num y => Ok (set_data new (np_map (λ x, dsub x (as_dtype y)) (data new)))
  | Adj y =>
      if negb (bool_decide (shape self = shape y)) then Raise (ValueError Msg.same_shape)
      else d ← np_binop dsub (data new) (data y); Ok (set_data new d)
  | Other _ => Ok new
  end.

(** [__mul__] *)
Definition __mul__ (self : Adjacency A) (y : operand A) : result (Adjacency A) :=
  let new := deepcopy self in
  match y with
  | Num y => Ok (set_data new (np_map (λ x, dmul x (as_dtype y)) (data new)))
  | Adj y =>
      if negb (bool_decide (shape self = shape y)) then Raise (ValueError Msg.same_shape)
      else d ← np_binop dmul (data new) (data y); Ok (set_data new d)
  | Other _ => Ok new
  end.

(** A cutoff after the percentile lookup. *)
Definition resolve (buf : list A) (c : option (cutoff A)) : option A :=
  match c with
  | None => None
  | Some (Abs x) => Some x
  | Some (Pct q) => Some (np_percentile buf q)
  end.

(** [data < upper] and [data > lower] on one cell. *)
Definition below (x : A) (upper : option A) : bool :=
  match upper with
  | Some u => dltb x u
  | None => false
  end.

Definition above (x : A) (lower : option A) : bool :=
  match lower with
  | Some l => dgtb x l
  | None => false
  end.

(** What the [if upper and lower: ... elif ...] chain of [threshold] leaves
    in a cell that held [x]. *)
Definition threshold_cell (upper lower : option A) (x : A) : A :=
  if truthy_opt upper && truthy_opt lower then
    (if below x upper && above x lower then d0 else x)
  else if truthy_opt upper && negb (truthy_opt lower) then
    (if below x upper then d0 else x)
  else if truthy_opt lower && negb (truthy_opt upper) then
    (if above x lower then d0 else x)
  else x.

(** What [b.data[b.data != 0] = 1] leaves in a cell, when [binarize] is
    set. *)
Definition binarize_cell (binarize : bool) (x : A) : A :=
  if binarize then (if dneb x d0 then d1 else x) else x.

(** [threshold(upper, lower, binarize)] *)
Definition threshold (self : Adjacency A) (upper lower : option (cutoff A))
    (binarize : bool) : Adjacency A :=
  let b := copy self in
  let upper := resolve (flatten (data b)) upper in
  let lower := resolve (flatten (data b)) lower in
  let b := set_data b (np_map (threshold_cell upper lower) (data b)) in
  set_data b (np_map (binarize_cell binarize) (data b)).

(** [mean(axis=0)] of a stack, the only call [ttest] makes. *)
Definition mean_of_stack (self : Adjacency A) : result (Adjacency A) :=
  m ← match data self with
      | Arr1 _ => Raise (Unsupported Msg.scalar_array)
      | Arr2 r c buf => Ok (Arr1 (np_mean_axis0 r c buf))
      end;
  t ← match matrix_type self with
      | None => Raise TypeError
      | Some t => Ok (flat_of t)
      end;
  __init__ (DArr m) None (Some t) None.

(** [self.data[:, i]] for each column [i]. *)
Definition columns (d : ndarray A) : result (list (list A)) :=
  match d with
  | Arr1 _ => Raise IndexError
  | Arr2 r c buf => Ok ((λ j, omap (λ i, get2 r c buf i j) (seq 0 r)) <$> seq 0 c)
  end.

(** [ttest(permutation)]: the pair [(t, p)] of the returned dict. *)
Definition ttest (self : Adjacency A) (permutation : bool)
  : result (Adjacency A * Adjacency A) :=
  if truth (is_single_matrix self) then Raise (ValueError Msg.ttest_single)
  else if permutation then
    cols ← columns (data self);
    let stats := one_sample_permutation <$> cols in
    t ← construct (Arr1 (fst <$> stats));
    p ← construct (Arr1 (snd <$> stats));
    Ok (t, p)
  else
    t ← mean_of_stack self;
    let p := deepcopy t in
    match data self with
    | Arr1 _ => Raise (Unsupported Msg.scalar_array)
    | Arr2 r c buf =>
        let '(tv, pv) := ttest_1samp r c buf in
        Ok (set_data t (Arr1 tv), set_data p (Arr1 pv))
    end.

(** [distance_to_similarity(beta)].  On a stack [squareform] returns a list:
    with an [int] for [beta] the product is a list and [.std()] fails, with
    a [float] the product itself fails. *)
Definition distance_to_similarity (self : Adjacency A) (beta : pynum A)
  : result (Adjacency A) :=
  if bool_decide (matrix_type self = Some Distance) then
    s ← squareform self;
    match s with
    | One m =>
        let sd := np_std (flatten m) in
        let sim := np_map (λ x, dexp (ddiv (dmul (dneg (as_dtype beta)) x) sd)) m in
        __init__ (DArr sim) None (Some MT_similarity) (labels self)
    | Many _ =>
        match beta with
        | PyInt _ => Raise AttributeError
        | PyFloat _ => Raise TypeError
        end
    end
  else Raise (ValueError Msg.not_distance).

(** [similarity_to_distance()].  On a stack [1 - list] is a [TypeError]. *)
Definition similarity_to_distance (self : Adjacency A) : result (Adjacency A) :=
  if bool_decide (matrix_type self = Some Similarity) then
    s ← squareform self;
    match s with
    | One m =>
        __init__ (DArr (np_map (λ x, dsub d1 x) m)) None (Some MT_distance) (labels self)
    | Many _ => Raise TypeError
    end
  else Raise (ValueError Msg.not_similarity).
End Methods.

(** ** [threshold] on a store of objects *)

(** [threshold] copies the receiver and then writes into the copy in place
    ([b.data[mask] = 0]).  Here instances are objects in a store, named by
    their address, so that a write reaches every name of an object. *)
Module Store.
Section Store.
Context {A : Type} {dt : DType A} {co : Collaborators A}.

(** The store: the objects by address. *)
Local Abbreviation store := (gmap nat (Adjacency A)).

(** A new object. *)
Definition alloc (h : store) (a : Adjacency A) : nat * store :=
  let l := fresh (dom h) in (l, <[l := a]> h).

(** [self.copy()]: [deepcopy] builds a new object with equal attributes. *)
Definition copy (self : nat) (h : store) : option (nat * store) :=
  a ← h !! self; Some (alloc h a).

(** [b.data[mask] = v]: each cell [x] of the array of [b] becomes [f x]. *)
Definition write_cells (b : nat) (f : A → A) (h : store) : store :=
  alter (λ a, set_data a (np_map f (data a))) b h.

(** [self.threshold(upper, lower, binarize)]: the address of the result and
    the store afterwards. *)
Definition threshold (self : nat) (upper lower : option (cutoff A))
    (binarize : bool) (h : store) : option (nat * store) :=
  '(b, h) ← copy self h;
  a ← h !! b;
  let upper := resolve (flatten (data a)) upper in
  let lower := resolve (flatten (data a)) lower in
  let h := write_cells b (threshold_cell upper lower) h in
  let h := write_cells b (binarize_cell binarize) h in
  Some (b, h).
End Store.
End Store.

(** ** Vocabulary of the statements *)

Section Vocabulary.
Context {A : Type} {dt : DType A} {co : Collaborators A}.

(** The entry [(i, j)] of an [n] by [n] buffer. *)
Definition cell (n : nat) (buf : list A) (i j : nat) : A :=
  default d0 (buf !! (i * n + j)).

(** Symmetric: every entry above the diagonal compares equal ([==]) to its
    mirror image. *)
Definition is_symmetric (n : nat) (buf : list A) : Prop :=
  ∀ i j, i < j < n → deqb (cell n buf i j) (cell n buf j i) = true.

(** The entries above the diagonal, row by row. *)
Definition upper_triangle (n : nat) (buf : list A) : list A :=
  (λ '(i, j), cell n buf i j) <$> triu_indices n.

(** The matrix with its diagonal set to zero. *)
Definition zero_diagonal (n : nat) (buf : list A) : list A :=
  tabulate2 n n (λ i j, if i =? j then d0 else cell n buf i j).

(** The sum the constructor reads off the diagonal. *)
Definition diagonal_sum (n : nat) (buf : list A) : A := np_sum (np_diag n n buf).

(** What one element of a list resolves to. *)
Definition resolves (d : ndarray A) (s : bool) (t : option mtype) : Prop :=
  ∃ x single, _import_single_data d None = Ok (x, s, t, single).

(** A square matrix of side [n] with a buffer of the right size. *)
Definition square_matrix (n : nat) (m : ndarray A) : Prop :=
  ∃ buf, m = Arr2 n n buf ∧ length buf = n * n.

(** A single symmetric matrix of side [n], stored as the vector [v], with
    labels that fit. *)
Definition single_symmetric (a : Adjacency A) (n : nat) (v : list A) : Prop :=
  data a = Arr1 v ∧
  is_single_matrix a = PTrue ∧
  issymmetric a = PTrue ∧
  0 < n ∧
  length v * 2 = n * (n - 1) ∧
  (∀ l, labels a = Some l → labels_len l = n).

(** [op] cell by cell, with the shape of the left array. *)
Definition zip_array (op : A → A → A) (a b : ndarray A) : ndarray A :=
  match a with
  | Arr1 u => Arr1 (zip_with op u (flatten b))
  | Arr2 r c u => Arr2 r c (zip_with op u (flatten b))
  end.

(** The laws of an element type that some statements need. *)
Definition eqb_sound : Prop := ∀ x y : A, deqb x y = true → x = y.
Definition add_sub_cancel : Prop := ∀ x y : A, dsub (dadd x y) y = x.
Definition mul_one : Prop := ∀ x : A, dmul x (dof_Z 1) = x.
Definition zero_is_zero : Prop := deqb (d0 : A) d0 = true.
End Vocabulary.

(** ** Concrete inputs *)

(** An int64 from an integer literal. *)
Definition i64 (z : Z) : int64 := Zmod.of_Z (2 ^ 64) z.

(** Collaborators to run the methods on concrete float64 inputs.  They stand
    in for the numeric routines and compute nothing of them; every statement
    that mentions collaborators holds for all of them. *)
Definition idle_collaborators : Collaborators float := {|
  np_percentile := λ _ q, q;
  np_mean_axis0 := λ _ _ buf, buf;
  ttest_1samp := λ _ _ buf, (buf, buf);
  one_sample_permutation := λ _, (0%float, 0%float);
  np_std := λ _, 1%float;
  dneg := PrimFloat.opp;
  ddiv := PrimFloat.div;
  dexp := λ x, x;
|}.

Module Ex.
Local Open Scope float_scope.

(** The similarity matrix of example scenario 1 of the spec. *)
Definition scenario1 : ndarray float :=
  Arr2 3 3 [1; 0.5; 0.2;
            0.5; 1; 0.3;
            0.2; 0.3; 1].

(** The square matrix with no row. *)
Definition no_rows : ndarray float := Arr2 0 0 [].

(** A symmetric matrix whose diagonal sums to 4. *)
Definition twos : ndarray float := Arr2 2 2 [2; 1; 1; 2].

(** A distance matrix, and the instance that stores it. *)
Definition dist2 : ndarray float := Arr2 2 2 [0; 3; 3; 0].
Definition dist2_adj : Adjacency float :=
  mkAdjacency (Arr1 [3]) (Some Distance) PTrue PTrue [] None.

(** A similarity matrix with a negative entry, and its instance. *)
Definition anti : ndarray float := Arr2 2 2 [1; -0.5; -0.5; 1].
Definition anti_adj : Adjacency float :=
  mkAdjacency (Arr1 [-0.5]) (Some Similarity) PTrue PTrue [] None.

(** A similarity matrix, and its instance. *)
Definition sim2 : ndarray float := Arr2 2 2 [1; 0.5; 0.5; 1].
Definition sim2_adj : Adjacency float :=
  mkAdjacency (Arr1 [0.5]) (Some Similarity) PTrue PTrue [] None.

(** A stack of two similarity matrices. *)
Definition sim_stack : Adjacency float :=
  mkAdjacency (Arr2 2 1 [0.5; 0.25]) (Some Similarity) PFalse PTrue [] None.

(** Two distance matrices for the arithmetic. *)
Definition tenth : Adjacency float :=
  mkAdjacency (Arr1 [0.1]) (Some Distance) PTrue PTrue [] None.
Definition fifth : Adjacency float :=
  mkAdjacency (Arr1 [0.2]) (Some Distance) PTrue PTrue [] None.

(** int64 matrices: symmetric with a zero diagonal, symmetric with a unit
    diagonal, and not symmetric. *)
Definition sym_int : list int64 := [i64 0; i64 3; i64 3; i64 0].
Definition unit_int : list int64 := [i64 1; i64 7; i64 7; i64 1].
Definition asym_int : list int64 := [i64 2; i64 1; i64 3; i64 2].
Definition odd_int : list int64 := [i64 5; i64 1; i64 1; i64 5].

(** int64 instances for the arithmetic: two of one shape, one of another. *)
Definition p_int : Adjacency int64 :=
  mkAdjacency (Arr1 [i64 5; i64 (-2); i64 9]) (Some Distance) PTrue PTrue [] None.
Definition q_int : Adjacency int64 :=
  mkAdjacency (Arr1 [i64 4; i64 8; i64 (-1)]) (Some Distance) PTrue PTrue [] None.
Definition r_int : Adjacency int64 :=
  mkAdjacency (Arr1 [i64 6]) (Some Distance) PTrue PTrue [] None.

(** Lists of matrices: two distance matrices; a distance and a similarity
    matrix. *)
Definition two_distances : list (ndarray float) :=
  [Arr2 2 2 [0; 1; 1; 0]; Arr2 2 2 [0; 3; 3; 0]].
Definition distance_and_similarity : list (ndarray float) :=
  [Arr2 2 2 [0; 1; 1; 0]; Arr2 2 2 [1; 3; 3; 1]].
Definition two_similarities : list (ndarray float) :=
  [Arr2 2 2 [1; 0.5; 0.5; 1]; Arr2 2 2 [1; 0.25; 0.25; 1]].
End Ex.

(** ** More of the class: [append], [mean], [std] *)

Module MoreMsg.
Definition not_an_instance : string := "Make sure data is a Adjacency instance.".
Definition append_shape : string := "Data is not the same shape as Adjacency instance.".
Definition vstack : string :=
  "all the input array dimensions except for the concatenation axis must match exactly".
End MoreMsg.

(** The reductions of numpy along an axis that [mean] and [std] call, beside
    those of [Collaborators]: they stay abstract. *)
Class AxisStats (A : Type) : Type := {
  (** [np.mean(data)] of all the entries *)
  np_mean : list A → A;
  (** [np.mean(data, axis=1)] of an [r] by [c] array: one value per row *)
  np_mean_axis1 : nat → nat → list A → list A;
  (** [np.std(data, axis=0)] and [np.std(data, axis=1)] *)
  np_std_axis0 : nat → nat → list A → list A;
  np_std_axis1 : nat → nat → list A → list A;
}.

(** What [mean] and [std] return: a number, an instance, a vector, or
    [None] when the axis is neither 0 nor 1. *)
Inductive statistic (A : Type) : Type :=
| Scalar (x : A)
| Instance (a : Adjacency A)
| Vector (v : list A)
| NoValue.
Arguments Scalar {A} x.
Arguments Instance {A} a.
Arguments Vector {A} v.
Arguments NoValue {A}.

(** [np.vstack([a, b])]: a vector counts as one row; the rows of [b] follow
    those of [a], and the two must have rows of one length. *)
Definition np_vstack {A} (a b : ndarray A) : result (ndarray A) :=
  let as_rows x :=
    match x with
    | Arr1 v => (1, length v, v)
    | Arr2 r c v => (r, c, v)
    end in
  let '(r1, c1, v1) := as_rows a in
  let '(r2, c2, v2) := as_rows b in
  if c1 =? c2 then Ok (Arr2 (r1 + r2) c1 (v1 ++ v2))
  else Raise (ValueError MoreMsg.vstack).

(** [df.size]: the number of cells. *)
Definition df_size (df : DataFrame) : nat :=
  length df * match df with [] => 0 | r :: _ => length r end.

Section MoreMethods.
Context {A : Type} {dt : DType A} {co : Collaborators A} {ax : AxisStats A}.

(** [append(data)].  The two square shapes are compared as sequences; the
    empty instance answers numpy's empty array for its square shape, and its
    comparison with a tuple is unequal or itself a [ValueError], with the
    version of numpy: a [ValueError] either way. *)
Definition append (self : Adjacency A) (y : operand A) : result (Adjacency A) :=
  match y with
  | Adj other =>
      if isempty self then Ok (copy other)
      else
        let out := copy self in
        mine ← square_shape self;
        theirs ← square_shape other;
        if negb (bool_decide (mine = theirs))
        then Raise (ValueError MoreMsg.append_shape)
        else
          stacked ← np_vstack (data self) (data other);
          let out := set_is_single_matrix (set_data out stacked) PFalse in
          if negb (df_size (Y out) =? 0)
          then Ok (set_Y out (Y self ++ Y other))
          else Ok out
  | Num _ | Other _ => Raise (ValueError MoreMsg.not_an_instance)
  end.

(** [Adjacency(data=values, matrix_type=self.matrix_type + '_flat')], the
    instance [mean] and [std] build from the reduction along axis 0. *)
Definition flat_instance (self : Adjacency A) (values : result (ndarray A))
  : result (Adjacency A) :=
  m ← values;
  t ← match matrix_type self with
      | None => Raise TypeError
      | Some t => Ok (flat_of t)
      end;
  __init__ (DArr m) None (Some t) None.

(** [mean(axis)] *)
Definition mean (self : Adjacency A) (axis : Z) : result (statistic A) :=
  if truth (is_single_matrix self) then Ok (Scalar (np_mean (flatten (data self))))
  else if (axis =? 0)%Z then
    Instance <$> flat_instance self
      match data self with
      | Arr1 _ => Raise (Unsupported Msg.scalar_array)
      | Arr2 r c buf => Ok (Arr1 (np_mean_axis0 r c buf))
      end
  else if (axis =? 1)%Z then
    match data self with
    | Arr1 _ => Raise IndexError
    | Arr2 r c buf => Ok (Vector (np_mean_axis1 r c buf))
    end
  else Ok NoValue.

(** [std(axis)] *)
Definition std (self : Adjacency A) (axis : Z) : result (statistic A) :=
  if truth (is_single_matrix self) then Ok (Scalar (np_std (flatten (data self))))
  else if (axis =? 0)%Z then
    Instance <$> flat_instance self
      match data self with
      | Arr1 _ => Raise (Unsupported Msg.scalar_array)
      | Arr2 r c buf => Ok (Arr1 (np_std_axis0 r c buf))
      end
  else if (axis =? 1)%Z then
    match data self with
    | Arr1 _ => Raise IndexError
    | Arr2 r c buf => Ok (Vector (np_std_axis1 r c buf))
    end
  else Ok NoValue.
End MoreMethods.

(** ** More vocabulary *)

Section MoreVocabulary.
Context {A : Type} {dt : DType A}.

(** [==] holds between each value and itself (no NaN among them). *)
Definition self_equal (v : list A) : Prop := Forall (λ x, deqb x x = true) v.

(** Zero plus zero is zero. *)
Definition add_zero : Prop := dadd (d0 : A) d0 = d0.

(** The vector a square matrix is stored as: its upper triangle when it is
    taken as symmetric, its buffer otherwise. *)
Definition stored (n : nat) (s : bool) (buf : list A) : list A :=
  if s then upper_triangle n buf else buf.

(** The number of rows an instance brings to a stack. *)
Definition rows_of (a : Adjacency A) : nat :=
  match data a with
  | Arr1 _ => 1
  | Arr2 r _ _ => r
  end.

(** The length of a row of the data of an instance. *)
Definition width (a : Adjacency A) : nat :=
  match data a with
  | Arr1 v => length v
  | Arr2 _ c _ => c
  end.

(** The data and the flags agree: a single matrix is a vector, a stack is a
    2-D array with a buffer of the right size. *)
Definition consistent (a : Adjacency A) : Prop :=
  match data a with
  | Arr1 _ => is_single_matrix a = PTrue
  | Arr2 r c buf => is_single_matrix a = PFalse ∧ length buf = r * c
  end.

(** [Y] has no cell, or one row per row of the data. *)
Definition Y_aligned (a : Adjacency A) : Prop :=
  df_empty (Y a) = true ∨ length (Y a) = shape0 (data a).
End MoreVocabulary.

(** ** More concrete inputs *)

(** Axis reductions to run [mean] and [std] on concrete float64 inputs; as
    with [idle_collaborators], they compute nothing of the real routines. *)
Definition idle_axis_stats : AxisStats float := {|
  np_mean := λ _, 0%float;
  np_mean_axis1 := λ _ _ buf, buf;
  np_std_axis0 := λ _ _ buf, buf;
  np_std_axis1 := λ _ _ buf, buf;
|}.

Module Ex2.
Local Open Scope float_scope.

(** The upper triangle of a 3 by 3 matrix, and the instance that stores it. *)
Definition three : list float := [1; 2; 3].
Definition three_adj : Adjacency float :=
  mkAdjacency (Arr1 three) (Some Distance) PTrue PTrue [] None.

(** Two rows of three values: a stack of two 3 by 3 matrices. *)
Definition two_by_three : list float := [1; 2; 3; 4; 5; 6].

(** A matrix that is not symmetric. *)
Definition lopsided : list float := [7; 1; 2; 7].

(** Two matrices that are not symmetric. *)
Definition two_directed : list (ndarray float) :=
  [Arr2 2 2 [0; 1; 2; 0]; Arr2 2 2 [1; 2; 3; 4]].

(** Two symmetric matrices whose diagonals sum to 4 and to 6. *)
Definition two_untyped : list (ndarray float) :=
  [Arr2 2 2 [2; 1; 1; 2]; Arr2 2 2 [3; 1; 1; 3]].

(** A stack of three similarity matrices with a [Y] of three rows. *)
Definition stack3 : Adjacency float :=
  mkAdjacency (Arr2 3 1 [0.5; 0.25; 0.75]) (Some Similarity) PFalse PTrue
    [["a"%string]; ["b"%string]; ["c"%string]] None.

(** The buffer of the 8 by 8 matrix with the diagonal [d] and zeros
    elsewhere, and two diagonals on which the order of the additions shows:
    added from the left the first sums to -1 and the second to 0, added as
    numpy adds eight float64 values the first sums to 0 and the second
    to 1. *)
Definition diagonal8 (d : list float) : list float :=
  tabulate2 8 8 (λ i j, if (i =? j)%nat then default 0 (d !! i) else 0).
Definition cancelling : list float := [1e16; 1; -1e16; -1; 0; 0; 0; 0].
Definition absorbing : list float := [2; 1e16; -1e16; -1; -1; 0; 0; 0].

(** A distance matrix, a similarity matrix and a vector of two values. *)
Definition mixed_then_vector : list (ndarray float) :=
  [Arr2 2 2 [0; 1; 1; 0]; Arr2 2 2 [1; 3; 3; 1]; Arr1 [1; 2]].

(** A single distance matrix and a single directed matrix of side 2. *)
Definition quarter : Adjacency float :=
  mkAdjacency (Arr1 [0.25]) (Some Distance) PTrue PTrue [] None.
Definition directed2 : Adjacency float :=
  mkAdjacency (Arr1 [1; 2; 3; 4]) (Some Directed) PTrue PFalse [] None.
End Ex2.

(** * Lemmas *)

(** ** Lists and the error monad *)

Section ListFacts.
Context {B C : Type}.

Lemma mapM_option_fmap (f : B → option C) (g : B → C) (l : list B) :
  (∀ x, x ∈ l → f x = Some (g x)) → mapM f l = Some (g <$> l).
Proof.
  intros Hf. apply mapM_Some_2.
  induction l as [|x l IH]; simpl; constructor.
  - apply Hf. left.
  - apply IH. intros y Hy. apply Hf. by right.
Qed.

Lemma mapM_result_fmap (f : B → result C) (g : B → C) (l : list B) :
  (∀ x, x ∈ l → f x = Ok (g x)) → mapM f l = Ok (g <$> l).
Proof.
  induction l as [|x l IH]; intros Hf; [done|].
  simpl. rewrite Hf by left. simpl.
  rewrite IH; [done|]. intros y Hy. apply Hf. by right.
Qed.

Lemma length_tabulate2 (r c : nat) (f : nat → nat → C) :
  length (tabulate2 r c f) = r * c.
Proof.
  unfold tabulate2. induction r as [|r IH]; [done|].
  rewrite seq_S, bind_app, length_app, IH. simpl.
  rewrite app_nil_r, length_fmap, length_seq. lia.
Qed.

Lemma lookup_tabulate2 (r c : nat) (f : nat → nat → C) (i j : nat) :
  i < r → j < c → tabulate2 r c f !! (i * c + j) = Some (f i j).
Proof.
  intros Hi Hj. induction r as [|r IH]; [lia|].
  unfold tabulate2 in *. rewrite seq_S, bind_app. simpl. rewrite app_nil_r.
  destruct (decide (i < r)) as [Hlt|Hge].
  - rewrite lookup_app_l; [by apply IH|].
    fold (tabulate2 r c f). rewrite length_tabulate2. nia.
  - assert (i = r) as -> by lia.
    rewrite lookup_app_r; fold (tabulate2 r c f); rewrite length_tabulate2; [|lia].
    replace (r * c + j - r * c) with j by lia.
    rewrite list_lookup_fmap, lookup_seq_lt by done. done.
Qed.

(** An index below [r * c] is a cell [(i, j)]. *)
Lemma cell_of_index (r c k : nat) :
  k < r * c → ∃ i j, i < r ∧ j < c ∧ k = i * c + j.
Proof.
  intros Hk. assert (c ≠ 0) by nia.
  exists (k / c), (k `mod` c). split_and!.
  - apply Nat.Div0.div_lt_upper_bound. lia.
  - by apply Nat.mod_upper_bound.
  - rewrite (Nat.div_mod_eq k c) at 1. lia.
Qed.

Lemma tabulate2_ext (r c : nat) (f g : nat → nat → C) :
  (∀ i j, i < r → j < c → f i j = g i j) → tabulate2 r c f = tabulate2 r c g.
Proof.
  intros Hfg. apply (list_eq_same_length _ _ (r * c)); try apply length_tabulate2.
  intros k x y Hk Hx Hy.
  destruct (cell_of_index r c k Hk) as (i & j & Hi & Hj & ->).
  rewrite lookup_tabulate2 in Hx, Hy by done.
  rewrite Hfg in Hx by done. congruence.
Qed.

(** A buffer is the table of its cells. *)
Lemma tabulate2_cells (r c : nat) (buf : list C) (d : C) :
  length buf = r * c →
  buf = tabulate2 r c (λ i j, default d (buf !! (i * c + j))).
Proof.
  intros Hlen. apply (list_eq_same_length _ _ (r * c)); [apply length_tabulate2|done|].
  intros k x y Hk Hx Hy.
  destruct (cell_of_index r c k Hk) as (i & j & Hi & Hj & ->).
  rewrite lookup_tabulate2 in Hy by done. rewrite Hx in Hy. simpl in Hy. congruence.
Qed.
End ListFacts.

(** ** The upper triangle *)

Lemma elem_of_triu_indices (n i j : nat) :
  (i, j) ∈ triu_indices n ↔ i < j < n.
Proof.
  unfold triu_indices. rewrite list_elem_of_bind. split.
  - intros (k & Hin & Hk). apply elem_of_seq in Hk.
    apply list_elem_of_fmap in Hin as (j' & [= -> ->] & Hj').
    apply elem_of_seq in Hj'. lia.
  - intros Hij. exists i. split.
    + apply list_elem_of_fmap. exists j. split; [done|]. apply elem_of_seq. lia.
    + apply elem_of_seq. lia.
Qed.

Lemma NoDup_triu_indices (n : nat) : NoDup (triu_indices n).
Proof.
  unfold triu_indices. apply NoDup_bind.
  - intros a b [c d] _ _ Ha Hb.
    apply list_elem_of_fmap in Ha as (? & [= -> ->] & _).
    by apply list_elem_of_fmap in Hb as (? & [= -> ->] & _).
  - intros a _. apply NoDup_fmap_2; [apply _|apply NoDup_seq].
  - apply NoDup_seq.
Qed.

(** The rows of the upper triangle, up to row [m]. *)
Lemma length_triu_rows (n m : nat) :
  length (seq 0 m ≫= λ i, pair i <$> seq (S i) (n - S i)) = row_offset n m.
Proof.
  induction m as [|m IH]; [done|].
  rewrite seq_S, bind_app, length_app, IH. simpl.
  rewrite app_nil_r, length_fmap, length_seq. done.
Qed.

Lemma row_offset_mono (n i m : nat) :
  i ≤ m → row_offset n i ≤ row_offset n m.
Proof. induction 1; simpl; lia. Qed.

Lemma row_offset_double (n i : nat) :
  i ≤ n → row_offset n i * 2 + i * (i + 1) = 2 * i * n.
Proof.
  induction i as [|i IH]; simpl; [lia|]. intros Hi.
  assert (row_offset n i * 2 + i * (i + 1) = 2 * i * n) as IH' by (apply IH; lia).
  assert (∃ d, n = S i + d) as [d ->] by (exists (n - S i); lia).
  replace (S i + d - S i) with d by lia. nia.
Qed.

Lemma length_triu_indices (n : nat) :
  length (triu_indices n) = row_offset n n.
Proof. apply length_triu_rows. Qed.

Lemma length_triu_indices_double (n : nat) :
  length (triu_indices n) * 2 = n * (n - 1).
Proof.
  rewrite length_triu_indices.
  pose proof (row_offset_double n n). nia.
Qed.

Lemma condensed_index_lt (n i j : nat) :
  i < j < n → condensed_index n i j < row_offset n n.
Proof.
  intros Hij. unfold condensed_index.
  pose proof (row_offset_mono n (S i) n). simpl in *. lia.
Qed.

Lemma lookup_triu_rows (n m i j : nat) :
  i < m → i < j < n →
  (seq 0 m ≫= λ i, pair i <$> seq (S i) (n - S i)) !! (row_offset n i + (j - S i))
  = Some (i, j).
Proof.
  intros Hi Hij. induction m as [|m IH]; [lia|].
  rewrite seq_S, bind_app. simpl. rewrite app_nil_r.
  destruct (decide (i < m)) as [Hlt|Hge].
  - rewrite lookup_app_l; [by apply IH|].
    rewrite length_triu_rows.
    pose proof (row_offset_mono n (S i) m). simpl in *. lia.
  - assert (i = m) as -> by lia.
    rewrite lookup_app_r; rewrite length_triu_rows; [|lia].
    replace (row_offset n m + (j - S m) - row_offset n m) with (j - S m) by lia.
    rewrite list_lookup_fmap, lookup_seq_lt by lia. simpl. f_equal. f_equal. lia.
Qed.

(** The pair [(i, j)] sits at its condensed index. *)
Lemma lookup_triu_indices (n i j : nat) :
  i < j < n → triu_indices n !! condensed_index n i j = Some (i, j).
Proof. intros Hij. apply lookup_triu_rows; lia. Qed.

(** ** Reading a square matrix *)

Section SquareFacts.
Context {A : Type} {dt : DType A}.

Lemma get2_square (n : nat) (buf : list A) (i j : nat) :
  length buf = n * n → i < n → j < n →
  get2 n n buf i j = Some (cell n buf i j).
Proof.
  intros Hlen Hi Hj. unfold get2, cell.
  rewrite bool_decide_eq_true_2 by done.
  destruct (lookup_lt_is_Some_2 buf (i * n + j)) as [x ->]; [nia|done].
Qed.

Lemma length_upper_triangle (n : nat) (buf : list A) :
  length (upper_triangle n buf) * 2 = n * (n - 1).
Proof. unfold upper_triangle. rewrite length_fmap. apply length_triu_indices_double. Qed.

(** Where an entry above the diagonal is kept. *)
Lemma lookup_upper_triangle (n : nat) (buf : list A) (i j : nat) :
  i < j < n → upper_triangle n buf !! condensed_index n i j = Some (cell n buf i j).
Proof.
  intros Hij. unfold upper_triangle.
  by rewrite list_lookup_fmap, lookup_triu_indices.
Qed.

Lemma take_pairs_triu (n : nat) (buf : list A) :
  length buf = n * n →
  take_pairs (Arr2 n n buf) (triu_indices n) = Ok (upper_triangle n buf).
Proof.
  intros Hlen. unfold take_pairs, upper_triangle.
  rewrite (mapM_option_fmap _ (λ '(i, j), cell n buf i j)); [done|].
  intros [i j] Hij%elem_of_triu_indices. apply get2_square; lia.
Qed.

Lemma take_pairs_T_triu (n : nat) (buf : list A) :
  length buf = n * n →
  take_pairs_T (Arr2 n n buf) (triu_indices n)
  = Ok ((λ '(i, j), cell n buf j i) <$> triu_indices n).
Proof.
  intros Hlen. unfold take_pairs_T, take_pairs.
  rewrite (mapM_option_fmap _ (λ '(i, j), cell n buf i j)).
  - simpl. f_equal. rewrite <- list_fmap_compose. apply list_fmap_ext.
    by intros ? [i j].
  - intros [j i] Hin. apply list_elem_of_fmap in Hin as ([i' j'] & [= -> ->] & Hij).
    apply elem_of_triu_indices in Hij. apply get2_square; lia.
Qed.

Lemma all_equal_fmap {B} (f g : B → A) (l : list B) :
  all_equal (f <$> l) (g <$> l) = forallb (λ p, deqb (f p) (g p)) l.
Proof.
  unfold all_equal. induction l as [|p l IH]; [done|].
  cbn. by rewrite <- IH.
Qed.

(** The test of the constructor decides [is_symmetric]. *)
Lemma symmetric_test_square (n : nat) (buf : list A) :
  length buf = n * n →
  ∃ b, symmetric_test (Arr2 n n buf) = Ok b ∧ (b = true ↔ is_symmetric n buf).
Proof.
  intros Hlen. unfold symmetric_test. cbn [shape0].
  rewrite take_pairs_triu, take_pairs_T_triu by done. cbn [mbind result_bind].
  eexists; split; [done|].
  unfold upper_triangle. rewrite all_equal_fmap, forallb_forall.
  unfold is_symmetric. split.
  - intros Hall i j Hij.
    apply (Hall (i, j)), list_elem_of_In, elem_of_triu_indices, Hij.
  - intros Hsym [i j] Hin%list_elem_of_In%elem_of_triu_indices. by apply Hsym.
Qed.

Lemma symmetric_test_true (n : nat) (buf : list A) :
  length buf = n * n → is_symmetric n buf →
  symmetric_test (Arr2 n n buf) = Ok true.
Proof.
  intros Hlen Hsym. destruct (symmetric_test_square n buf Hlen) as (b & -> & Hb).
  f_equal. by apply Hb.
Qed.

Lemma symmetric_test_false (n : nat) (buf : list A) :
  length buf = n * n → ¬ is_symmetric n buf →
  symmetric_test (Arr2 n n buf) = Ok false.
Proof.
  intros Hlen Hsym. destruct (symmetric_test_square n buf Hlen) as (b & -> & Hb).
  f_equal. destruct b; [|done]. destruct Hsym. by apply Hb.
Qed.

(** [is_symmetric] from the outcome of the test, for concrete matrices. *)
Lemma is_symmetric_of_test (n : nat) (buf : list A) :
  length buf = n * n → symmetric_test (Arr2 n n buf) = Ok true → is_symmetric n buf.
Proof.
  intros Hlen Htest. destruct (symmetric_test_square n buf Hlen) as (b & Hb & Hiff).
  apply Hiff. congruence.
Qed.

Lemma not_symmetric_of_test (n : nat) (buf : list A) :
  length buf = n * n → symmetric_test (Arr2 n n buf) = Ok false → ¬ is_symmetric n buf.
Proof.
  intros Hlen Htest Hsym. rewrite symmetric_test_true in Htest by done. done.
Qed.

(** scipy's check of the length of a condensed vector. *)
Lemma ceil_sqrt_pronic (n : nat) : 2 ≤ n → ceil_sqrt (n * (n - 1)) = n.
Proof.
  intros Hn. unfold ceil_sqrt.
  assert (Nat.sqrt (n * (n - 1)) = n - 1) as ->.
  { apply Nat.sqrt_unique. nia. }
  destruct (Nat.eqb_spec ((n - 1) * (n - 1)) (n * (n - 1))); [nia|lia].
Qed.

Lemma scipy_squareform_condensed (n : nat) (v : list A) :
  0 < n → length v * 2 = n * (n - 1) →
  scipy_squareform v = Ok (Arr2 n n (to_squareform_from_vector n v)).
Proof.
  intros Hn Hlen. unfold scipy_squareform.
  destruct (Nat.eqb_spec (length v) 0) as [Hz|Hnz].
  - assert (n = 1) as -> by nia. done.
  - assert (2 ≤ n) by nia.
    rewrite Hlen, ceil_sqrt_pronic by done.
    by rewrite Nat.eqb_refl.
Qed.

(** Above the diagonal the square form holds the condensed vector. *)
Lemma cell_to_squareform (n : nat) (v : list A) (i j : nat) :
  i < n → j < n →
  cell n (to_squareform_from_vector n v) i j =
    if i <? j then default d0 (v !! condensed_index n i j)
    else if j <? i then default d0 (v !! condensed_index n j i)
    else d0.
Proof.
  intros Hi Hj. unfold cell, to_squareform_from_vector.
  by rewrite lookup_tabulate2.
Qed.

Lemma upper_triangle_to_squareform (n : nat) (v : list A) :
  length v * 2 = n * (n - 1) →
  upper_triangle n (to_squareform_from_vector n v) = v.
Proof.
  intros Hlen.
  pose proof (length_triu_indices_double n) as Htri.
  apply (list_eq_same_length _ _ (length v)); [done| |].
  { unfold upper_triangle. rewrite length_fmap. lia. }
  intros k x y Hk Hx Hy.
  unfold upper_triangle in Hx. rewrite list_lookup_fmap in Hx.
  destruct (triu_indices n !! k) as [[i j]|] eqn:Hidx; [|done].
  simpl in Hx. injection Hx as <-.
  assert (i < j < n) as Hij.
  { apply elem_of_triu_indices, list_elem_of_lookup. eauto. }
  assert (k = condensed_index n i j) as ->.
  { pose proof (lookup_triu_indices n i j Hij) as Hc.
    eapply NoDup_lookup; eauto using NoDup_triu_indices. }
  rewrite cell_to_squareform by lia.
  destruct (Nat.ltb_spec i j); [|lia]. by rewrite Hy.
Qed.

(** Filling the square form from the upper triangle of a symmetric matrix
    gives the matrix back, with zeros on the diagonal. *)
Lemma to_squareform_upper_triangle (n : nat) (buf : list A) :
  (∀ i j, i < j < n → cell n buf i j = cell n buf j i) →
  to_squareform_from_vector n (upper_triangle n buf) = zero_diagonal n buf.
Proof.
  intros Hsym. unfold to_squareform_from_vector, zero_diagonal.
  apply tabulate2_ext. intros i j Hi Hj.
  destruct (Nat.ltb_spec i j), (Nat.ltb_spec j i), (Nat.eqb_spec i j); try lia.
  - by rewrite lookup_upper_triangle.
  - rewrite lookup_upper_triangle by lia. simpl. apply Hsym. lia.
  - done.
Qed.

Lemma zero_diagonal_id (n : nat) (buf : list A) :
  length buf = n * n → (∀ i, i < n → cell n buf i i = d0) →
  zero_diagonal n buf = buf.
Proof.
  intros Hlen Hdiag. rewrite (tabulate2_cells n n buf d0 Hlen) at 2.
  apply tabulate2_ext. intros i j Hi Hj.
  destruct (Nat.eqb_spec i j) as [->|]; [|done].
  symmetry. by apply Hdiag.
Qed.
End SquareFacts.

(** ** The constructor on one square matrix *)

Section Construct.
Context {A : Type} {dt : DType A}.

Lemma construct_import (x d : ndarray A) (s single : bool) (t : option mtype) :
  _import_single_data x None = Ok (d, s, t, single) →
  construct x = Ok (mkAdjacency d t (of_bool single) (of_bool s) [] None).
Proof.
  intros Himp. unfold construct, __init__, init_data.
  cbn [mbind result_bind]. by rewrite Himp.
Qed.

Lemma import_square_symmetric (n : nat) (buf : list A) :
  length buf = n * n → is_symmetric n buf →
  _import_single_data (Arr2 n n buf) None
  = Ok (Arr1 (upper_triangle n buf), true, infer_type (Arr2 n n buf), true).
Proof.
  intros Hlen Hsym. unfold _import_single_data.
  rewrite Nat.eqb_refl. cbn [mbind result_bind].
  rewrite symmetric_test_true by done. cbn [mbind result_bind shape0].
  by rewrite take_pairs_triu.
Qed.

Lemma import_square_directed (n : nat) (buf : list A) :
  length buf = n * n → ¬ is_symmetric n buf →
  _import_single_data (Arr2 n n buf) None = Ok (Arr1 buf, false, Some Directed, true).
Proof.
  intros Hlen Hsym. unfold _import_single_data.
  rewrite Nat.eqb_refl. cbn [mbind result_bind].
  by rewrite symmetric_test_false.
Qed.

Lemma construct_square_symmetric (n : nat) (buf : list A) :
  length buf = n * n → is_symmetric n buf →
  construct (Arr2 n n buf)
  = Ok (mkAdjacency (Arr1 (upper_triangle n buf)) (infer_type (Arr2 n n buf))
          PTrue PTrue [] None).
Proof.
  intros Hlen Hsym.
  by rewrite (construct_import _ _ _ _ _ (import_square_symmetric n buf Hlen Hsym)).
Qed.

Lemma construct_square_directed (n : nat) (buf : list A) :
  length buf = n * n → ¬ is_symmetric n buf →
  construct (Arr2 n n buf) = Ok (mkAdjacency (Arr1 buf) (Some Directed) PTrue PFalse [] None).
Proof.
  intros Hlen Hsym.
  by rewrite (construct_import _ _ _ _ _ (import_square_directed n buf Hlen Hsym)).
Qed.

(** The square form of a single symmetric instance. *)
Lemma squareform_single_symmetric (a : Adjacency A) (n : nat) (v : list A) :
  data a = Arr1 v → is_single_matrix a = PTrue → issymmetric a = PTrue →
  0 < n → length v * 2 = n * (n - 1) →
  squareform a = Ok (One (Arr2 n n (to_squareform_from_vector n v))).
Proof.
  intros Hd Hs Hy Hn Hlen. unfold squareform. rewrite Hd, Hs, Hy. cbn.
  by rewrite (scipy_squareform_condensed n).
Qed.

(** C1, as amended: a square symmetric matrix of side at least 1 comes back
    from [squareform] with the entries above its diagonal as they were, the
    entries below equal ([==]) to what they were, and zeros on the diagonal;
    it comes back exactly when its diagonal is zero and [==] is exact on the
    entries.  A square matrix that is not symmetric comes back exactly. *)
Theorem squareform_construct_roundtrip (n : nat) (buf : list A) :
  length buf = n * n →
  (0 < n → is_symmetric n buf →
     ∃ back,
       (construct (Arr2 n n buf) ≫= squareform) = Ok (One (Arr2 n n back)) ∧
       length back = n * n ∧
       ∀ i j, i < n → j < n →
         (i < j → cell n back i j = cell n buf i j) ∧
         (j < i → cell n back i j = cell n buf j i ∧
                  deqb (cell n back i j) (cell n buf i j) = true) ∧
         (i = j → cell n back i j = d0)) ∧
  (0 < n → is_symmetric n buf → eqb_sound (A:=A) →
     (∀ i, i < n → cell n buf i i = d0) →
     (construct (Arr2 n n buf) ≫= squareform) = Ok (One (Arr2 n n buf))) ∧
  (¬ is_symmetric n buf →
     (construct (Arr2 n n buf) ≫= squareform) = Ok (One (Arr2 n n buf))).
Proof.
  intros Hlen.
  assert (0 < n → is_symmetric n buf →
          (construct (Arr2 n n buf) ≫= squareform)
          = Ok (One (Arr2 n n (to_squareform_from_vector n (upper_triangle n buf)))))
    as Hback.
  { intros Hn Hsym.
    rewrite construct_square_symmetric by done. cbn [mbind result_bind].
    rewrite (squareform_single_symmetric _ n (upper_triangle n buf)); try done.
    apply length_upper_triangle. }
  split_and!.
  - intros Hn Hsym. eexists. split; [by apply Hback|].
    split; [apply length_tabulate2|].
    intros i j Hi Hj. rewrite cell_to_squareform by done.
    destruct (Nat.ltb_spec i j), (Nat.ltb_spec j i); split_and!; try lia.
    + intros _. by rewrite lookup_upper_triangle.
    + intros _. rewrite lookup_upper_triangle by done. split; [done|].
      apply Hsym. lia.
    + done.
  - intros Hn Hsym Hsound Hdiag. rewrite Hback by done.
    rewrite to_squareform_upper_triangle.
    + by rewrite zero_diagonal_id.
    + intros i j Hij. by apply Hsound, Hsym.
  - intros Hsym. rewrite construct_square_directed by done.
    cbn [mbind result_bind]. unfold squareform, reshape, int_sqrt.
    cbn [issymmetric is_single_matrix truth data shape0 flatten].
    by rewrite Hlen, Nat.sqrt_square, Nat.eqb_refl.
Qed.

(** C2, as amended: a square symmetric matrix is stored as its upper
    triangle, with [issymmetric] true; it is typed 'distance' when its
    diagonal sums to 0, and 'similarity' when its diagonal sums to its side
    length and not to 0 (the test for 0 comes first). *)
Theorem construct_infers_type (n : nat) (buf : list A) :
  length buf = n * n → is_symmetric n buf →
  ∃ a, construct (Arr2 n n buf) = Ok a ∧
       issymmetric a = PTrue ∧
       data a = Arr1 (upper_triangle n buf) ∧
       (deqb (diagonal_sum n buf) d0 = true → matrix_type a = Some Distance) ∧
       (deqb (diagonal_sum n buf) d0 = false →
        deqb (diagonal_sum n buf) (dof_Z (Z.of_nat n)) = true →
        matrix_type a = Some Similarity).
Proof.
  intros Hlen Hsym. eexists. split; [by apply construct_square_symmetric|].
  cbn. unfold infer_type, diagonal_sum. cbn.
  split_and!; try done.
  - by intros ->.
  - by intros -> ->.
Qed.

(** C3, as amended: a square symmetric matrix whose diagonal sums neither
    to 0 nor to its side length is constructed without an error; its
    [matrix_type] is [None], the default of the parameter, [issymmetric] is
    true and the data are the upper triangle. *)
Theorem construct_unrecognised_diagonal (n : nat) (buf : list A) :
  length buf = n * n → is_symmetric n buf →
  deqb (diagonal_sum n buf) d0 = false →
  deqb (diagonal_sum n buf) (dof_Z (Z.of_nat n)) = false →
  construct (Arr2 n n buf)
  = Ok (mkAdjacency (Arr1 (upper_triangle n buf)) None PTrue PTrue [] None).
Proof.
  intros Hlen Hsym Hz Hn. rewrite construct_square_symmetric by done.
  unfold infer_type, diagonal_sum in *. cbn in *. by rewrite Hz, Hn.
Qed.
End Construct.

(** ** The constructor on a list of matrices *)

Section Stack.
Context {A : Type} {dt : DType A}.

Lemma mapM_result_Forall2 {B C} (f : B → result C) (l : list B) (k : list C) :
  Forall2 (λ x y, f x = Ok y) l k → mapM f l = Ok k.
Proof.
  induction 1 as [|x y l k Hxy _ IH]; [done|].
  cbn. rewrite Hxy. cbn. by rewrite IH.
Qed.

Lemma all_same_true {T} `{EqDecision T} (x : T) (l : list T) :
  Forall (λ y, y = x) l → all_same l = true.
Proof.
  intros Hall. destruct l as [|y l]; [done|].
  unfold all_same. apply forallb_forall. intros z Hz%list_elem_of_In.
  apply bool_decide_eq_true_2.
  rewrite Forall_forall in Hall.
  rewrite (Hall z Hz). symmetry. apply Hall. left.
Qed.

Lemma all_same_false {T} `{EqDecision T} (x y : T) (l : list T) :
  x ∈ l → y ∈ l → x ≠ y → all_same l = false.
Proof.
  intros Hx Hy Hne. apply not_true_is_false. intros Hall.
  destruct l as [|z l]; [by apply elem_of_nil in Hx|].
  unfold all_same in Hall. rewrite forallb_forall in Hall.
  assert (∀ w, w ∈ z :: l → w = z) as Heq.
  { intros w Hw. eapply bool_decide_eq_true_1, Hall. by apply list_elem_of_In. }
  apply Hne. by rewrite (Heq x), (Heq y).
Qed.

Lemma np_array_vectors (L : nat) (vs : list (list A)) :
  vs ≠ [] → Forall (λ v, length v = L) vs →
  np_array (Arr1 <$> vs) = Ok (Arr2 (length vs) L (mjoin vs)).
Proof.
  intros Hne Hall. destruct vs as [|v vs]; [done|].
  assert (length v = L) as Hv by (by inversion Hall).
  cbn [np_array fmap list_fmap].
  rewrite (proj2 (forallb_forall _ _)).
  - rewrite Hv, length_cons, length_fmap. do 2 f_equal.
    change (mjoin (flatten <$> (Arr1 <$> v :: vs)) = mjoin (v :: vs)).
    rewrite <- list_fmap_compose. by rewrite list_fmap_id.
  - intros a Ha%list_elem_of_In.
    change (a ∈ Arr1 <$> v :: vs) in Ha.
    apply list_elem_of_fmap in Ha as (w & -> & Hw).
    rewrite Forall_forall in Hall. rewrite (Hall w Hw), Hv. apply Nat.eqb_refl.
Qed.

(** What a square matrix is imported as: a vector whose length depends
    only on the side and on the symmetry. *)
Lemma import_square_vector (n : nat) (m x : ndarray A) (s single : bool)
    (t : option mtype) :
  square_matrix n m → _import_single_data m None = Ok (x, s, t, single) →
  ∃ v, x = Arr1 v ∧ length v = if s then length (triu_indices n) else n * n.
Proof.
  intros (buf & -> & Hlen) Himp.
  destruct (symmetric_test_square n buf Hlen) as ([] & _ & Hb).
  - rewrite (import_square_symmetric n buf Hlen (proj1 Hb eq_refl)) in Himp.
    injection Himp as <- <- <- <-. eexists; split; [done|].
    unfold upper_triangle. by rewrite length_fmap.
  - rewrite (import_square_directed n buf Hlen) in Himp.
    + injection Himp as <- <- <- <-. by eexists.
    + intros Hsym%Hb. done.
Qed.

Lemma mapM_result_raise {B C} (f : B → result C) (pre post : list B) (m : B) (e : exn) :
  Forall (λ x, ∃ r, f x = Ok r) pre → f m = Raise e →
  mapM f (pre ++ m :: post) = Raise e.
Proof.
  intros Hpre Hm. induction Hpre as [|x pre [r Hx] _ IH]; cbn.
  - by rewrite Hm.
  - rewrite Hx. cbn. by rewrite IH.
Qed.

(** C4, as amended: a non-empty list of [k] square matrices of one side
    that all resolve to the same symmetry and type is constructed as a
    stack, with [is_single_matrix] false, length [k] and [k] rows; a list
    every element of which is imported without an error and in which two
    elements resolve to different symmetries or types is refused with a
    [ValueError]; and when the import of an element fails, the constructor
    fails with the error of the first such element, whatever the others
    resolve to. *)
Theorem construct_stack (items : list (ndarray A)) :
  (items ≠ [] →
   ∀ n s t, Forall (square_matrix n) items → Forall (λ m, resolves m s t) items →
     ∃ a, __init__ (DList items) None None None = Ok a ∧
          is_single_matrix a = PFalse ∧
          __len__ a = length items ∧
          head (shape a) = Some (length items)) ∧
  (Forall (λ m, ∃ s t, resolves m s t) items →
   ∀ m1 m2 s1 t1 s2 t2,
     m1 ∈ items → m2 ∈ items → resolves m1 s1 t1 → resolves m2 s2 t2 →
     s1 ≠ s2 ∨ t1 ≠ t2 →
     ∃ msg, __init__ (DList items) None None None = Raise (ValueError msg)) ∧
  (∀ pre m post e,
     items = pre ++ m :: post →
     Forall (λ x, ∃ s t, resolves x s t) pre →
     _import_single_data m None = Raise e →
     __init__ (DList items) None None None = Raise e).
Proof.
  split; [|split].
  3:{ intros pre m post e -> Hpre Hm.
      unfold __init__, init_data. cbn [mbind result_bind].
      assert (∃ x, head (pre ++ m :: post) = Some x) as [x ->]
        by (destruct pre; by eexists).
      cbn [or_IndexError mbind result_bind].
      rewrite (mapM_result_raise _ pre post m e); [done| |done].
      eapply Forall_impl; [exact Hpre|].
      intros y (s & t & d & single & Hy). by eexists. }
  - intros Hne n s t Hsq Hres.
    set (L := if s then length (triu_indices n) else n * n).
    assert (∃ vs, length vs = length items ∧ Forall (λ v, length v = L) vs ∧
              Forall2 (λ m v, _import_single_data m None = Ok (Arr1 v, s, t, true))
                items vs) as (vs & Hlen & HL & Himp).
    { clear Hne. induction items as [|m items IH].
      - exists []. by split_and!.
      - apply Forall_cons in Hsq as [Hm Hsq]. apply Forall_cons in Hres as [Hr Hres].
        destruct (IH Hsq Hres) as (vs & Hlen & HL & Himp).
        destruct Hr as (x & single & Hx).
        destruct (import_square_vector n m x s single t Hm Hx) as (v & -> & Hv).
        assert (single = true) as ->.
        { destruct Hm as (buf & -> & Hbuf).
          destruct (symmetric_test_square n buf Hbuf) as ([] & _ & Hb).
          - rewrite (import_square_symmetric n buf Hbuf (proj1 Hb eq_refl)) in Hx.
            congruence.
          - rewrite (import_square_directed n buf Hbuf) in Hx; [congruence|].
            intros Hsym%Hb. done. }
        exists (v :: vs). split_and!; [by rewrite !length_cons, Hlen|by constructor..]. }
    assert (vs ≠ []) as Hvs by (intros ->; by destruct items).
    unfold __init__, init_data. cbn [mbind result_bind].
    destruct items as [|m0 items0] eqn:Hitems; [done|]. rewrite <- Hitems in *.
    replace (head items) with (Some m0) by (by rewrite Hitems).
    cbn [or_IndexError mbind result_bind].
    rewrite (mapM_result_Forall2 _ items ((λ v, (Arr1 v, s, t, true)) <$> vs)).
    2:{ clear -Himp. induction Himp; constructor; done. }
    cbn [mbind result_bind]. rewrite <- !list_fmap_compose.
    rewrite (all_same_true s), (all_same_true t).
    2,3: apply Forall_fmap, Forall_true; done.
    cbn [negb].
    replace ((λ '(x, _, _, _), x) ∘ (λ v : list A, (Arr1 v, s, t, true)) <$> vs)
      with (Arr1 <$> vs) by (by apply list_fmap_ext).
    rewrite (np_array_vectors L) by done. cbn [mbind result_bind].
    destruct vs as [|v0 vs0] eqn:Hvs0; [done|]. rewrite <- Hvs0 in *.
    replace (head (_ <$> vs)) with (Some s) by (by rewrite Hvs0).
    replace (head (_ <$> vs)) with (Some t) by (by rewrite Hvs0).
    cbn. eexists. split; [done|]. cbn. by rewrite Hlen.
  - intros Hall m1 m2 s1 t1 s2 t2 Hm1 Hm2 Hr1 Hr2 Hdiff.
    assert (∃ imported, Forall2 (λ m r, _import_single_data m None = Ok r)
              items imported) as (imported & Himp).
    { clear -Hall. induction Hall as [|m items (s & t & x & single & Hm) _ [k IH]].
      - by exists [].
      - eexists (_ :: k). by constructor. }
    assert (∀ m s t, m ∈ items → resolves m s t →
              ∃ x single, (x, s, t, single) ∈ imported) as Hin.
    { intros m s t Hm (x & single & Hx). exists x, single.
      apply list_elem_of_lookup in Hm as [i Hi].
      destruct (Forall2_lookup_l _ _ _ _ _ Himp Hi) as (r & Hr & Hmr).
      apply list_elem_of_lookup. exists i. congruence. }
    destruct (Hin m1 s1 t1 Hm1 Hr1) as (x1 & g1 & Hi1).
    destruct (Hin m2 s2 t2 Hm2 Hr2) as (x2 & g2 & Hi2).
    unfold __init__, init_data. cbn [mbind result_bind].
    destruct items as [|m0 items0] eqn:Hitems; [by apply elem_of_nil in Hm1|].
    rewrite <- Hitems in *.
    replace (head items) with (Some m0) by (by rewrite Hitems).
    cbn [or_IndexError mbind result_bind].
    rewrite (mapM_result_Forall2 _ items imported Himp). cbn [mbind result_bind].
    destruct (decide (s1 = s2)) as [->|Hs].
    + destruct Hdiff as [|Ht]; [done|].
      destruct (all_same _) eqn:Hsame1; cbn [negb]; [|by eexists].
      rewrite (all_same_false t1 t2); [by eexists| | |done].
      * apply (list_elem_of_fmap_2 (λ '(_, _, t, _), t) _ _ Hi1).
      * apply (list_elem_of_fmap_2 (λ '(_, _, t, _), t) _ _ Hi2).
    + rewrite (all_same_false s1 s2); [by eexists| | |done].
      * apply (list_elem_of_fmap_2 (λ '(_, s, _, _), s) _ _ Hi1).
      * apply (list_elem_of_fmap_2 (λ '(_, s, _, _), s) _ _ Hi2).
Qed.
End Stack.

(** ** Length and iteration *)

Section Iteration.
Context {A : Type} {dt : DType A}.

Lemma len_single (a : Adjacency A) :
  is_single_matrix a = PTrue → __len__ a = 1.
Proof. unfold __len__. by intros ->. Qed.

Lemma len_stack (a : Adjacency A) :
  is_single_matrix a = PFalse → __len__ a = shape0 (data a).
Proof. unfold __len__. by intros ->. Qed.

(** The empty instance has [np.nan] for [is_single_matrix], which is true
    in an [if]: its length is 1 although its array has no row. *)
Lemma len_empty : __len__ (A:=A) (mkAdjacency (Arr1 []) (Some Empty) PNaN PNaN [] None) = 1.
Proof. done. Qed.

(** Iterating a single matrix: [self[0]] subscripts the stored vector with
    two indices. *)
Lemma iter_single (a : Adjacency A) (v : list A) :
  data a = Arr1 v → is_single_matrix a = PTrue →
  __iter__ a = [Raise IndexError].
Proof.
  intros Hd Hs. unfold __iter__. rewrite len_single by done.
  cbn. unfold __getitem__. by rewrite Hd.
Qed.

Lemma row_in_range (k c : nat) (buf : list A) (i : nat) :
  i < k → row (Arr2 k c buf) (Z.of_nat i) = Ok (take c (drop (i * c) buf)).
Proof.
  intros Hi. unfold row, py_index.
  rewrite bool_decide_eq_true_2 by lia. cbn. by rewrite Nat2Z.id.
Qed.

Lemma iloc_in_range (df : DataFrame) (i : nat) :
  i < length df → iloc df (Int (Z.of_nat i)) = Ok (take 1 (drop i df)).
Proof.
  intros Hi. unfold iloc, py_index.
  rewrite bool_decide_eq_true_2 by lia. cbn [or_IndexError mbind result_bind].
  rewrite Nat2Z.id.
  destruct (lookup_lt_is_Some_2 df i Hi) as [r Hr]. rewrite Hr.
  cbn [or_IndexError mbind result_bind].
  by rewrite (drop_S _ _ _ Hr).
Qed.

(** Iterating a stack: one single-matrix instance per row, in the order of
    the rows, with the attributes of the stack and the row of [Y] that goes
    with it. *)
Lemma iter_stack (a : Adjacency A) (k c : nat) (buf : list A) :
  data a = Arr2 k c buf → is_single_matrix a = PFalse →
  df_empty (Y a) = true ∨ length (Y a) = k →
  __iter__ a =
    (λ i, Ok (mkAdjacency (Arr1 (take c (drop (i * c) buf))) (matrix_type a)
                PTrue (issymmetric a)
                (if df_empty (Y a) then Y a else take 1 (drop i (Y a)))
                (labels a))) <$> seq 0 k.
Proof.
  intros Hd Hs Hy. unfold __iter__. rewrite len_stack, Hd by done. cbn [shape0].
  apply Forall_fmap_ext_1, Forall_forall. intros i Hi%elem_of_seq.
  unfold __getitem__. rewrite Hd, row_in_range by lia. cbn [mbind result_bind].
  destruct (df_empty (Y a)) eqn:Hempty; cbn [negb].
  - by destruct a.
  - destruct Hy as [|Hlen]; [done|].
    rewrite iloc_in_range by lia. by destruct a.
Qed.
End Iteration.

(** ** Arithmetic *)

Section Arithmetic.
Context {A : Type} {dt : DType A}.

Lemma set_data_set_data (a : Adjacency A) (x y : ndarray A) :
  set_data (set_data a x) y = set_data a y.
Proof. done. Qed.

Lemma set_data_data (a : Adjacency A) : set_data a (data a) = a.
Proof. by destruct a. Qed.

Lemma np_binop_same_shape (op : A → A → A) (a b : ndarray A) :
  np_shape a = np_shape b → np_binop op a b = Ok (zip_array op a b).
Proof.
  destruct a as [u|r c u], b as [v|r' c' v]; cbn; intros [=]; subst.
  - by rewrite (proj2 (Nat.eqb_eq _ _)).
  - by rewrite !Nat.eqb_refl.
Qed.

Lemma same_shape_length (a b : ndarray A) :
  np_shape a = np_shape b → wf_array a → wf_array b →
  length (flatten a) = length (flatten b).
Proof.
  destruct a as [u|r c u], b as [v|r' c' v]; cbn; intros [=]; subst; try done.
  intros -> ->. done.
Qed.

Lemma zip_with_cancel (f g : A → A → A) (u v : list A) :
  (∀ x y, g (f x y) y = x) → length u = length v →
  zip_with g (zip_with f u v) v = u.
Proof.
  intros Hfg. revert v. induction u as [|x u IH]; intros [|y v] [=]; [done|].
  cbn. by rewrite Hfg, IH.
Qed.

Lemma zip_array_cancel (f g : A → A → A) (x y : ndarray A) :
  (∀ x y, g (f x y) y = x) → length (flatten x) = length (flatten y) →
  zip_array g (zip_array f x y) y = x.
Proof.
  intros Hfg Hlen. destruct x as [u|r k u]; cbn in *; by rewrite zip_with_cancel.
Qed.

Lemma np_map_id (f : A → A) (x : ndarray A) :
  (∀ y, f y = y) → np_map f x = x.
Proof.
  intros Hf. destruct x as [u|r k u]; cbn; f_equal.
  all: rewrite <- (list_fmap_id u) at 2; by apply list_fmap_ext.
Qed.

Lemma arith_on_instances (a b : Adjacency A) :
  shape a = shape b →
  __add__ a (Adj b) = Ok (set_data a (zip_array dadd (data a) (data b))) ∧
  __sub__ a (Adj b) = Ok (set_data a (zip_array dsub (data a) (data b))) ∧
  __mul__ a (Adj b) = Ok (set_data a (zip_array dmul (data a) (data b))).
Proof.
  intros Hshape. unfold __add__, __sub__, __mul__, deepcopy.
  rewrite bool_decide_eq_true_2 by done. cbn [negb].
  by rewrite !np_binop_same_shape.
Qed.

Lemma zip_with_twice (f g : A → A → A) (u v : list A) :
  zip_with g (zip_with f u v) v = zip_with (λ x y, g (f x y) y) u v.
Proof.
  revert v. induction u as [|x u IH]; intros [|y v]; [done..|].
  cbn. by rewrite IH.
Qed.

Lemma zip_with_fixes (h : A → A → A) (u v : list A) :
  length u = length v →
  zip_with h u v = u ↔ Forall2 (λ x y, h x y = x) u v.
Proof.
  revert v. induction u as [|x u IH]; intros [|y v] [=]; [by split; [constructor|]|].
  cbn. split.
  - intros [= Hx Hu]. constructor; [done|]. by apply IH.
  - intros [Hx Hu]%Forall2_cons. rewrite Hx. f_equal. by apply IH.
Qed.

(** [(a + b) - b] on two instances of one shape: the left operand with, in
    each cell, [(x + y) - y]. *)
Lemma add_then_sub_instances (a b : Adjacency A) :
  wf_array (data a) → wf_array (data b) → shape a = shape b →
  (__add__ a (Adj b) ≫= λ c, __sub__ c (Adj b))
  = Ok (set_data a (zip_array (λ x y, dsub (dadd x y) y) (data a) (data b))).
Proof.
  intros Hwa Hwb Hshape.
  destruct (arith_on_instances a b Hshape) as (-> & _ & _). cbn [mbind result_bind].
  pose proof (same_shape_length _ _ Hshape Hwa Hwb) as Hlen.
  set (c := set_data a (zip_array dadd (data a) (data b))).
  assert (shape c = shape b) as Hc.
  { unfold c, shape in *. cbn. destruct (data a); cbn in *; [|done].
    rewrite length_zip_with. destruct (data b); cbn in *; [|done].
    injection Hshape as ->. f_equal. lia. }
  destruct (arith_on_instances c b Hc) as (_ & -> & _).
  unfold c. rewrite set_data_set_data. cbn [data set_data]. do 2 f_equal.
  destruct (data a); cbn; by rewrite zip_with_twice.
Qed.

Lemma set_data_fixes (a : Adjacency A) (h : A → A → A) (y : ndarray A) :
  length (flatten (data a)) = length (flatten y) →
  set_data a (zip_array h (data a) y) = a
  ↔ Forall2 (λ x y, h x y = x) (flatten (data a)) (flatten y).
Proof.
  intros Hlen. rewrite <- (zip_with_fixes h) by done.
  destruct a as [d ? ? ? ? ?]. unfold set_data. cbn [data] in *.
  destruct d as [u|r c u]; cbn [zip_array flatten] in *.
  - split; [by intros [= ->]|by intros ->].
  - split; [by intros [= ->]|by intros ->].
Qed.

Lemma arith_shape_mismatch (a b : Adjacency A) :
  shape a ≠ shape b →
  __add__ a (Adj b) = Raise (ValueError Msg.same_shape) ∧
  __sub__ a (Adj b) = Raise (ValueError Msg.same_shape) ∧
  __mul__ a (Adj b) = Raise (ValueError Msg.same_shape).
Proof.
  intros Hshape. unfold __add__, __sub__, __mul__.
  by rewrite bool_decide_eq_false_2.
Qed.

Lemma mul_by_one (a : Adjacency A) :
  mul_one (A:=A) → __mul__ a (Num (PyInt d1)) = Ok a.
Proof.
  intros Hone. unfold __mul__, deepcopy. cbn [as_dtype].
  rewrite np_map_id; [by rewrite set_data_data|exact Hone].
Qed.

(** C10: an operand that is not a number and not an instance leaves the
    three operators with the copy of the receiver, and nothing is raised. *)
Theorem other_operand_returns_copy (a : Adjacency A) (repr : string) :
  __add__ a (Other repr) = Ok (deepcopy a) ∧
  __sub__ a (Other repr) = Ok (deepcopy a) ∧
  __mul__ a (Other repr) = Ok (deepcopy a) ∧
  deepcopy a = a.
Proof. done. Qed.
End Arithmetic.

(** ** [threshold] and [ttest] *)

Section Threshold.
Context {A : Type} {dt : DType A} {co : Collaborators A}.

Lemma flatten_np_map (f : A → A) (x : ndarray A) :
  flatten (np_map f x) = f <$> flatten x.
Proof. by destruct x. Qed.

Lemma threshold_data (a : Adjacency A) (upper lower : option (cutoff A)) (b : bool) :
  flatten (data (threshold a upper lower b))
  = binarize_cell b ∘
      threshold_cell (resolve (flatten (data a)) upper) (resolve (flatten (data a)) lower)
    <$> flatten (data a).
Proof.
  unfold threshold, copy, deepcopy. cbn [data set_data].
  by rewrite !flatten_np_map, <- list_fmap_compose.
Qed.

(** [threshold] answers the receiver with new data. *)
Lemma threshold_metadata (a : Adjacency A) (upper lower : option (cutoff A)) (b : bool) :
  threshold a upper lower b = set_data a (data (threshold a upper lower b)).
Proof. done. Qed.

(** With a cutoff that is not zero, [threshold(upper=X)] leaves no value
    that is both non-zero and below [X]. *)
Lemma threshold_upper (a : Adjacency A) (X : A) :
  zero_is_zero (A:=A) → truthy X = true →
  Forall (λ x, ¬ (dneb x d0 = true ∧ dltb x X = true))
    (flatten (data (threshold a (Some (Abs X)) None false))).
Proof.
  intros Hz HX. rewrite threshold_data. apply Forall_fmap, Forall_true.
  intros x. cbn. unfold threshold_cell. cbn. rewrite HX. cbn.
  destruct (dltb x X) eqn:Hlt.
  - unfold dneb. rewrite Hz. by intros [[=] _].
  - rewrite Hlt. by intros [_ [=]].
Qed.

(** [threshold(binarize=True)] leaves values that are 1 or equal to 0. *)
Lemma threshold_binarize (a : Adjacency A) :
  Forall (λ x, x = d1 ∨ deqb x d0 = true)
    (flatten (data (threshold a None None true))).
Proof.
  rewrite threshold_data. apply Forall_fmap, Forall_true.
  intros x. cbn. unfold threshold_cell. cbn. unfold dneb.
  destruct (deqb x d0) eqn:Hx; cbn; auto.
Qed.

(** A stack whose [matrix_type] is [None]: [ttest] asks for the mean of the
    stack, which adds ['_flat'] to the type. *)
Lemma ttest_untyped_stack (a : Adjacency A) (r c : nat) (buf : list A) :
  matrix_type a = None → is_single_matrix a = PFalse → data a = Arr2 r c buf →
  ttest a false = Raise TypeError.
Proof.
  intros Ht Hs Hd. unfold ttest, mean_of_stack. by rewrite Hs, Hd, Ht.
Qed.

(** C9: [ttest] on a single matrix raises the [ValueError] of its guard. *)
Theorem ttest_single_raises (a : Adjacency A) (permutation : bool) :
  is_single_matrix a = PTrue →
  ttest a permutation = Raise (ValueError Msg.ttest_single).
Proof. intros Hs. unfold ttest. by rewrite Hs. Qed.
End Threshold.

(** ** Conversions between distance and similarity *)

Section Conversions.
Context {A : Type} {dt : DType A} {co : Collaborators A}.

Lemma upper_triangle_fmap (n : nat) (f : A → A) (buf : list A) :
  length buf = n * n →
  upper_triangle n (f <$> buf) = f <$> upper_triangle n buf.
Proof.
  intros Hlen. unfold upper_triangle. rewrite <- list_fmap_compose.
  apply Forall_fmap_ext_1, Forall_forall.
  intros [i j] Hij%elem_of_triu_indices. cbn. unfold cell.
  rewrite list_lookup_fmap.
  destruct (lookup_lt_is_Some_2 buf (i * n + j)) as [x ->]; [nia|done].
Qed.

Lemma length_to_squareform (n : nat) (v : list A) :
  length (to_squareform_from_vector n v) = n * n.
Proof. apply length_tabulate2. Qed.

(** The square form of a transformed vector: the transformed square form
    off the diagonal, zeros on it. *)
Lemma to_squareform_fmap (n : nat) (f : A → A) (v : list A) :
  length v * 2 = n * (n - 1) →
  to_squareform_from_vector n (f <$> v)
  = tabulate2 n n (λ i j,
      if i =? j then d0 else f (cell n (to_squareform_from_vector n v) i j)).
Proof.
  intros Hlen. unfold to_squareform_from_vector at 1.
  apply tabulate2_ext. intros i j Hi Hj.
  assert (length v = row_offset n n) as Hv.
  { pose proof (length_triu_indices_double n). pose proof (length_triu_indices n). lia. }
  rewrite cell_to_squareform by done.
  destruct (Nat.ltb_spec i j), (Nat.ltb_spec j i), (Nat.eqb_spec i j); try lia; [| |done].
  - destruct (lookup_lt_is_Some_2 v (condensed_index n i j)) as [x Hx].
    { rewrite Hv. apply condensed_index_lt. lia. }
    by rewrite list_lookup_fmap, Hx.
  - destruct (lookup_lt_is_Some_2 v (condensed_index n j i)) as [x Hx].
    { rewrite Hv. apply condensed_index_lt. lia. }
    by rewrite list_lookup_fmap, Hx.
Qed.

(** The constructor on a square matrix with an explicit symmetric type. *)
Lemma init_symmetric_square (n : nat) (buf : list A) (t : matrix_type_arg)
    (l : option labels_t) :
  0 < n → length buf = n * n →
  t = MT_distance ∨ t = MT_similarity →
  (∀ l', l = Some l' → labels_len l' = n) →
  __init__ (DArr (Arr2 n n buf)) None (Some t) l
  = Ok (mkAdjacency (Arr1 (upper_triangle n buf))
          (Some (if t is MT_distance then Distance else Similarity))
          PTrue PTrue [] l).
Proof.
  intros Hn Hlen Ht Hl.
  assert (init_data (DArr (Arr2 n n buf)) (Some t)
          = Ok (mkAdjacency (Arr1 (upper_triangle n buf))
                  (Some (if t is MT_distance then Distance else Similarity))
                  PTrue PTrue [] None)) as Hdata.
  { unfold init_data, _import_single_data.
    destruct Ht as [-> | ->]; cbn [shape1 shape0 mbind result_bind];
      rewrite Nat.eqb_refl; cbn [negb]; by rewrite take_pairs_triu. }
  unfold __init__.
  replace (match Some t with Some (MT_other _) => _ | _ => Ok () end)
    with (Ok () : result ()) by (by destruct Ht as [-> | ->]).
  cbn [mbind result_bind]. rewrite Hdata. cbn [mbind result_bind init_Y].
  destruct l as [l'|]; [|done].
  unfold init_labels, square_side, square_shape, set_Y.
  cbn [is_single_matrix truth matrix_type].
  rewrite bool_decide_eq_false_2 by (by destruct t).
  rewrite (squareform_single_symmetric _ n (upper_triangle n buf));
    try done; [|apply length_upper_triangle].
  cbn. by rewrite (Hl l' eq_refl), Nat.eqb_refl.
Qed.

(** C7, as amended: on a single symmetric matrix with fitting labels,
    [similarity_to_distance] succeeds for the type 'similarity' and
    [distance_to_similarity] for the type 'distance'; the result has the
    other type and the same labels; its stored vector is the receiver's,
    transformed value by value, so that its square form is the transformed
    square form of the receiver off the diagonal and zero on it.  On every
    instance of another type, whatever it holds (a single matrix or a stack,
    symmetric or directed, or nothing), each raises its [ValueError]. *)
Theorem conversions_on_single_matrix (a : Adjacency A) (beta : pynum A) :
  (∀ n v, single_symmetric a n v →
     let sq := to_squareform_from_vector n v in
     let decay x := dexp (ddiv (dmul (dneg (as_dtype beta)) x) (np_std sq)) in
     (matrix_type a = Some Similarity →
        similarity_to_distance a
        = Ok (mkAdjacency (Arr1 (dsub d1 <$> v)) (Some Distance) PTrue PTrue [] (labels a)) ∧
        (similarity_to_distance a ≫= squareform)
        = Ok (One (Arr2 n n (tabulate2 n n (λ i j,
                  if i =? j then d0 else dsub d1 (cell n sq i j)))))) ∧
     (matrix_type a = Some Distance →
        distance_to_similarity a beta
        = Ok (mkAdjacency (Arr1 (decay <$> v)) (Some Similarity) PTrue PTrue []
                (labels a)))) ∧
  (matrix_type a ≠ Some Similarity →
     similarity_to_distance a = Raise (ValueError Msg.not_similarity)) ∧
  (matrix_type a ≠ Some Distance →
     distance_to_similarity a beta = Raise (ValueError Msg.not_distance)).
Proof.
  split_and!.
  - intros n v (Hd & Hs & Hy & Hn & Hlen & Hl) sq decay.
    pose proof (squareform_single_symmetric a n v Hd Hs Hy Hn Hlen) as Hsq.
    assert (∀ f t, t = MT_distance ∨ t = MT_similarity →
              __init__ (DArr (np_map f (Arr2 n n sq))) None (Some t) (labels a)
              = Ok (mkAdjacency (Arr1 (f <$> v))
                      (Some (if t is MT_distance then Distance else Similarity))
                      PTrue PTrue [] (labels a))) as Hinit.
    { intros f t Ht. cbn [np_map]. unfold sq.
      rewrite init_symmetric_square; try done.
      - by rewrite upper_triangle_fmap, upper_triangle_to_squareform
          by (done || apply length_to_squareform).
      - by rewrite length_fmap, length_to_squareform. }
    split.
    + intros Ht.
      assert (similarity_to_distance a
              = Ok (mkAdjacency (Arr1 (dsub d1 <$> v)) (Some Distance)
                      PTrue PTrue [] (labels a))) as ->.
      { unfold similarity_to_distance. rewrite bool_decide_eq_true_2 by done.
        rewrite Hsq. cbn [mbind result_bind]. by rewrite Hinit; [|left]. }
      split; [done|]. cbn [mbind result_bind].
      rewrite (squareform_single_symmetric _ n (dsub d1 <$> v));
        try done; [|by rewrite length_fmap].
      by rewrite to_squareform_fmap.
    + intros Ht. unfold distance_to_similarity. rewrite bool_decide_eq_true_2 by done.
      rewrite Hsq. cbn [mbind result_bind flatten].
      by rewrite Hinit; [|right].
  - intros Ht. unfold similarity_to_distance. by rewrite bool_decide_eq_false_2.
  - intros Ht. unfold distance_to_similarity. by rewrite bool_decide_eq_false_2.
Qed.
End Conversions.

(** ** [threshold] on the store *)

Section StoreFacts.
Context {A : Type} {dt : DType A} {co : Collaborators A}.

(** [threshold] on the store builds a new object, which holds what
    [threshold] computes, and leaves every object there was, the receiver
    among them, as it found it. *)
Lemma store_threshold (h : gmap nat (Adjacency A)) (self : nat) (a : Adjacency A)
    (upper lower : option (cutoff A)) (binarize : bool) :
  h !! self = Some a →
  ∃ b h', Store.threshold self upper lower binarize h = Some (b, h') ∧
          h !! b = None ∧
          h' !! b = Some (threshold a upper lower binarize) ∧
          ∀ l, l ≠ b → h' !! l = h !! l.
Proof.
  intros Hself. unfold Store.threshold, Store.copy, Store.alloc. rewrite Hself.
  set (b := fresh (dom h)).
  assert (b ∉ dom h) as Hb by apply is_fresh.
  apply not_elem_of_dom in Hb.
  cbn. rewrite lookup_insert_eq. cbn.
  exists b. eexists. split; [done|]. split; [done|].
  unfold Store.write_cells. split.
  - by rewrite !lookup_alter_eq, lookup_insert_eq.
  - intros l Hl. by rewrite !lookup_alter_ne, lookup_insert_ne.
Qed.

Lemma store_threshold_receiver (h h' : gmap nat (Adjacency A)) (self b : nat) (a : Adjacency A)
    (upper lower : option (cutoff A)) (binarize : bool) :
  h !! self = Some a →
  Store.threshold self upper lower binarize h = Some (b, h') →
  b ≠ self ∧ h' !! self = Some a.
Proof.
  intros Hself Hrun.
  destruct (store_threshold h self a upper lower binarize Hself)
    as (b' & h'' & Hrun' & Hfresh & _ & Hother).
  rewrite Hrun in Hrun'. injection Hrun' as <- <-.
  assert (b ≠ self) as Hne by congruence.
  split; [done|]. by rewrite Hother.
Qed.
End StoreFacts.


(** ** The two element types *)

Lemma int64_eqb_sound : eqb_sound (A:=int64).
Proof. intros x y Hxy. by apply Zmod.eqb_eq. Qed.

Lemma int64_add_sub_cancel : add_sub_cancel (A:=int64).
Proof.
  intros x y. cbn.
  pose proof (Zmod.ring_theory (2 ^ 64)) as R.
  rewrite (Rsub_def R), <- (Radd_assoc R), (Ropp_def R).
  rewrite (Radd_comm R). apply (Radd_0_l R).
Qed.

Lemma int64_mul_one : mul_one (A:=int64).
Proof. intros x. cbn. apply Zmod.mul_1_r. Qed.

Lemma int64_zero_is_zero : zero_is_zero (A:=int64).
Proof. done. Qed.

Lemma float64_zero_is_zero : zero_is_zero (A:=float).
Proof. done. Qed.

(** float64 does not have the law [(x + y) - y = x]: rounding. *)
Lemma float64_add_sub_rounds : ¬ add_sub_cancel (A:=float).
Proof. intros Hc. specialize (Hc 0.1%float 0.2%float). vm_compute in Hc. discriminate. Qed.

(** Multiplying a float64 by 1 is exact, whatever the value: the product of
    the mantissa with 2^52 is shifted back by 52 bits without a bit lost,
    and NaN, the infinities and the zeros keep their sign and kind. *)
Lemma digits2_pos_shift (m : positive) (k : nat) :
  (Zpos (digits2_pos (Nat.iter k xO m)) = Zpos (digits2_pos m) + Z.of_nat k)%Z.
Proof.
  induction k as [|k IH].
  - cbn. lia.
  - rewrite Nat.iter_succ. cbn [digits2_pos]. rewrite Pos2Z.inj_succ, IH. lia.
Qed.

Lemma SFmul_one (s : spec_float) :
  valid_binary s = true → SF64mul s (Prim2SF 1) = s.
Proof.
  intros Hv.
  change (Prim2SF 1) with (S754_finite false 4503599627370496 (-52)).
  destruct s as [sx|sx| |sx mx ex]; cbn; try done; try (by destruct sx).
  cbn in Hv. unfold bounded, canonical_mantissa in Hv.
  apply andb_prop in Hv as [Hcanon Hbound].
  apply Z.eqb_eq in Hcanon.
  replace (mx * 4503599627370496)%positive with (Nat.iter 52 xO mx)
    by (rewrite Pos.mul_comm; reflexivity).
  unfold binary_round_aux, shr_fexp.
  unfold Zdigits2. rewrite digits2_pos_shift.
  replace (Z.pos (digits2_pos mx) + Z.of_nat 52 + (ex + -52))%Z
    with (Z.pos (digits2_pos mx) + ex)%Z by lia.
  rewrite Hcanon.
  replace (ex - (ex + -52))%Z with 52%Z by lia.
  cbn [shr shr_record_of_loc].
  change (SpecFloat.iter_pos shr_1 52
            {| shr_m := Z.pos (Nat.iter 52 xO mx); shr_r := false; shr_s := false |})
    with {| shr_m := Z.pos mx; shr_r := false; shr_s := false |}.
  cbn [shr_m loc_of_shr_record round_nearest_even Zdigits2].
  replace (ex + -52 + 52)%Z with ex by lia.
  rewrite Hcanon, Z.sub_diag. cbn [shr shr_record_of_loc shr_m].
  rewrite Hbound. by destruct sx.
Qed.

Lemma float64_mul_one : mul_one (A:=float).
Proof.
  intros x. change (x * 1 = x)%float.
  apply Prim2SF_inj. rewrite FloatAxioms.mul_spec. apply SFmul_one, Prim2SF_valid.
Qed.

(** ** The arithmetic identities *)

(** C8, as amended: on two instances of one shape each operator answers the
    left operand with new data, combined cell by cell; [(a + b) - b] is the
    left operand with [(x + y) - y] in each cell, so it is [a] exactly when
    every pair of cells has [(x + y) - y = x]: always on int64 data,
    wrap-around included, and on float64 data wherever no rounding shows;
    [a * 1] is [a] on float64 and on int64 data; on instances of different
    shapes each operator raises a [ValueError]. *)
Theorem arithmetic_identities :
  (∀ A (dt : DType A) (a b : Adjacency A), shape a = shape b →
     __add__ a (Adj b) = Ok (set_data a (zip_array dadd (data a) (data b))) ∧
     __sub__ a (Adj b) = Ok (set_data a (zip_array dsub (data a) (data b))) ∧
     __mul__ a (Adj b) = Ok (set_data a (zip_array dmul (data a) (data b)))) ∧
  (∀ A (dt : DType A) (a b : Adjacency A),
     wf_array (data a) → wf_array (data b) → shape a = shape b →
     ∃ back, (__add__ a (Adj b) ≫= λ c, __sub__ c (Adj b)) = Ok back ∧
             set_data back (data a) = a ∧
             flatten (data back)
             = zip_with (λ x y, dsub (dadd x y) y) (flatten (data a)) (flatten (data b)) ∧
             (back = a ↔
              Forall2 (λ x y, dsub (dadd x y) y = x)
                (flatten (data a)) (flatten (data b)))) ∧
  (∀ a b : Adjacency int64,
     wf_array (data a) → wf_array (data b) → shape a = shape b →
     (__add__ a (Adj b) ≫= λ c, __sub__ c (Adj b)) = Ok a) ∧
  (∀ a : Adjacency float, __mul__ a (Num (PyInt d1)) = Ok a) ∧
  (∀ a : Adjacency int64, __mul__ a (Num (PyInt d1)) = Ok a) ∧
  (∀ A (dt : DType A) (a b : Adjacency A), shape a ≠ shape b →
     __add__ a (Adj b) = Raise (ValueError Msg.same_shape) ∧
     __sub__ a (Adj b) = Raise (ValueError Msg.same_shape) ∧
     __mul__ a (Adj b) = Raise (ValueError Msg.same_shape)).
Proof.
  split_and!.
  - intros A dt a b. apply arith_on_instances.
  - intros A dt a b Hwa Hwb Hshape.
    rewrite (add_then_sub_instances a b Hwa Hwb Hshape).
    pose proof (same_shape_length _ _ Hshape Hwa Hwb) as Hlen.
    eexists. split; [done|]. split_and!.
    + by destruct a.
    + cbn [data set_data]. by destruct (data a).
    + by apply set_data_fixes.
  - intros a b Hwa Hwb Hshape.
    rewrite (add_then_sub_instances a b Hwa Hwb Hshape). f_equal.
    apply set_data_fixes; [by apply same_shape_length|].
    apply Forall2_same_length_lookup_2; [by apply same_shape_length|].
    intros i x y _ _. apply int64_add_sub_cancel.
  - intros a. apply mul_by_one, float64_mul_one.
  - intros a. apply mul_by_one, int64_mul_one.
  - intros A dt a b. apply arith_shape_mismatch.
Qed.

(** ** The claims on concrete inputs *)

Section Concrete.
Local Open Scope float_scope.

(** Example scenario 1 of the spec: the type is 'similarity' and the stored
    vector is [0.5, 0.2, 0.3]. *)
Lemma example_scenario_1 :
  construct Ex.scenario1
  = Ok (mkAdjacency (Arr1 [0.5; 0.2; 0.3]) (Some Similarity) PTrue PTrue [] None).
Proof. vm_compute. reflexivity. Qed.

(** C1, counterexample: the square matrix with no row is symmetric with a
    zero diagonal, and comes back from [squareform] as the 1 by 1 zero
    matrix. *)
Lemma roundtrip_fails_on_empty_matrix :
  wf_array Ex.no_rows ∧
  is_symmetric 0 ([] : list float) ∧
  (∀ i, (i < 0)%nat → cell 0 ([] : list float) i i = d0) ∧
  (construct Ex.no_rows ≫= squareform) = Ok (One (Arr2 1 1 [0])) ∧
  (construct Ex.no_rows ≫= squareform) ≠ Ok (One Ex.no_rows).
Proof.
  split_and!; [done|intros i j; lia|intros i; lia|by vm_compute|].
  vm_compute. intros [=].
Qed.

(** C2, counterexample: the diagonal of the square matrix with no row sums
    to its side length, 0, and the matrix is typed 'distance'. *)
Lemma empty_matrix_is_typed_distance :
  is_symmetric 0 ([] : list float) ∧
  deqb (diagonal_sum 0 ([] : list float)) (dof_Z (Z.of_nat 0)) = true ∧
  construct Ex.no_rows
  = Ok (mkAdjacency (Arr1 []) (Some Distance) PTrue PTrue [] None) ∧
  Some Distance ≠ Some Similarity.
Proof. split_and!; [intros i j; lia|by vm_compute..|done]. Qed.

(** C3, counterexample: a symmetric matrix whose diagonal sums to 4 is
    constructed; [_import_single_data] reaches its [return] with
    [matrix_type] bound to [None], and the methods that read the attribute
    answer. *)
Lemma unrecognised_diagonal_raises_nothing :
  let a := mkAdjacency (Arr1 [1]) None PTrue PTrue [] None in
  deqb (diagonal_sum 2 [2; 1; 1; 2]) d0 = false ∧
  deqb (diagonal_sum 2 [2; 1; 1; 2]) (dof_Z 2) = false ∧
  _import_single_data Ex.twos None = Ok (Arr1 [1], true, None, true) ∧
  construct Ex.twos = Ok a ∧
  isempty a = false ∧
  square_shape a = Ok [2%nat; 2%nat] ∧
  squareform a = Ok (One (Arr2 2 2 [0; 1; 1; 0])).
Proof. split_and!; by vm_compute. Qed.

(** C4, counterexample: the empty list has no first element to look at. *)
Lemma construct_from_empty_list_fails :
  __init__ (DList ([] : list (ndarray float))) None None None = Raise IndexError.
Proof. done. Qed.

(** C5: iterating a single matrix raises at its first step, though its
    length is 1. *)
Theorem iteration_of_single_matrix_fails :
  construct Ex.dist2 = Ok Ex.dist2_adj ∧
  __len__ Ex.dist2_adj = 1%nat ∧
  __getitem__ Ex.dist2_adj (Int 0) = Raise IndexError ∧
  __iter__ Ex.dist2_adj = [Raise IndexError].
Proof. split_and!; by vm_compute. Qed.

(** C6: with the cutoff 0, [threshold(upper=0)] changes nothing: the stored
    value -0.5, which is not zero and is below 0, stays. *)
Theorem threshold_ignores_zero_cutoff {co : Collaborators float} :
  construct Ex.anti = Ok Ex.anti_adj ∧
  threshold Ex.anti_adj (Some (Abs 0)) None false = Ex.anti_adj ∧
  dneb (-0.5) d0 = true ∧
  dltb (-0.5) 0 = true.
Proof. split_and!; by vm_compute. Qed.

(** C7, counterexample: the square form of [similarity_to_distance] has a
    zero diagonal, where 1 minus the square form of the receiver has ones;
    and on a stack typed 'similarity' the method raises a [TypeError]. *)
Lemma conversion_diagonal_and_stack :
  construct Ex.sim2 = Ok Ex.sim2_adj ∧
  squareform Ex.sim2_adj = Ok (One (Arr2 2 2 [0; 0.5; 0.5; 0])) ∧
  np_map (dsub d1) (Arr2 2 2 [0; 0.5; 0.5; 0]) = Arr2 2 2 [1; 0.5; 0.5; 1] ∧
  (similarity_to_distance Ex.sim2_adj ≫= squareform)
  = Ok (One (Arr2 2 2 [0; 0.5; 0.5; 0])) ∧
  Arr2 2 2 [0; 0.5; 0.5; 0] ≠ Arr2 2 2 [1; 0.5; 0.5; 1] ∧
  __init__ (DList Ex.two_similarities) None None None = Ok Ex.sim_stack ∧
  matrix_type Ex.sim_stack = Some Similarity ∧
  similarity_to_distance Ex.sim_stack = Raise TypeError.
Proof. split_and!; by vm_compute. Qed.

(** C8, counterexample: in float64, [(0.1 + 0.2) - 0.2] is not [0.1]. *)
Lemma float_sum_then_difference_differs :
  construct (Arr2 2 2 [0; 0.1; 0.1; 0]) = Ok Ex.tenth ∧
  construct (Arr2 2 2 [0; 0.2; 0.2; 0]) = Ok Ex.fifth ∧
  shape Ex.tenth = shape Ex.fifth ∧
  (__add__ Ex.tenth (Adj Ex.fifth) ≫= λ c, __sub__ c (Adj Ex.fifth))
  = Ok (set_data Ex.tenth (Arr1 [0.10000000000000003])) ∧
  data Ex.tenth = Arr1 [0.1] ∧
  deqb 0.10000000000000003 0.1 = false.
Proof. split_and!; by vm_compute. Qed.
End Concrete.

(** ** The statements at concrete inputs *)

Section Witnesses.
Local Open Scope float_scope.

(** The round trip on a float64 similarity matrix and on two int64 matrices. *)
Lemma squareform_construct_roundtrip_witness :
  (∃ back,
     (construct Ex.sim2 ≫= squareform) = Ok (One (Arr2 2 2 back)) ∧
     cell 2 back 0 1 = 0.5 ∧ cell 2 back 1 0 = 0.5 ∧
     cell 2 back 0 0 = 0 ∧ cell 2 back 1 1 = 0) ∧
  (construct (Arr2 2 2 Ex.sym_int) ≫= squareform) = Ok (One (Arr2 2 2 Ex.sym_int)) ∧
  (construct (Arr2 2 2 Ex.asym_int) ≫= squareform) = Ok (One (Arr2 2 2 Ex.asym_int)).
Proof.
  split_and!.
  - destruct (proj1 (squareform_construct_roundtrip 2 [1; 0.5; 0.5; 1] eq_refl))
      as (back & Hback & _ & Hcells).
    + lia.
    + apply is_symmetric_of_test; [reflexivity|vm_compute; reflexivity].
    + exists back. split; [exact Hback|].
      destruct (Hcells 0%nat 1%nat) as (H01 & _ & _); [lia..|].
      destruct (Hcells 1%nat 0%nat) as (_ & H10 & _); [lia..|].
      destruct (Hcells 0%nat 0%nat) as (_ & _ & H00); [lia..|].
      destruct (Hcells 1%nat 1%nat) as (_ & _ & H11); [lia..|].
      split_and!.
      * apply H01. lia.
      * apply H10. lia.
      * apply H00. reflexivity.
      * apply H11. reflexivity.
  - apply (proj1 (proj2 (squareform_construct_roundtrip 2 Ex.sym_int eq_refl))).
    + lia.
    + apply is_symmetric_of_test; [reflexivity|vm_compute; reflexivity].
    + apply int64_eqb_sound.
    + intros [|[|i]] Hi; [vm_compute; reflexivity..|lia].
  - apply (proj2 (proj2 (squareform_construct_roundtrip 2 Ex.asym_int eq_refl))).
    apply not_symmetric_of_test; [reflexivity|vm_compute; reflexivity].
Defined.

(** The inferred types of the matrix of example scenario 1, of a distance
    matrix, and of a matrix of side 8 whose diagonal sums to 0 the way numpy
    adds it. *)
Lemma construct_infers_type_witness :
  (∃ a, construct Ex.scenario1 = Ok a ∧
        matrix_type a = Some Similarity ∧ issymmetric a = PTrue) ∧
  (∃ a, construct Ex.dist2 = Ok a ∧
        matrix_type a = Some Distance ∧ issymmetric a = PTrue) ∧
  (∃ a, construct (Arr2 8 8 (Ex2.diagonal8 Ex2.cancelling)) = Ok a ∧
        matrix_type a = Some Distance ∧ issymmetric a = PTrue).
Proof.
  split; [|split].
  3:{ destruct (construct_infers_type 8 (Ex2.diagonal8 Ex2.cancelling) eq_refl)
        as (a & Ha & Hsym & _ & Hdist & _).
      { apply is_symmetric_of_test; [reflexivity|vm_compute; reflexivity]. }
      exists a. split_and!; [exact Ha| |exact Hsym].
      apply Hdist; vm_compute; reflexivity. }
  - destruct (construct_infers_type 3 [1; 0.5; 0.2; 0.5; 1; 0.3; 0.2; 0.3; 1] eq_refl)
      as (a & Ha & Hsym & _ & _ & Hsim).
    { apply is_symmetric_of_test; [reflexivity|vm_compute; reflexivity]. }
    exists a. split_and!; [exact Ha| |exact Hsym].
    apply Hsim; vm_compute; reflexivity.
  - destruct (construct_infers_type 2 [0; 3; 3; 0] eq_refl)
      as (a & Ha & Hsym & _ & Hdist & _).
    { apply is_symmetric_of_test; [reflexivity|vm_compute; reflexivity]. }
    exists a. split_and!; [exact Ha| |exact Hsym].
    apply Hdist; vm_compute; reflexivity.
Defined.

(** The construction of a matrix whose diagonal sums to 4, and of a matrix
    of side 8 whose diagonal sums to 1 the way numpy adds it. *)
Lemma construct_unrecognised_diagonal_witness :
  construct Ex.twos
  = Ok (mkAdjacency (Arr1 (upper_triangle 2 [2; 1; 1; 2])) None PTrue PTrue [] None) ∧
  construct (Arr2 8 8 (Ex2.diagonal8 Ex2.absorbing))
  = Ok (mkAdjacency (Arr1 (upper_triangle 8 (Ex2.diagonal8 Ex2.absorbing)))
          None PTrue PTrue [] None).
Proof.
  split.
  - apply (construct_unrecognised_diagonal 2 [2; 1; 1; 2] eq_refl).
    + apply is_symmetric_of_test; [reflexivity|vm_compute; reflexivity].
    + vm_compute; reflexivity.
    + vm_compute; reflexivity.
  - apply (construct_unrecognised_diagonal 8 (Ex2.diagonal8 Ex2.absorbing) eq_refl).
    + apply is_symmetric_of_test; [reflexivity|vm_compute; reflexivity].
    + vm_compute; reflexivity.
    + vm_compute; reflexivity.
Defined.

(** A stack of two distance matrices; a list that mixes the types; a list
    that mixes the types and ends with a vector that cannot be imported. *)
Lemma construct_stack_witness :
  (∃ a, __init__ (DList Ex.two_distances) None None None = Ok a ∧
        is_single_matrix a = PFalse ∧
        __len__ a = 2%nat ∧
        head (shape a) = Some 2%nat) ∧
  (∃ msg, __init__ (DList Ex.distance_and_similarity) None None None
          = Raise (ValueError msg)) ∧
  __init__ (DList Ex2.mixed_then_vector) None None None = Raise IndexError.
Proof.
  split; [|split].
  3:{ apply (proj2 (proj2 (construct_stack Ex2.mixed_then_vector)))
        with (pre := [Arr2 2 2 [0; 1; 1; 0]; Arr2 2 2 [1; 3; 3; 1]])
             (m := Arr1 [1; 2]) (post := []).
      - reflexivity.
      - repeat constructor; eexists _, _, _, _; vm_compute; reflexivity.
      - vm_compute. reflexivity. }
  - apply (proj1 (construct_stack Ex.two_distances)) with (n := 2%nat) (s := true)
      (t := Some Distance).
    + discriminate.
    + repeat constructor; eexists; split; reflexivity.
    + repeat constructor; eexists _, _; vm_compute; reflexivity.
  - apply (proj1 (proj2 (construct_stack Ex.distance_and_similarity))) with
      (m1 := Arr2 2 2 [0; 1; 1; 0]) (m2 := Arr2 2 2 [1; 3; 3; 1])
      (s1 := true) (t1 := Some Distance) (s2 := true) (t2 := Some Similarity).
    + repeat constructor; eexists _, _, _, _; vm_compute; reflexivity.
    + left.
    + right. left.
    + eexists _, _; vm_compute; reflexivity.
    + eexists _, _; vm_compute; reflexivity.
    + right. discriminate.
Defined.

(** The two conversions on a similarity matrix, and on instances of other
    types: a directed matrix, a stack of distance matrices, the empty
    instance. *)
Lemma conversions_on_single_matrix_witness :
  similarity_to_distance Ex.sim2_adj
  = Ok (mkAdjacency (Arr1 (dsub d1 <$> [0.5])) (Some Distance) PTrue PTrue [] None) ∧
  distance_to_similarity (co := idle_collaborators) Ex.sim2_adj (PyInt 1)
  = Raise (ValueError Msg.not_distance) ∧
  similarity_to_distance
    (mkAdjacency (Arr1 [1; 2; 3; 4]) (Some Directed) PTrue PFalse [] None)
  = Raise (ValueError Msg.not_similarity) ∧
  similarity_to_distance
    (mkAdjacency (Arr2 2 1 [1; 3]) (Some Distance) PFalse PTrue [] None)
  = Raise (ValueError Msg.not_similarity) ∧
  distance_to_similarity (co := idle_collaborators)
    (mkAdjacency (Arr1 []) (Some Empty) PNaN PNaN [] None) (PyFloat 0.5)
  = Raise (ValueError Msg.not_distance).
Proof.
  split_and!.
  - apply (proj1 (conversions_on_single_matrix (co := idle_collaborators)
                    Ex.sim2_adj (PyInt 1)) 2%nat [0.5]).
    + unfold single_symmetric. split_and!; try reflexivity; [lia|discriminate].
    + reflexivity.
  - apply (proj2 (proj2 (conversions_on_single_matrix (co := idle_collaborators)
                           Ex.sim2_adj (PyInt 1)))).
    discriminate.
  - apply (proj1 (proj2 (conversions_on_single_matrix (co := idle_collaborators)
                           _ (PyInt 1)))).
    discriminate.
  - apply (proj1 (proj2 (conversions_on_single_matrix (co := idle_collaborators)
                           _ (PyInt 1)))).
    discriminate.
  - apply (proj2 (proj2 (conversions_on_single_matrix (co := idle_collaborators)
                           _ (PyFloat 0.5)))).
    discriminate.
Defined.

(** The arithmetic on int64 and on float64 instances. *)
Lemma arithmetic_identities_witness :
  (__add__ Ex.p_int (Adj Ex.q_int) ≫= λ c, __sub__ c (Adj Ex.q_int)) = Ok Ex.p_int ∧
  __mul__ Ex.p_int (Num (PyInt d1)) = Ok Ex.p_int ∧
  __mul__ Ex.tenth (Num (PyInt d1)) = Ok Ex.tenth ∧
  __add__ Ex.p_int (Adj Ex.r_int) = Raise (ValueError Msg.same_shape).
Proof.
  destruct arithmetic_identities as (_ & _ & Hcancel & Hfloat & Hint & Hdiff).
  split_and!.
  - apply Hcancel; [exact I|exact I|reflexivity].
  - apply Hint.
  - apply Hfloat.
  - apply Hdiff. discriminate.
Defined.

(** [ttest] on a single distance matrix. *)
Lemma ttest_single_raises_witness :
  ttest (co := idle_collaborators) Ex.dist2_adj false
  = Raise (ValueError Msg.ttest_single).
Proof. apply ttest_single_raises. reflexivity. Defined.
End Witnesses.


(** * More of the constructor *)

(** ** Vectors and stacks of vectors passed without a type *)

Section VectorInput.
Context {A : Type} {dt : DType A}.

Lemma omap_Some_fmap {B C} (f : B → option C) (g : B → C) (l : list B) :
  (∀ x, x ∈ l → f x = Some (g x)) → omap f l = g <$> l.
Proof.
  induction l as [|x l IH]; intros Hf; [done|].
  cbn. rewrite Hf by left. cbn. f_equal. apply IH. intros y Hy. apply Hf. by right.
Qed.

Lemma np_diag_square (n : nat) (buf : list A) :
  length buf = n * n → np_diag n n buf = (λ i, cell n buf i i) <$> seq 0 n.
Proof.
  intros Hlen. unfold np_diag. rewrite Nat.min_id.
  apply omap_Some_fmap. intros i Hi%elem_of_seq. apply get2_square; lia.
Qed.

Lemma foldl_zeros (l : list A) :
  add_zero (A:=A) → Forall (λ x, x = d0) l → foldl dadd d0 l = d0.
Proof.
  intros Hz Hall. induction Hall as [|x l -> _ IH]; [done|]. cbn. by rewrite Hz.
Qed.

Lemma zip_with_zeros (r v : list A) :
  add_zero (A:=A) → Forall (λ x, x = d0) r → Forall (λ x, x = d0) v →
  Forall (λ x, x = d0) (zip_with dadd r v).
Proof.
  intros Hz Hr. revert v. induction Hr as [|x r -> _ IH]; intros v Hv; [constructor|].
  destruct Hv as [|y v -> Hv]; [constructor|]. cbn. constructor; [exact Hz|by apply IH].
Qed.

Lemma add_blocks_zeros (k : nat) (r v : list A) :
  add_zero (A:=A) → Forall (λ x, x = d0) r → Forall (λ x, x = d0) v →
  Forall (λ x, x = d0) (add_blocks k r v).1 ∧ Forall (λ x, x = d0) (add_blocks k r v).2.
Proof.
  intros Hz. revert r v. induction k as [|k IH]; intros r v Hr Hv; [done|].
  cbn [add_blocks]. apply IH; [|by apply Forall_drop].
  apply zip_with_zeros; [done..|by apply Forall_take].
Qed.

Lemma sum_unrolled_zeros (v : list A) :
  add_zero (A:=A) → Forall (λ x, x = d0) v → sum_unrolled v = d0.
Proof.
  intros Hz Hv. unfold sum_unrolled.
  destruct (add_blocks_zeros (length v / 8 - 1) (take 8 v) (drop 8 v) Hz)
    as [Hr Hrest]; [by apply Forall_take|by apply Forall_drop|].
  destruct (add_blocks _ _ _) as [r rest]. cbn [fst snd] in Hr, Hrest.
  assert (∀ i, default d0 (r !! i) = d0) as Hcell.
  { intros i. destruct (r !! i) as [x|] eqn:Hi; [|done].
    rewrite Forall_forall in Hr. apply Hr. by eapply list_elem_of_lookup_2. }
  rewrite !Hcell, !Hz. by apply foldl_zeros.
Qed.

Lemma pairwise_sum_zeros (depth : nat) (v : list A) :
  add_zero (A:=A) → Forall (λ x, x = d0) v → pairwise_sum depth v = d0.
Proof.
  intros Hz. revert v. induction depth as [|depth IH]; intros v Hv; cbn [pairwise_sum].
  - destruct (length v <? 8); [by apply foldl_zeros|by apply sum_unrolled_zeros].
  - destruct (length v <? 8); [by apply foldl_zeros|].
    destruct (128 <? length v); [|by apply sum_unrolled_zeros].
    rewrite !IH; [done|by apply Forall_drop|by apply Forall_take].
Qed.

Lemma np_sum_zeros (l : list A) :
  add_zero (A:=A) → Forall (λ x, x = d0) l → np_sum l = d0.
Proof.
  intros Hz Hall. unfold np_sum. destruct dpairwise.
  - by rewrite pairwise_sum_zeros.
  - by apply foldl_zeros.
Qed.

(** The length of the vector is enough depth for [pairwise_sum]: one more
    level changes nothing. *)
Lemma pairwise_sum_depth (depth : nat) (v : list A) :
  length v ≤ depth → pairwise_sum (S depth) v = pairwise_sum depth v.
Proof.
  revert v. induction depth as [|depth IH]; intros v Hlen.
  - destruct v; [done|cbn in Hlen; lia].
  - change (pairwise_sum (S (S depth)) v) with
      (if length v <? 8 then foldl dadd d0 v
       else if 128 <? length v then
         dadd (pairwise_sum (S depth) (take (length v / 2 - (length v / 2) mod 8) v))
              (pairwise_sum (S depth) (drop (length v / 2 - (length v / 2) mod 8) v))
       else sum_unrolled v).
    change (pairwise_sum (S depth) v) with
      (if length v <? 8 then foldl dadd d0 v
       else if 128 <? length v then
         dadd (pairwise_sum depth (take (length v / 2 - (length v / 2) mod 8) v))
              (pairwise_sum depth (drop (length v / 2 - (length v / 2) mod 8) v))
       else sum_unrolled v).
    destruct (length v <? 8); [done|].
    destruct (Nat.ltb_spec 128 (length v)) as [Hbig|]; [|done].
    pose proof (Nat.div_mod_eq (length v) 2) as Hdiv.
    pose proof (Nat.mod_upper_bound (length v) 2) as Hmod2.
    pose proof (Nat.mod_upper_bound (length v / 2) 8) as Hmod8.
    pose proof (Nat.Div0.mod_le (length v / 2) 8) as Hle.
    rewrite !IH; [done|..].
    + rewrite length_drop. lia.
    + rewrite length_take. lia.
Qed.

Lemma diagonal_sum_to_squareform (n : nat) (v : list A) :
  add_zero (A:=A) → diagonal_sum n (to_squareform_from_vector n v) = d0.
Proof.
  intros Hz. unfold diagonal_sum.
  rewrite np_diag_square by apply length_tabulate2.
  apply np_sum_zeros; [done|]. apply Forall_fmap, Forall_forall.
  intros i Hi%elem_of_seq. cbn. rewrite cell_to_squareform by lia.
  by rewrite Nat.ltb_irrefl.
Qed.

(** The value the square form holds above the diagonal is a value of the
    vector. *)
Lemma condensed_lookup (n : nat) (v : list A) (i j : nat) :
  length v * 2 = n * (n - 1) → i < j < n →
  ∃ x, v !! condensed_index n i j = Some x.
Proof.
  intros Hlen Hij. apply lookup_lt_is_Some_2.
  pose proof (length_triu_indices_double n). pose proof (length_triu_indices n).
  pose proof (condensed_index_lt n i j Hij). lia.
Qed.

Lemma is_symmetric_to_squareform (n : nat) (v : list A) :
  length v * 2 = n * (n - 1) → self_equal v →
  is_symmetric n (to_squareform_from_vector n v).
Proof.
  intros Hlen Hrefl i j Hij. rewrite !cell_to_squareform by lia.
  destruct (Nat.ltb_spec i j), (Nat.ltb_spec j i); try lia.
  destruct (condensed_lookup n v i j Hlen Hij) as [x Hx]. rewrite Hx. cbn.
  unfold self_equal in Hrefl. rewrite Forall_forall in Hrefl.
  apply Hrefl, list_elem_of_lookup. eauto.
Qed.

(** The square form of a vector, read by the constructor: the vector again,
    typed 'distance'. *)
Lemma import_squareform_matrix (n : nat) (v : list A) :
  length v * 2 = n * (n - 1) → self_equal v →
  add_zero (A:=A) → zero_is_zero (A:=A) →
  _import_single_data (Arr2 n n (to_squareform_from_vector n v)) None
  = Ok (Arr1 v, true, Some Distance, true).
Proof.
  intros Hlen Hrefl Hz Hzz.
  rewrite import_square_symmetric;
    [|apply length_tabulate2|by apply is_symmetric_to_squareform].
  rewrite upper_triangle_to_squareform by done.
  unfold infer_type. cbn [diag_sum shape0].
  fold (diagonal_sum n (to_squareform_from_vector n v)).
  by rewrite diagonal_sum_to_squareform, Hzz.
Qed.

(** X1: a vector of [n (n - 1) / 2] values, none of them NaN, passed without
    a type is taken as the upper triangle of a distance matrix of side [n]:
    it is stored as given and typed 'distance'. *)
Theorem construct_condensed_vector (n : nat) (v : list A) :
  0 < n → length v * 2 = n * (n - 1) → self_equal v →
  add_zero (A:=A) → zero_is_zero (A:=A) →
  construct (Arr1 v) = Ok (mkAdjacency (Arr1 v) (Some Distance) PTrue PTrue [] None).
Proof.
  intros Hn Hlen Hrefl Hz Hzz.
  pose proof (import_squareform_matrix n v Hlen Hrefl Hz Hzz) as Himp.
  apply (construct_import _ (Arr1 v) true true (Some Distance)).
  unfold _import_single_data in *.
  rewrite (scipy_squareform_condensed n) by done. cbn [except_ValueError mbind result_bind].
  rewrite Nat.eqb_refl in Himp. cbn [mbind result_bind] in Himp.
  destruct (symmetric_test _) as [[]|]; cbn [mbind result_bind] in *; [|done..].
  destruct (take_pairs _ _); cbn [mbind result_bind] in *; [|done].
  injection Himp as -> ->. done.
Qed.

(** X2: a vector whose length is not of the form [n (n - 1) / 2], passed
    without a type, ends in an [IndexError]: the [ValueError] of scipy is
    caught and only printed, and the symmetry test then subscripts the vector
    with two indices. *)
Theorem construct_vector_of_bad_length (v : list A) :
  (∀ n, length v * 2 ≠ n * (n - 1)) →
  construct (Arr1 v) = Raise IndexError.
Proof.
  intros Hbad. unfold construct, __init__, init_data, _import_single_data.
  cbn [mbind result_bind]. unfold scipy_squareform.
  destruct (Nat.eqb_spec (length v) 0) as [Hz|_].
  { destruct (Hbad 0). lia. }
  destruct (Nat.eqb_spec (ceil_sqrt (length v * 2) * (ceil_sqrt (length v * 2) - 1))
              (length v * 2)) as [Heq|_].
  { destruct (Hbad (ceil_sqrt (length v * 2))). lia. }
  done.
Qed.

(** X3: a 2-D array that is not square, passed without a type, is taken as a
    stack of flattened matrices: it is stored as given, with
    [is_single_matrix] false, and the symmetry and the type are read off its
    first row alone. *)
Theorem construct_rectangular_stack (n r c : nat) (buf : list A) :
  0 < n → c * 2 = n * (n - 1) → 0 < r → r ≠ c → length buf = r * c →
  self_equal (take c buf) → add_zero (A:=A) → zero_is_zero (A:=A) →
  construct (Arr2 r c buf)
  = Ok (mkAdjacency (Arr2 r c buf) (Some Distance) PFalse PTrue [] None).
Proof.
  intros Hn Hc Hr Hrc Hlen Hrefl Hz Hzz.
  assert (length (take c buf) = c) as Htake by (rewrite length_take; nia).
  pose proof (import_squareform_matrix n (take c buf)) as Himp.
  rewrite Htake in Himp. specialize (Himp Hc Hrefl Hz Hzz).
  apply (construct_import _ (Arr2 r c buf) true false (Some Distance)).
  unfold _import_single_data in *.
  rewrite (proj2 (Nat.eqb_neq r c)) by done.
  unfold row, py_index. rewrite bool_decide_eq_true_2 by lia.
  cbn [or_IndexError mbind result_bind].
  change (drop (Z.to_nat 0 * c) buf) with buf.
  rewrite (scipy_squareform_condensed n) by (done || (rewrite Htake; lia)).
  cbn [except_ValueError mbind result_bind].
  rewrite Nat.eqb_refl in Himp. cbn [mbind result_bind] in Himp.
  destruct (symmetric_test _) as [[]|]; cbn [mbind result_bind] in *; [|done..].
  destruct (take_pairs _ _); cbn [mbind result_bind] in *; [|done].
  injection Himp as -> ->. done.
Qed.

(** X4: the square form of a single symmetric matrix, given back to the
    constructor, is stored as the same vector and typed 'distance', whatever
    the type of the instance was: the round trip gives a distance instance
    back, and turns a similarity instance into a distance one. *)
Theorem construct_of_squareform (a : Adjacency A) (n : nat) (v : list A) :
  single_symmetric a n v → self_equal v →
  add_zero (A:=A) → zero_is_zero (A:=A) →
  ∃ m, squareform a = Ok (One m) ∧
       construct m = Ok (mkAdjacency (Arr1 v) (Some Distance) PTrue PTrue [] None).
Proof.
  intros (Hd & Hs & Hy & Hn & Hlen & _) Hrefl Hz Hzz.
  eexists. split; [by apply (squareform_single_symmetric a n v)|].
  by rewrite (construct_import _ _ _ _ _ (import_squareform_matrix n v Hlen Hrefl Hz Hzz)).
Qed.
End VectorInput.

(** ** Explicit types, labels and [Y] *)

Section ExplicitTypes.
Context {A : Type} {dt : DType A}.

Lemma reshape_square (n : nat) (buf : list A) :
  length buf = n * n →
  reshape (Arr1 buf) (int_sqrt (length buf)) (int_sqrt (length buf)) = Ok (Arr2 n n buf).
Proof.
  intros Hlen. unfold reshape, int_sqrt. cbn [flatten].
  by rewrite Hlen, Nat.sqrt_square, Nat.eqb_refl.
Qed.

(** The square form of a single directed instance. *)
Lemma squareform_single_directed (a : Adjacency A) (n : nat) (buf : list A) :
  data a = Arr1 buf → is_single_matrix a = PTrue → issymmetric a = PFalse →
  length buf = n * n →
  squareform a = Ok (One (Arr2 n n buf)).
Proof.
  intros Hd Hs Hy Hlen. unfold squareform. rewrite Hd, Hs, Hy.
  cbn [truth shape0]. by rewrite (reshape_square n).
Qed.

(** X5: with the explicit type 'distance' or 'similarity' no symmetry test is
    made: every square matrix of side at least 1 is stored as its upper
    triangle, and its square form mirrors that triangle below a zero
    diagonal, whatever the matrix held there. *)
Theorem explicit_symmetric_type_keeps_upper_triangle
    (n : nat) (buf : list A) (t : matrix_type_arg) :
  0 < n → length buf = n * n → t = MT_distance ∨ t = MT_similarity →
  ∃ a back,
    __init__ (DArr (Arr2 n n buf)) None (Some t) None = Ok a ∧
    data a = Arr1 (upper_triangle n buf) ∧
    issymmetric a = PTrue ∧
    matrix_type a = Some (if t is MT_distance then Distance else Similarity) ∧
    squareform a = Ok (One (Arr2 n n back)) ∧
    ∀ i j, i < n → j < n →
      (i < j → cell n back i j = cell n buf i j) ∧
      (j < i → cell n back i j = cell n buf j i) ∧
      (i = j → cell n back i j = d0).
Proof.
  intros Hn Hlen Ht. eexists _, _. split.
  { by apply (init_symmetric_square n buf t None). }
  split_and!; try done.
  - apply (squareform_single_symmetric _ n (upper_triangle n buf)); try done.
    apply length_upper_triangle.
  - intros i j Hi Hj. rewrite cell_to_squareform by done.
    destruct (Nat.ltb_spec i j), (Nat.ltb_spec j i); split_and!; try lia.
    + intros _. by rewrite lookup_upper_triangle.
    + intros _. by rewrite lookup_upper_triangle.
    + done.
Qed.

(** X6: with the explicit type 'directed' or 'directed_flat' every square
    matrix, symmetric or not, of any side, is stored row by row and comes
    back from [squareform] exactly. *)
Theorem explicit_directed_roundtrip (n : nat) (buf : list A) (t : matrix_type_arg) :
  length buf = n * n → t = MT_directed ∨ t = MT_directed_flat →
  __init__ (DArr (Arr2 n n buf)) None (Some t) None
  = Ok (mkAdjacency (Arr1 buf) (Some Directed) PTrue PFalse [] None) ∧
  (__init__ (DArr (Arr2 n n buf)) None (Some t) None ≫= squareform)
  = Ok (One (Arr2 n n buf)).
Proof.
  intros Hlen Ht.
  assert (__init__ (DArr (Arr2 n n buf)) None (Some t) None
          = Ok (mkAdjacency (Arr1 buf) (Some Directed) PTrue PFalse [] None)) as ->.
  { destruct Ht as [-> | ->]; unfold __init__, init_data, _import_single_data;
      cbn [mbind result_bind shape1 shape0 flatten]; [by rewrite Nat.eqb_refl|done]. }
  split; [done|]. cbn [mbind result_bind].
  by apply squareform_single_directed.
Qed.

(** X7: with an explicit type that is not flat, a 2-D array that is not
    square is refused with the [ValueError] of the squareness test, and a
    vector fails earlier, on [data.shape[1]], with an [IndexError]; [Y] and
    the labels are not looked at. *)
Theorem explicit_type_wants_a_square (t : matrix_type_arg)
    (y : option DataFrame) (l : option labels_t) :
  t = MT_distance ∨ t = MT_similarity ∨ t = MT_directed →
  (∀ r c buf, r ≠ c →
     __init__ (DArr (Arr2 r c buf)) y (Some t) l = Raise (ValueError Msg.not_square)) ∧
  (∀ v, __init__ (DArr (Arr1 v)) y (Some t) l = Raise IndexError).
Proof.
  intros Ht. split.
  - intros r c buf Hrc.
    destruct Ht as [-> | [-> | ->]]; unfold __init__, init_data, _import_single_data;
      cbn [mbind result_bind shape1 shape0];
      by rewrite (proj2 (Nat.eqb_neq r c)).
  - intros v. by destruct Ht as [-> | [-> | ->]].
Qed.

(** X8: the flat types take the data as they come: a vector of any length is
    accepted as a single 'distance' or 'similarity' matrix, and it is
    [squareform] that raises, with the [ValueError] of scipy, when the length
    is not of the form [n (n - 1) / 2]. *)
Theorem flat_type_defers_the_length_check (v : list A) (t : matrix_type_arg) :
  t = MT_distance_flat ∨ t = MT_similarity_flat →
  (∀ n, length v * 2 ≠ n * (n - 1)) →
  ∃ a, __init__ (DArr (Arr1 v)) None (Some t) None = Ok a ∧
       data a = Arr1 v ∧ is_single_matrix a = PTrue ∧
       squareform a = Raise (ValueError Msg.vector_size).
Proof.
  intros Ht Hbad.
  destruct Ht as [-> | ->]; (eexists; split; [reflexivity|]); split_and!; try done.
  all: unfold squareform; cbn; unfold scipy_squareform.
  all: destruct (Nat.eqb_spec (length v) 0) as [Hz|_];
    [destruct (Hbad 0); lia|].
  all: destruct (Nat.eqb_spec (ceil_sqrt (length v * 2) * (ceil_sqrt (length v * 2) - 1))
                   (length v * 2)) as [Heq|_];
    [destruct (Hbad (ceil_sqrt (length v * 2))); lia|done].
Qed.

(** What the constructor answers on a square matrix, and the side of its
    square form. *)
Lemma construct_square (n : nat) (buf : list A) :
  0 < n → length buf = n * n →
  ∃ a, construct (Arr2 n n buf) = Ok a ∧
       is_single_matrix a = PTrue ∧ Y a = [] ∧ labels a = None ∧
       matrix_type a ≠ Some Empty ∧
       square_shape a = Ok [n; n] ∧
       shape0 (data a) = (if issymmetric a is PTrue then length (triu_indices n) else n * n).
Proof.
  intros Hn Hlen.
  destruct (symmetric_test_square n buf Hlen) as ([] & _ & Hb).
  - eexists. split; [apply construct_square_symmetric; [done|by apply Hb]|].
    split_and!; try done.
    + cbn. unfold infer_type. by repeat case_match.
    + unfold square_shape. cbn [matrix_type is_single_matrix truth].
      rewrite bool_decide_eq_false_2 by (unfold infer_type; by repeat case_match).
      rewrite (squareform_single_symmetric _ n (upper_triangle n buf)); try done.
      apply length_upper_triangle.
    + cbn. unfold upper_triangle. by rewrite length_fmap.
  - eexists. split; [apply construct_square_directed; [done|]|].
    { intros Hsym%Hb. done. }
    split_and!; try done.
    unfold square_shape. cbn [matrix_type is_single_matrix truth].
    rewrite bool_decide_eq_false_2 by done.
    by rewrite (squareform_single_directed _ n buf).
Qed.

(** X9: the square shape of what is constructed from a square matrix of side
    [n], at least 1, is [(n, n)], symmetric or not. *)
Theorem square_shape_of_constructed (n : nat) (buf : list A) :
  0 < n → length buf = n * n →
  (construct (Arr2 n n buf) ≫= square_shape) = Ok [n; n].
Proof.
  intros Hn Hlen.
  destruct (construct_square n buf Hn Hlen) as (a & -> & _ & _ & _ & _ & Hshape & _).
  done.
Qed.

Lemma init_stages (d : data_arg A) (y : option DataFrame) (l : option labels_t)
    (a : Adjacency A) :
  __init__ d None None None = Ok a → is_single_matrix a = PTrue →
  __init__ d y None l = (init_Y a y ≫= λ self, init_labels self l).
Proof.
  unfold __init__. cbn [mbind result_bind].
  destruct (init_data d None) as [self|]; cbn [mbind result_bind init_Y init_labels];
    [|done].
  intros [= <-]. destruct self as [d0' m0 s0 i0 Y0 l0].
  cbn [set_labels set_Y is_single_matrix]. intros ->.
  unfold init_Y, set_Y, set_labels.
  cbn [data matrix_type is_single_matrix issymmetric Y labels].
  destruct y as [y|]; [destruct (shape0 d0' =? length y)|];
    cbn [negb mbind result_bind]; try done; destruct l; reflexivity.
Qed.

(** X10: labels given with a square matrix of side [n], at least 1, are kept
    when there are [n] of them, and refused with a [ValueError] otherwise. *)
Theorem labels_of_a_single_matrix (n : nat) (buf : list A) (l : labels_t) :
  0 < n → length buf = n * n →
  ∃ a, construct (Arr2 n n buf) = Ok a ∧
       (labels_len l = n →
          __init__ (DArr (Arr2 n n buf)) None None (Some l) = Ok (set_labels a (Some l))) ∧
       (labels_len l ≠ n →
          __init__ (DArr (Arr2 n n buf)) None None (Some l)
          = Raise (ValueError Msg.labels_single)).
Proof.
  intros Hn Hlen.
  destruct (construct_square n buf Hn Hlen)
    as (a & Ha & Hs & HY & Hl & Hne & Hshape & _).
  exists a. split; [done|].
  rewrite (init_stages _ None (Some l) a Ha Hs).
  cbn [init_Y mbind result_bind].
  assert (set_Y a [] = a) as -> by (destruct a; cbn in *; by subst).
  unfold init_labels, square_side. rewrite Hs, Hshape. cbn [truth mbind result_bind].
  cbn [head or_IndexError deepcopy].
  split; intros Hlab.
  - change (Ok n ≫= ?k) with (k n). cbn beta.
    by rewrite (proj2 (Nat.eqb_eq _ _) Hlab).
  - change (Ok n ≫= ?k) with (k n). cbn beta.
    by rewrite (proj2 (Nat.eqb_neq _ _) Hlab).
Qed.

(** X11: a [Y] table given with a square symmetric matrix of side [n] is
    kept when it has as many rows as the stored vector has values,
    [n (n - 1) / 2], and refused with a [ValueError] otherwise. *)
Theorem Y_of_a_single_matrix (n : nat) (buf : list A) (y : DataFrame) :
  0 < n → length buf = n * n → is_symmetric n buf →
  ∃ a, construct (Arr2 n n buf) = Ok a ∧
       (length y * 2 = n * (n - 1) →
          __init__ (DArr (Arr2 n n buf)) (Some y) None None = Ok (set_Y a y)) ∧
       (length y * 2 ≠ n * (n - 1) →
          __init__ (DArr (Arr2 n n buf)) (Some y) None None
          = Raise (ValueError Msg.Y_size)).
Proof.
  intros Hn Hlen Hsym.
  pose proof (construct_square_symmetric n buf Hlen Hsym) as Ha.
  eexists. split; [exact Ha|].
  rewrite (init_stages _ (Some y) None _ Ha eq_refl).
  unfold init_Y. cbn [data shape0].
  pose proof (length_upper_triangle n buf) as Hup.
  split; intros Hy.
  - rewrite (proj2 (Nat.eqb_eq _ _)) by lia. done.
  - rewrite (proj2 (Nat.eqb_neq _ _)) by lia. done.
Qed.
End ExplicitTypes.

(** ** Stacks built from a list *)

Section StackFacts.
Context {A : Type} {dt : DType A}.

Lemma row_of_mjoin (L : nat) (vs : list (list A)) (i : nat) (v : list A) :
  Forall (λ v, length v = L) vs → vs !! i = Some v →
  take L (drop (i * L) (mjoin vs)) = v.
Proof.
  intros Hall. revert i. induction Hall as [|w vs Hw _ IH]; intros i Hi; [done|].
  change (mjoin (w :: vs)) with (w ++ mjoin vs). destruct i as [|i].
  - injection Hi as ->. cbn [Nat.mul]. by rewrite drop_0, take_app_length'.
  - cbn in Hi. change (S i * L) with (L + i * L).
    rewrite drop_app_add' by done. by apply IH.
Qed.

(** What the elements of a list of square matrices are imported as. *)
Lemma imported_vectors (items : list (ndarray A)) (n : nat) (s : bool) (t : option mtype) :
  Forall (square_matrix n) items → Forall (λ m, resolves m s t) items →
  ∃ vs, Forall (λ v, length v = if s then length (triu_indices n) else n * n) vs ∧
        Forall2 (λ m v, _import_single_data m None = Ok (Arr1 v, s, t, true)) items vs.
Proof.
  induction items as [|m items IH]; intros Hsq Hres.
  - exists []. by split.
  - apply Forall_cons in Hsq as [Hm Hsq]. apply Forall_cons in Hres as [Hr Hres].
    destruct (IH Hsq Hres) as (vs & HL & Himp).
    destruct Hr as (x & single & Hx).
    destruct (import_square_vector n m x s single t Hm Hx) as (v & -> & Hv).
    assert (single = true) as ->.
    { destruct Hm as (buf & -> & Hbuf).
      destruct (symmetric_test_square n buf Hbuf) as ([] & _ & Hb).
      - rewrite (import_square_symmetric n buf Hbuf (proj1 Hb eq_refl)) in Hx.
        congruence.
      - rewrite (import_square_directed n buf Hbuf) in Hx; [congruence|].
        intros Hsym%Hb. done. }
    exists (v :: vs). split; by constructor.
Qed.

(** The stack a list is constructed as: one row per element. *)
Lemma stack_of_imported (items : list (ndarray A)) (vs : list (list A)) (s : bool)
    (t : option mtype) (L : nat) :
  items ≠ [] →
  Forall2 (λ m v, _import_single_data m None = Ok (Arr1 v, s, t, true)) items vs →
  Forall (λ v, length v = L) vs →
  __init__ (DList items) None None None
  = Ok (mkAdjacency (Arr2 (length items) L (mjoin vs)) t PFalse (of_bool s) [] None).
Proof.
  intros Hne Himp HL.
  assert (length items = length vs) as Hlen by (by eapply Forall2_length).
  assert (vs ≠ []) as Hvs by (intros ->; by destruct items).
  unfold __init__, init_data. cbn [mbind result_bind].
  destruct items as [|m0 items0] eqn:Hitems; [done|]. rewrite <- Hitems in *.
  replace (head items) with (Some m0) by (by rewrite Hitems).
  cbn [or_IndexError mbind result_bind].
  rewrite (mapM_result_Forall2 _ items ((λ v, (Arr1 v, s, t, true)) <$> vs)).
  2:{ clear -Himp. induction Himp; constructor; done. }
  cbn [mbind result_bind]. rewrite <- !list_fmap_compose.
  rewrite (all_same_true s), (all_same_true t).
  2,3: apply Forall_fmap, Forall_true; done.
  cbn [negb].
  replace ((λ '(x, _, _, _), x) ∘ (λ v : list A, (Arr1 v, s, t, true)) <$> vs)
    with (Arr1 <$> vs) by (by apply list_fmap_ext).
  rewrite (np_array_vectors L) by done. cbn [mbind result_bind].
  destruct vs as [|v0 vs0] eqn:Hvs0; [done|]. rewrite <- Hvs0 in *.
  replace (head (_ <$> vs)) with (Some s) by (by rewrite Hvs0).
  replace (head (_ <$> vs)) with (Some t) by (by rewrite Hvs0).
  cbn. by rewrite Hlen.
Qed.

(** Iterating a stack of rows [vs]. *)
Lemma iter_rows (vs : list (list A)) (L : nat) (s : pybool) (t : option mtype)
    (l : option labels_t) :
  Forall (λ v, length v = L) vs →
  __iter__ (mkAdjacency (Arr2 (length vs) L (mjoin vs)) t PFalse s [] l)
  = (λ v, Ok (mkAdjacency (Arr1 v) t PTrue s [] l)) <$> vs.
Proof.
  intros HL. rewrite (iter_stack _ (length vs) L (mjoin vs)) by (done || by left).
  cbn [matrix_type issymmetric Y labels df_empty].
  apply list_eq. intros i. rewrite !list_lookup_fmap.
  destruct (decide (i < length vs)) as [Hi|Hi].
  - rewrite lookup_seq_lt by done.
    destruct (lookup_lt_is_Some_2 vs i Hi) as [v Hv]. rewrite Hv. cbn.
    by rewrite (row_of_mjoin L vs i v).
  - rewrite lookup_seq_ge, lookup_ge_None_2 by lia. done.
Qed.

(** X12: iterating the stack constructed from a non-empty list of square
    matrices of one side that resolve to one symmetry and type yields, in
    order, exactly what the constructor makes of each element alone. *)
Theorem iterate_constructed_stack (items : list (ndarray A)) (n : nat) (s : bool)
    (t : option mtype) :
  items ≠ [] → Forall (square_matrix n) items → Forall (λ m, resolves m s t) items →
  ∃ a, __init__ (DList items) None None None = Ok a ∧
       __iter__ a = construct <$> items.
Proof.
  intros Hne Hsq Hres.
  destruct (imported_vectors items n s t Hsq Hres) as (vs & HL & Himp).
  eexists. split; [by apply (stack_of_imported items vs s t _ Hne Himp HL)|].
  rewrite (Forall2_length _ _ _ Himp), (iter_rows vs _ _ _ _ HL).
  clear Hne Hsq Hres HL. induction Himp as [|m v items vs Hm _ IH]; [done|].
  cbn [fmap list_fmap]. f_equal; [|exact IH].
  by rewrite (construct_import _ _ _ _ _ Hm).
Qed.

(** X13: a non-empty list of square matrices of one side, none of them
    symmetric, is constructed as a directed stack whose square form is the
    list itself. *)
Theorem directed_stack_roundtrip (items : list (ndarray A)) (n : nat) :
  items ≠ [] →
  Forall (λ m, ∃ buf, m = Arr2 n n buf ∧ length buf = n * n ∧ ¬ is_symmetric n buf) items →
  ∃ a, __init__ (DList items) None None None = Ok a ∧
       matrix_type a = Some Directed ∧
       shape a = [length items; n * n] ∧
       squareform a = Ok (Many items).
Proof.
  intros Hne Hall.
  assert (Forall2 (λ m v, m = Arr2 n n v ∧ length v = n * n ∧
                          _import_single_data m None = Ok (Arr1 v, false, Some Directed, true))
            items (flatten <$> items)) as Hvs.
  { clear Hne. induction Hall as [|m items (buf & -> & Hlen & Hsym) _ IH]; [constructor|].
    cbn [fmap list_fmap flatten]. constructor; [|exact IH].
    split_and!; try done. by apply import_square_directed. }
  assert (Forall (λ v, length v = n * n) (flatten <$> items)) as HL.
  { clear -Hvs. induction Hvs as [|???? (_ & ? & _)]; by constructor. }
  eexists. split.
  { apply (stack_of_imported items (flatten <$> items) false (Some Directed) (n * n));
      [done| |done].
    clear -Hvs. induction Hvs as [|???? (_ & _ & ?)]; by constructor. }
  split_and!; [done|done|].
  unfold squareform. cbn [issymmetric is_single_matrix of_bool truth].
  unfold for_each.
  replace (length items) with (length (flatten <$> items)) by apply length_fmap.
  rewrite (iter_rows _ _ _ _ _ HL).
  rewrite (mapM_result_Forall2 _ _ items); [done|].
  clear -Hvs. induction Hvs as [|m v items vs (-> & Hlen & _) _ IH]; [constructor|].
  cbn [fmap list_fmap]. constructor; [|exact IH].
  cbn [mbind result_bind data shape0]. by apply reshape_square.
Qed.
End StackFacts.

(** ** Indexing *)

Section Indexing.
Context {A : Type} {dt : DType A}.

Lemma py_index_from_the_end (n i : nat) :
  0 < i ≤ n → py_index n (- Z.of_nat i) = py_index n (Z.of_nat (n - i)).
Proof.
  intros Hi. unfold py_index.
  rewrite (bool_decide_eq_false_2 (0 ≤ - Z.of_nat i < Z.of_nat n)%Z) by lia.
  rewrite (bool_decide_eq_true_2 (- Z.of_nat n ≤ - Z.of_nat i < 0)%Z) by lia.
  rewrite (bool_decide_eq_true_2 (0 ≤ Z.of_nat (n - i) < Z.of_nat n)%Z) by lia.
  f_equal. lia.
Qed.

Lemma py_index_out_of_range (n : nat) (z : Z) :
  (z < - Z.of_nat n ∨ Z.of_nat n ≤ z)%Z → py_index n z = None.
Proof.
  intros Hz. unfold py_index. by rewrite !bool_decide_eq_false_2 by lia.
Qed.

Lemma take_drop_window {T} (l : list T) (lo m j w : nat) :
  j + w ≤ m → take w (drop j (take m (drop lo l))) = take w (drop (lo + j) l).
Proof.
  intros Hjw. rewrite <- drop_drop.
  replace m with (j + (m - j)) by lia. rewrite <- take_drop_commute.
  rewrite take_take. f_equal. lia.
Qed.

(** X14: on a stack of [k] rows whose [Y] is empty or has [k] rows, the
    index [-i] selects what [k - i] selects, for [i] from 1 to [k], and an
    index below [-k] or from [k] on raises an [IndexError]. *)
Theorem index_from_the_end (a : Adjacency A) (k c : nat) (buf : list A) :
  data a = Arr2 k c buf → df_empty (Y a) = true ∨ length (Y a) = k →
  (∀ i, 0 < i ≤ k →
     __getitem__ a (Int (- Z.of_nat i)) = __getitem__ a (Int (Z.of_nat (k - i)))) ∧
  (∀ z, (z < - Z.of_nat k ∨ Z.of_nat k ≤ z)%Z → __getitem__ a (Int z) = Raise IndexError).
Proof.
  intros Hd Hy. split.
  - intros i Hi. unfold __getitem__, row, iloc. rewrite Hd.
    rewrite (py_index_from_the_end k i Hi).
    destruct Hy as [->|Hlen]; [done|].
    by rewrite Hlen, (py_index_from_the_end k i Hi).
  - intros z Hz. unfold __getitem__, row. rewrite Hd.
    by rewrite (py_index_out_of_range k z Hz).
Qed.

(** X15: a slice [a[lo:hi]] of a stack of [k] rows, with [lo ≤ hi ≤ k], is
    a stack of [hi - lo] rows with the type, the symmetry and the labels of
    [a], and its row [j] is the row [lo + j] of [a], with the row of [Y]
    that goes with it. *)
Theorem index_into_a_slice (a : Adjacency A) (k c : nat) (buf : list A) (lo hi : nat) :
  data a = Arr2 k c buf → is_single_matrix a = PFalse →
  Y a = [] ∨ (length (Y a) = k ∧ Forall (λ r, r ≠ []) (Y a)) →
  lo ≤ hi ≤ k →
  ∃ b, __getitem__ a (Slice lo hi) = Ok b ∧
       matrix_type b = matrix_type a ∧ issymmetric b = issymmetric a ∧
       labels b = labels a ∧ is_single_matrix b = PFalse ∧
       __len__ b = hi - lo ∧
       ∀ j, j < hi - lo →
         __getitem__ b (Int (Z.of_nat j)) = __getitem__ a (Int (Z.of_nat (lo + j))).
Proof.
  intros Hd Hs Hy Hlo. unfold __getitem__ at 1. rewrite Hd.
  cbn [rows mbind result_bind iloc].
  rewrite !Nat.min_l by lia.
  assert (∀ j, j < hi - lo →
            take c (drop (j * c) (take ((hi - lo) * c) (drop (lo * c) buf)))
            = take c (drop ((lo + j) * c) buf)) as Hrow.
  { intros j Hj. rewrite take_drop_window by nia. f_equal. f_equal. lia. }
  destruct Hy as [Hy|[Hlen Hfull]].
  - rewrite Hy. cbn [df_empty negb]. eexists. split; [done|].
    split_and!; try done.
    + unfold __len__, copy, deepcopy. cbn. by rewrite Hs.
    + intros j Hj. unfold __getitem__, copy, deepcopy. cbn [data set_data Y].
      rewrite Hd, Hy, !row_in_range by lia. cbn [df_empty negb mbind result_bind].
      rewrite (Hrow j Hj). by destruct a.
  - destruct (decide (lo = hi)) as [->|Hne].
    + destruct (df_empty (Y a)) eqn:He; cbn [negb mbind result_bind];
        (eexists; split; [done|]); split_and!; try done.
      all: try (unfold __len__, copy, deepcopy; cbn; rewrite Hs; cbn; lia).
      all: intros j Hj; lia.
    + assert (df_empty (Y a) = false) as He.
      { destruct (Y a) as [|r ?]; [cbn in Hlen; lia|].
        apply Forall_cons in Hfull as [Hr _]. by apply bool_decide_eq_false_2. }
      rewrite He. cbn [negb mbind result_bind]. eexists. split; [done|].
      split_and!; try done.
      * unfold __len__, copy, deepcopy. cbn. by rewrite Hs.
      * intros j Hj. unfold __getitem__, copy, deepcopy.
        cbn [data set_data set_Y Y].
        rewrite Hd, He, !row_in_range by lia. cbn [mbind result_bind].
        assert (df_empty (take (hi - lo) (drop lo (Y a))) = false) as ->.
        { destruct (lookup_lt_is_Some_2 (Y a) lo ltac:(lia)) as [r Hr].
          rewrite (drop_S _ _ _ Hr). destruct (hi - lo) eqn:E; [lia|]. cbn.
          apply bool_decide_eq_false_2.
          rewrite Forall_forall in Hfull. apply Hfull.
          by eapply list_elem_of_lookup_2. }
        cbn [negb]. rewrite !iloc_in_range.
        2: lia.
        2: rewrite length_take, length_drop; lia.
        cbn [mbind result_bind].
        rewrite (Hrow j Hj), (take_drop_window (Y a) lo (hi - lo) j 1) by lia.
        by destruct a.
Qed.
End Indexing.

(** ** [mean], [std] and [ttest] *)

Section Statistics.
Context {A : Type} {dt : DType A} {co : Collaborators A} {ax : AxisStats A}.

(** The instance [mean] and [std] build from a vector of reduced values. *)
Lemma flat_instance_of_vector (a : Adjacency A) (t : mtype) (v : list A) :
  matrix_type a = Some t → t ≠ Empty →
  flat_instance a (Ok (Arr1 v))
  = Ok (mkAdjacency (Arr1 v) (Some t) PTrue (of_bool (bool_decide (t ≠ Directed))) [] None).
Proof.
  intros Ht Hne. unfold flat_instance. rewrite Ht. cbn [mbind result_bind].
  by destruct t.
Qed.

Lemma mean_axis0_of_stack (a : Adjacency A) :
  is_single_matrix a = PFalse → mean a 0 = Instance <$> mean_of_stack a.
Proof. intros Hs. unfold mean. by rewrite Hs. Qed.

(** X16: on a stack with a type, [mean] and [std] along axis 0 answer a
    single matrix of that type, symmetric unless the type is 'directed',
    that holds the reduced row and has neither the [Y] nor the labels of the
    stack; along axis 1 they answer a bare vector, and for any other axis
    nothing at all. *)
Theorem mean_and_std_of_a_stack (a : Adjacency A) (r c : nat) (buf : list A) (t : mtype) :
  is_single_matrix a = PFalse → data a = Arr2 r c buf →
  matrix_type a = Some t → t ≠ Empty →
  let reduced v :=
    mkAdjacency (Arr1 v) (Some t) PTrue (of_bool (bool_decide (t ≠ Directed))) [] None in
  mean a 0 = Ok (Instance (reduced (np_mean_axis0 r c buf))) ∧
  std a 0 = Ok (Instance (reduced (np_std_axis0 r c buf))) ∧
  mean a 1 = Ok (Vector (np_mean_axis1 r c buf)) ∧
  std a 1 = Ok (Vector (np_std_axis1 r c buf)) ∧
  ∀ z, z ≠ 0%Z → z ≠ 1%Z → mean a z = Ok NoValue ∧ std a z = Ok NoValue.
Proof.
  intros Hs Hd Ht Hne reduced. unfold mean, std. rewrite Hs, Hd. cbn [truth Z.eqb].
  rewrite !(flat_instance_of_vector a t) by done.
  split_and!; try done.
  intros z Hz0 Hz1.
  by rewrite (proj2 (Z.eqb_neq z 0) Hz0), (proj2 (Z.eqb_neq z 1) Hz1).
Qed.

(** X17: the parametric [ttest] of a stack with a type answers two single
    matrices of that type, one with the t values and one with the p values
    of [ttest_1samp] over the columns, without [Y] or labels. *)
Theorem ttest_of_a_stack (a : Adjacency A) (r c : nat) (buf : list A) (t : mtype) :
  is_single_matrix a = PFalse → data a = Arr2 r c buf →
  matrix_type a = Some t → t ≠ Empty →
  let result v :=
    mkAdjacency (Arr1 v) (Some t) PTrue (of_bool (bool_decide (t ≠ Directed))) [] None in
  ttest a false
  = Ok (result (fst (ttest_1samp r c buf)), result (snd (ttest_1samp r c buf))).
Proof.
  intros Hs Hd Ht Hne result. unfold ttest. rewrite Hs. cbn [truth].
  change (mean_of_stack a) with (flat_instance a
    match data a with
    | Arr1 _ => Raise (Unsupported Msg.scalar_array)
    | Arr2 r c buf => Ok (Arr1 (np_mean_axis0 r c buf))
    end).
  rewrite Hd, (flat_instance_of_vector a t) by done. cbn [mbind result_bind].
  by destruct (ttest_1samp r c buf).
Qed.

(** X18: a list of square matrices of one side that all resolve to no type
    at all (symmetric, with a diagonal that sums neither to 0 nor to the
    side) is constructed without complaint, but the stack has no mean, no
    standard deviation and no parametric t-test: each raises a [TypeError]. *)
Theorem untyped_stack_has_no_mean (items : list (ndarray A)) (n : nat) (s : bool) :
  items ≠ [] → Forall (square_matrix n) items → Forall (λ m, resolves m s None) items →
  ∃ a, __init__ (DList items) None None None = Ok a ∧
       mean a 0 = Raise TypeError ∧
       std a 0 = Raise TypeError ∧
       ttest a false = Raise TypeError.
Proof.
  intros Hne Hsq Hres.
  destruct (imported_vectors items n s None Hsq Hres) as (vs & HL & Himp).
  eexists. split; [by apply (stack_of_imported items vs s None _ Hne Himp HL)|].
  split_and!; [done|done|].
  by eapply ttest_untyped_stack.
Qed.
End Statistics.

(** ** [threshold] again *)

Section ThresholdFacts.
Context {A : Type} {dt : DType A} {co : Collaborators A}.

Lemma threshold_cell_cases (u l : option A) (x : A) :
  threshold_cell u l x = x ∨ threshold_cell u l x = d0.
Proof.
  unfold threshold_cell.
  destruct (truthy_opt u), (truthy_opt l); cbn [andb negb];
    try destruct (below x u); try destruct (above x l); auto.
Qed.

Lemma threshold_cell_zero (u l : option A) : threshold_cell u l d0 = d0.
Proof. by destruct (threshold_cell_cases u l d0). Qed.

Lemma threshold_cell_idempotent (u l : option A) (x : A) :
  threshold_cell u l (threshold_cell u l x) = threshold_cell u l x.
Proof.
  destruct (threshold_cell_cases u l x) as [Hx|Hx]; rewrite !Hx; [done|].
  apply threshold_cell_zero.
Qed.

Lemma np_shape_np_map (f : A → A) (x : ndarray A) :
  wf_array x → np_shape (np_map f x) = np_shape x.
Proof. destruct x; cbn; [by rewrite length_fmap|done]. Qed.

(** X19: without [binarize], [threshold] changes no attribute but the data,
    keeps their shape, and leaves each cell as it was or sets it to zero,
    for any cutoffs, percentiles included. *)
Theorem threshold_keeps_or_zeroes (a : Adjacency A) (upper lower : option (cutoff A)) :
  let b := threshold a upper lower false in
  set_data b (data a) = a ∧
  ndim (data b) = ndim (data a) ∧
  length (flatten (data b)) = length (flatten (data a)) ∧
  Forall2 (λ x y, y = x ∨ y = d0) (flatten (data a)) (flatten (data b)).
Proof.
  intros b. split_and!.
  - by destruct a.
  - unfold b, threshold, copy, deepcopy. cbn [data set_data]. by destruct (data a).
  - unfold b. by rewrite threshold_data, length_fmap.
  - unfold b. rewrite threshold_data. apply Forall2_fmap_r, Forall_Forall2_diag.
    apply Forall_true. intros x. apply threshold_cell_cases.
Qed.

(** X20: with absolute cutoffs and no [binarize], thresholding twice is
    thresholding once. *)
Theorem threshold_idempotent (a : Adjacency A) (upper lower : option A) :
  let u := Abs <$> upper in
  let l := Abs <$> lower in
  threshold (threshold a u l false) u l false = threshold a u l false.
Proof.
  intros u l. unfold threshold, copy, deepcopy. cbn [data set_data binarize_cell].
  assert (∀ x : ndarray A, np_map (λ y : A, y) x = x) as Hid.
  { intros []; cbn; by rewrite list_fmap_id. }
  assert (∀ d, resolve d u = upper) as Hu by (intros d; unfold u; by destruct upper).
  assert (∀ d, resolve d l = lower) as Hl by (intros d; unfold l; by destruct lower).
  rewrite !Hid, !Hu, !Hl. f_equal.
  destruct (data a); cbn; f_equal; rewrite <- list_fmap_compose;
    apply list_fmap_ext; intros ? x _; apply threshold_cell_idempotent.
Qed.

(** X21: with [binarize], whatever the cutoffs, every value that is left
    is 1 or compares equal to 0. *)
Theorem threshold_binarize_any_cutoffs (a : Adjacency A) (upper lower : option (cutoff A)) :
  Forall (λ x, x = d1 ∨ deqb x d0 = true)
    (flatten (data (threshold a upper lower true))).
Proof.
  rewrite threshold_data. apply Forall_fmap, Forall_true.
  intros x. cbn. unfold dneb.
  destruct (deqb (threshold_cell _ _ x) d0) eqn:Hx; cbn; auto.
Qed.

(** X22: with two cutoffs that are not zero, [threshold] leaves no value
    that is non-zero and lies strictly between [lower] and [upper]; the
    values at or beyond either cutoff are the ones that stay. *)
Theorem threshold_two_sided (a : Adjacency A) (U L : A) :
  zero_is_zero (A:=A) → truthy U = true → truthy L = true →
  Forall2 (λ x y, y = if dltb x U && dgtb x L then d0 else x)
    (flatten (data a)) (flatten (data (threshold a (Some (Abs U)) (Some (Abs L)) false))) ∧
  Forall (λ y, ¬ (dneb y d0 = true ∧ dltb y U = true ∧ dgtb y L = true))
    (flatten (data (threshold a (Some (Abs U)) (Some (Abs L)) false))).
Proof.
  intros Hz HU HL. rewrite threshold_data.
  assert (∀ x, (binarize_cell false ∘ threshold_cell (Some U) (Some L)) x
               = if dltb x U && dgtb x L then d0 else x) as Hcell.
  { intros x. cbn. unfold threshold_cell. cbn. by rewrite HU, HL. }
  split.
  - apply Forall2_fmap_r, Forall_Forall2_diag, Forall_true. intros x. apply Hcell.
  - apply Forall_fmap, Forall_true. intros x. cbn [compose resolve].
    pose proof (Hcell x) as Hx. cbn [compose] in Hx. rewrite Hx.
    destruct (dltb x U) eqn:Hlt, (dgtb x L) eqn:Hgt; cbn [andb].
    + unfold dneb. rewrite Hz. by intros [[=] _].
    + rewrite Hgt. by intros (_ & _ & [=]).
    + rewrite Hlt. by intros (_ & [=] & _).
    + rewrite Hlt. by intros (_ & [=] & _).
Qed.
End ThresholdFacts.

Section StoreAliasing.
Context {A : Type} {dt : DType A} {co : Collaborators A}.

End StoreAliasing.

(** ** [append] *)

Section Append.
Context {A : Type} {dt : DType A} {co : Collaborators A} {ax : AxisStats A}.

Lemma np_vstack_same_width (x y : ndarray A) :
  (match x with Arr1 v => length v | Arr2 _ c _ => c end)
  = (match y with Arr1 v => length v | Arr2 _ c _ => c end) →
  np_vstack x y
  = Ok (Arr2 ((match x with Arr1 _ => 1 | Arr2 r _ _ => r end)
              + (match y with Arr1 _ => 1 | Arr2 r _ _ => r end))
          (match x with Arr1 v => length v | Arr2 _ c _ => c end)
          (flatten x ++ flatten y)).
Proof.
  intros Hw. unfold np_vstack. destruct x, y; cbn in *; by rewrite Hw, Nat.eqb_refl.
Qed.

(** X24: appending to an instance that is not empty one of the same square
    shape and row length stacks the rows of the second under those of the
    first.  The result is a stack even when both were single matrices, and
    it has the type, the symmetry and the labels of the first: those of the
    second are not looked at.  The [Y] of the second is taken only when the
    first has one. *)
Theorem append_stacks_rows (self other : Adjacency A) (sh : list nat) :
  isempty self = false →
  square_shape self = Ok sh → square_shape other = Ok sh →
  width self = width other →
  ∃ out, append self (Adj other) = Ok out ∧
         data out = Arr2 (rows_of self + rows_of other) (width self)
                      (flatten (data self) ++ flatten (data other)) ∧
         is_single_matrix out = PFalse ∧
         matrix_type out = matrix_type self ∧
         issymmetric out = issymmetric self ∧
         labels out = labels self ∧
         Y out = (if df_size (Y self) =? 0 then Y self else Y self ++ Y other).
Proof.
  intros He Hs Ho Hw. unfold append. rewrite He, Hs, Ho. cbn [mbind result_bind].
  rewrite bool_decide_eq_true_2 by done. cbn [negb].
  rewrite np_vstack_same_width by exact Hw. cbn [mbind result_bind].
  unfold copy, deepcopy. cbn [Y set_data set_is_single_matrix].
  destruct (df_size (Y self) =? 0); cbn [negb]; eexists; (split; [done|]);
    by split_and!.
Qed.

(** X25: the empty instance is a left identity of [append], and the result
    is the appended instance as it is, a single matrix included; appending
    the empty instance to one that is not empty, or anything that is not an
    instance, raises a [ValueError]. *)
Theorem append_and_the_empty_instance (self other : Adjacency A) :
  (isempty self = true → append self (Adj other) = Ok other) ∧
  (isempty self = false → isempty other = true →
   ∀ sh, square_shape self = Ok sh →
     ∃ msg, append self (Adj other) = Raise (ValueError msg)) ∧
  (∀ y, append self (Num y) = Raise (ValueError MoreMsg.not_an_instance)) ∧
  (∀ r, append self (Other r) = Raise (ValueError MoreMsg.not_an_instance)).
Proof.
  split_and!; try done.
  - intros He. unfold append. by rewrite He.
  - intros He Ho sh Hs.
    assert (sh ≠ []) as Hsh.
    { revert Hs. unfold square_shape. unfold isempty in He. rewrite He.
      assert (∀ x : result (squares A), x ≫= squares_shape ≠ Ok []) as Hne.
      { intros [[[]|]|]; by cbn. }
      destruct (truth (is_single_matrix self)).
      - intros Hs ->. by apply (Hne (squareform self)).
      - destruct (__getitem__ self (Int 0)) as [x|]; [|done].
        cbn [mbind result_bind]. intros Hs ->. by apply (Hne (squareform x)). }
    unfold append. rewrite He, Hs. cbn [mbind result_bind].
    unfold isempty in Ho. unfold square_shape at 1. rewrite Ho.
    cbn [mbind result_bind].
    rewrite bool_decide_eq_false_2 by done. by eexists.
Qed.

(** X26: a single symmetric matrix and a single directed matrix of one side
    [n], at least 2, have the same square shape, so the guard of [append]
    lets them through, and it is [np.vstack] that refuses them: the rows
    have [n (n - 1) / 2] and [n n] values. *)
Theorem append_directed_to_symmetric (self other : Adjacency A) (n : nat) (u v : list A) :
  2 ≤ n → isempty self = false → isempty other = false →
  data self = Arr1 u → is_single_matrix self = PTrue → issymmetric self = PTrue →
  length u * 2 = n * (n - 1) →
  data other = Arr1 v → is_single_matrix other = PTrue → issymmetric other = PFalse →
  length v = n * n →
  square_shape self = Ok [n; n] ∧ square_shape other = Ok [n; n] ∧
  append self (Adj other) = Raise (ValueError MoreMsg.vstack).
Proof.
  intros Hn He Ho Hd Hs Hy Hu Hd' Hs' Hy' Hv.
  assert (square_shape self = Ok [n; n]) as Hshape.
  { unfold square_shape. unfold isempty in He. rewrite He, Hs. cbn [truth].
    rewrite (squareform_single_symmetric self n u) by (done || lia). done. }
  assert (square_shape other = Ok [n; n]) as Hshape'.
  { unfold square_shape. unfold isempty in Ho. rewrite Ho, Hs'. cbn [truth].
    by rewrite (squareform_single_directed other n v). }
  split_and!; [done|done|].
  unfold append. rewrite He, Hshape, Hshape'. cbn [mbind result_bind].
  rewrite bool_decide_eq_true_2 by done. cbn [negb].
  rewrite Hd, Hd'. unfold np_vstack.
  rewrite (proj2 (Nat.eqb_neq (length u) (length v))) by nia. done.
Qed.
End Append.

(** ** The empty instance *)

Section EmptyInstance.
Context {A : Type} {dt : DType A}.

(** X27: [Adjacency()] with no data.  A [matrix_type] among the six names is
    accepted and ignored; the result is empty, counts as one matrix because
    [np.nan] is true in an [if], and its square form is the 1 by 1 zero
    matrix scipy makes of an empty vector.  Labels, whatever they are, make
    the constructor fail with an [IndexError], and a [Y] with at least one
    row with a [ValueError]. *)
Theorem construct_without_data (mt : option matrix_type_arg) :
  (∀ s, mt ≠ Some (MT_other s)) →
  let e : Adjacency A := mkAdjacency (Arr1 []) (Some Empty) PNaN PNaN [] None in
  __init__ DNone None mt None = Ok e ∧
  isempty e = true ∧ __len__ e = 1 ∧ shape e = [0] ∧
  square_shape e = Ok [] ∧
  squareform e = Ok (One (Arr2 1 1 [d0])) ∧
  (∀ l, __init__ DNone None mt (Some l) = Raise IndexError) ∧
  (∀ y l, y ≠ [] → __init__ DNone (Some y) mt l = Raise (ValueError Msg.Y_size)).
Proof.
  intros Hmt e.
  assert (∀ y l, __init__ (A:=A) DNone y mt l = __init__ DNone y None l) as Hinit.
  { intros y l. unfold __init__. destruct mt as [[]|]; try done. by destruct (Hmt s). }
  split_and!; try (intros; rewrite ?Hinit; done).
  intros y l Hy. rewrite Hinit. unfold __init__, init_data, init_Y.
  cbn [mbind result_bind data shape0 flatten length].
  by destruct y.
Qed.
End EmptyInstance.

(** ** Arithmetic with a number *)

Section ScalarArithmetic.
Context {A : Type} {dt : DType A}.

Lemma row_np_map (f : A → A) (x : ndarray A) (i : Z) :
  row (np_map f x) i = (fmap f : list A → list A) <$> row x i.
Proof.
  destruct x as [|r c buf]; [done|]. cbn [np_map row].
  destruct (py_index r i); [|done]. cbn. by rewrite fmap_take, fmap_drop.
Qed.

Lemma getitem_np_map (f : A → A) (a : Adjacency A) (i : Z) :
  __getitem__ (set_data a (np_map f (data a))) (Int i)
  = (λ r, set_data r (np_map f (data r))) <$> __getitem__ a (Int i).
Proof.
  unfold __getitem__, copy, deepcopy. cbn [data set_data Y].
  rewrite row_np_map. destruct (row (data a) i) as [r|]; [|done].
  cbn [fmap result_fmap mbind result_bind].
  destruct (negb (df_empty (Y a))); [|done].
  by destruct (iloc (Y a) (Int i)).
Qed.

(** X28: adding a number to a stack and then taking row [i] is taking row
    [i] and then adding the number, errors included; the same holds for
    [-] and [*]. *)
Theorem scalar_arithmetic_commutes_with_indexing (a : Adjacency A) (y : pynum A) (i : Z) :
  (__add__ a (Num y) ≫= λ c, __getitem__ c (Int i))
  = (__getitem__ a (Int i) ≫= λ r, __add__ r (Num y)) ∧
  (__sub__ a (Num y) ≫= λ c, __getitem__ c (Int i))
  = (__getitem__ a (Int i) ≫= λ r, __sub__ r (Num y)) ∧
  (__mul__ a (Num y) ≫= λ c, __getitem__ c (Int i))
  = (__getitem__ a (Int i) ≫= λ r, __mul__ r (Num y)).
Proof.
  unfold __add__, __sub__, __mul__, deepcopy. cbn [mbind result_bind].
  rewrite !getitem_np_map.
  by destruct (__getitem__ a (Int i)).
Qed.


End ScalarArithmetic.


(** ** The statements above on concrete inputs *)

Section MoreWitnesses.
Local Open Scope float_scope.

Lemma float64_add_zero : add_zero (A:=float).
Proof. vm_compute. reflexivity. Qed.

(** The order of the additions shows on eight float64 values: [np_sum] adds
    them as numpy does, in four pairs, and differs from the sum from the
    left. *)
Lemma np_sum_adds_in_pairs :
  foldl dadd d0 Ex2.cancelling = -1 ∧ np_sum Ex2.cancelling = 0 ∧
  foldl dadd d0 Ex2.absorbing = 0 ∧ np_sum Ex2.absorbing = 1 ∧
  diagonal_sum 8 (Ex2.diagonal8 Ex2.cancelling) = 0 ∧
  diagonal_sum 8 (Ex2.diagonal8 Ex2.absorbing) = 1.
Proof. split_and!; vm_compute; reflexivity. Qed.

Lemma self_equal_three : self_equal Ex2.three.
Proof. repeat constructor. Qed.

(** The vector [1, 2, 3] is the upper triangle of a 3 by 3 distance matrix. *)
Lemma construct_condensed_vector_witness :
  construct (Arr1 Ex2.three) = Ok Ex2.three_adj.
Proof.
  apply (construct_condensed_vector 3 Ex2.three).
  - lia.
  - reflexivity.
  - apply self_equal_three.
  - apply float64_add_zero.
  - apply float64_zero_is_zero.
Defined.

(** A vector of two values is the upper triangle of no matrix. *)
Lemma construct_vector_of_bad_length_witness :
  construct (Arr1 [1; 2]) = Raise IndexError.
Proof.
  apply construct_vector_of_bad_length.
  intros n. cbn [length]. destruct n as [|[|[|n]]]; nia.
Defined.

(** Two rows of three values. *)
Lemma construct_rectangular_stack_witness :
  construct (Arr2 2 3 Ex2.two_by_three)
  = Ok (mkAdjacency (Arr2 2 3 Ex2.two_by_three) (Some Distance) PFalse PTrue [] None).
Proof.
  apply (construct_rectangular_stack 3 2 3 Ex2.two_by_three).
  - lia.
  - reflexivity.
  - lia.
  - lia.
  - reflexivity.
  - apply self_equal_three.
  - apply float64_add_zero.
  - apply float64_zero_is_zero.
Defined.

(** The square form of a stored distance matrix, constructed again. *)
Lemma construct_of_squareform_witness :
  ∃ m, squareform Ex2.three_adj = Ok (One m) ∧ construct m = Ok Ex2.three_adj.
Proof.
  apply (construct_of_squareform Ex2.three_adj 3 Ex2.three).
  - unfold single_symmetric. split_and!; try reflexivity; [lia|discriminate].
  - apply self_equal_three.
  - apply float64_add_zero.
  - apply float64_zero_is_zero.
Defined.

(** A matrix that is not symmetric, passed as a similarity matrix: the 2
    below the diagonal is lost. *)
Lemma explicit_symmetric_type_keeps_upper_triangle_witness :
  ∃ a back,
    __init__ (DArr (Arr2 2 2 Ex2.lopsided)) None (Some MT_similarity) None = Ok a ∧
    matrix_type a = Some Similarity ∧
    squareform a = Ok (One (Arr2 2 2 back)) ∧
    cell 2 back 0 1 = 1 ∧ cell 2 back 1 0 = 1 ∧ cell 2 back 0 0 = 0.
Proof.
  destruct (explicit_symmetric_type_keeps_upper_triangle 2 Ex2.lopsided MT_similarity)
    as (a & back & Ha & _ & _ & Ht & Hsq & Hcells).
  - lia.
  - reflexivity.
  - by right.
  - exists a, back. split_and!; [exact Ha|exact Ht|exact Hsq|..].
    + destruct (Hcells 0%nat 1%nat) as (H & _ & _); [lia..|]. apply H. lia.
    + destruct (Hcells 1%nat 0%nat) as (_ & H & _); [lia..|]. apply H. lia.
    + destruct (Hcells 0%nat 0%nat) as (_ & _ & H); [lia..|]. by apply H.
Defined.

(** A symmetric matrix passed as directed. *)
Lemma explicit_directed_roundtrip_witness :
  (__init__ (DArr Ex.dist2) None (Some MT_directed) None ≫= squareform)
  = Ok (One Ex.dist2).
Proof.
  apply (explicit_directed_roundtrip 2 [0; 3; 3; 0] MT_directed).
  - reflexivity.
  - by left.
Defined.

(** The type 'distance' on arrays of float64 that are not square. *)
Lemma explicit_type_wants_a_square_witness :
  __init__ (DArr (Arr2 2 3 Ex2.two_by_three)) None (Some MT_distance) None
  = Raise (ValueError Msg.not_square) ∧
  __init__ (DArr (Arr1 Ex2.three)) None (Some MT_distance) None = Raise IndexError.
Proof.
  destruct (explicit_type_wants_a_square (A:=float) MT_distance None None) as [Hm Hv].
  - by left.
  - split; [apply Hm; lia|apply Hv].
Defined.

(** A vector of two values with the type 'distance_flat'. *)
Lemma flat_type_defers_the_length_check_witness :
  ∃ a, __init__ (DArr (Arr1 [1; 2])) None (Some MT_distance_flat) None = Ok a ∧
       data a = Arr1 [1; 2] ∧ is_single_matrix a = PTrue ∧
       squareform a = Raise (ValueError Msg.vector_size).
Proof.
  apply (flat_type_defers_the_length_check [1; 2] MT_distance_flat).
  - by left.
  - intros n. cbn [length]. destruct n as [|[|[|n]]]; nia.
Defined.

(** The square shape of the matrix of example scenario 1. *)
Lemma square_shape_of_constructed_witness :
  (construct Ex.scenario1 ≫= square_shape) = Ok [3; 3]%nat.
Proof.
  apply (square_shape_of_constructed 3 [1; 0.5; 0.2; 0.5; 1; 0.3; 0.2; 0.3; 1]).
  - lia.
  - reflexivity.
Defined.

(** Two labels and three labels on a matrix of side 2. *)
Lemma labels_of_a_single_matrix_witness :
  (∃ a, __init__ (DArr Ex.dist2) None None (Some (Labels ["a"; "b"]%string)) = Ok a ∧
        labels a = Some (Labels ["a"; "b"]%string)) ∧
  __init__ (DArr Ex.dist2) None None (Some (Labels ["a"; "b"; "c"]%string))
  = Raise (ValueError Msg.labels_single).
Proof.
  split.
  - destruct (labels_of_a_single_matrix 2 [0; 3; 3; 0] (Labels ["a"; "b"]%string))
      as (a & _ & Hfit & _); [lia|reflexivity|].
    eexists. split; [apply Hfit; reflexivity|reflexivity].
  - destruct (labels_of_a_single_matrix 2 [0; 3; 3; 0] (Labels ["a"; "b"; "c"]%string))
      as (a & _ & _ & Hbad); [lia|reflexivity|].
    apply Hbad. cbn. lia.
Defined.

(** A [Y] of one row and a [Y] of two rows on a matrix of side 2, which
    stores one value. *)
Lemma Y_of_a_single_matrix_witness :
  (∃ a, __init__ (DArr Ex.dist2) (Some [["x"%string]]) None None = Ok a ∧
        Y a = [["x"%string]]) ∧
  __init__ (DArr Ex.dist2) (Some [["x"%string]; ["y"%string]]) None None
  = Raise (ValueError Msg.Y_size).
Proof.
  assert (is_symmetric 2 [0; 3; 3; 0]) as Hsym.
  { apply is_symmetric_of_test; [reflexivity|vm_compute; reflexivity]. }
  split.
  - destruct (Y_of_a_single_matrix 2 [0; 3; 3; 0] [["x"%string]])
      as (a & _ & Hfit & _); [lia|reflexivity|exact Hsym|].
    eexists. split; [apply Hfit; reflexivity|reflexivity].
  - destruct (Y_of_a_single_matrix 2 [0; 3; 3; 0] [["x"%string]; ["y"%string]])
      as (a & _ & _ & Hbad); [lia|reflexivity|exact Hsym|].
    apply Hbad. cbn. lia.
Defined.

(** Iterating the stack of two distance matrices. *)
Lemma iterate_constructed_stack_witness :
  ∃ a, __init__ (DList Ex.two_distances) None None None = Ok a ∧
       __iter__ a = construct <$> Ex.two_distances.
Proof.
  apply (iterate_constructed_stack Ex.two_distances 2 true (Some Distance)).
  - discriminate.
  - repeat constructor; eexists; split; reflexivity.
  - repeat constructor; eexists _, _; vm_compute; reflexivity.
Defined.

(** A stack of two matrices that are not symmetric. *)
Lemma directed_stack_roundtrip_witness :
  ∃ a, __init__ (DList Ex2.two_directed) None None None = Ok a ∧
       matrix_type a = Some Directed ∧
       shape a = [2; 4]%nat ∧
       squareform a = Ok (Many Ex2.two_directed).
Proof.
  apply (directed_stack_roundtrip Ex2.two_directed 2).
  - discriminate.
  - apply Forall_cons_2; [|apply Forall_cons_2; [|apply Forall_nil_2]];
      (eexists; split; [reflexivity|split; [reflexivity|]]);
      (apply not_symmetric_of_test; [reflexivity|vm_compute; reflexivity]).
Defined.

(** The last row of a stack of two, and an index past its end. *)
Lemma index_from_the_end_witness :
  __getitem__ Ex.sim_stack (Int (-1)) = __getitem__ Ex.sim_stack (Int 1) ∧
  __getitem__ Ex.sim_stack (Int 2) = Raise IndexError.
Proof.
  destruct (index_from_the_end Ex.sim_stack 2 1 [0.5; 0.25]) as [Hneg Hout].
  - reflexivity.
  - by left.
  - split.
    + apply (Hneg 1%nat). lia.
    + apply Hout. lia.
Defined.

(** The last two rows of a stack of three with its [Y]. *)
Lemma index_into_a_slice_witness :
  ∃ b, __getitem__ Ex2.stack3 (Slice 1 3) = Ok b ∧
       __len__ b = 2%nat ∧
       __getitem__ b (Int 0) = __getitem__ Ex2.stack3 (Int 1) ∧
       __getitem__ b (Int 1) = __getitem__ Ex2.stack3 (Int 2).
Proof.
  destruct (index_into_a_slice Ex2.stack3 3 1 [0.5; 0.25; 0.75] 1 3)
    as (b & Hb & _ & _ & _ & _ & Hlen & Hrows).
  - reflexivity.
  - reflexivity.
  - right. split; [reflexivity|]. by repeat constructor.
  - lia.
  - exists b. split_and!; [exact Hb|exact Hlen|..].
    + apply (Hrows 0%nat). lia.
    + apply (Hrows 1%nat). lia.
Defined.

(** The mean of a stack of two similarity matrices. *)
Lemma mean_and_std_of_a_stack_witness :
  mean (co := idle_collaborators) (ax := idle_axis_stats) Ex.sim_stack 0
  = Ok (Instance (mkAdjacency (Arr1 [0.5; 0.25]) (Some Similarity) PTrue PTrue [] None)) ∧
  mean (co := idle_collaborators) (ax := idle_axis_stats) Ex.sim_stack 2 = Ok NoValue.
Proof.
  destruct (mean_and_std_of_a_stack (co := idle_collaborators) (ax := idle_axis_stats)
              Ex.sim_stack 2 1 [0.5; 0.25] Similarity)
    as (Hmean & _ & _ & _ & Hother); [reflexivity|reflexivity|reflexivity|discriminate|].
  split; [exact Hmean|]. apply (Hother 2%Z); lia.
Defined.

(** The t-test of a stack of two similarity matrices. *)
Lemma ttest_of_a_stack_witness :
  ∃ t p, ttest (co := idle_collaborators) Ex.sim_stack false = Ok (t, p) ∧
         matrix_type t = Some Similarity ∧ is_single_matrix p = PTrue.
Proof.
  eexists _, _. split.
  - apply (ttest_of_a_stack (co := idle_collaborators) Ex.sim_stack 2 1 [0.5; 0.25]
             Similarity); [reflexivity|reflexivity|reflexivity|discriminate].
  - split; reflexivity.
Defined.

(** A stack of two matrices whose diagonals sum to 4 and to 6. *)
Lemma untyped_stack_has_no_mean_witness :
  ∃ a, __init__ (DList Ex2.two_untyped) None None None = Ok a ∧
       mean (co := idle_collaborators) (ax := idle_axis_stats) a 0 = Raise TypeError ∧
       std (co := idle_collaborators) (ax := idle_axis_stats) a 0 = Raise TypeError ∧
       ttest (co := idle_collaborators) a false = Raise TypeError.
Proof.
  apply (untyped_stack_has_no_mean (co := idle_collaborators) (ax := idle_axis_stats)
           Ex2.two_untyped 2 true).
  - discriminate.
  - repeat constructor; eexists; split; reflexivity.
  - repeat constructor; eexists _, _; vm_compute; reflexivity.
Defined.

(** The cutoffs 0.4 and 0.1 on the values 0.5 and 0.25. *)
Lemma threshold_two_sided_witness :
  Forall (λ y, ¬ (dneb y d0 = true ∧ dltb y 0.4 = true ∧ dgtb y 0.1 = true))
    (flatten (data (threshold (co := idle_collaborators) Ex.sim_stack
                      (Some (Abs 0.4)) (Some (Abs 0.1)) false))).
Proof.
  apply (threshold_two_sided (co := idle_collaborators) Ex.sim_stack 0.4 0.1).
  - apply float64_zero_is_zero.
  - vm_compute. reflexivity.
  - vm_compute. reflexivity.
Defined.


(** A distance matrix appended to a similarity matrix of the same side. *)
Lemma append_stacks_rows_witness :
  ∃ out, append Ex.sim2_adj (Adj Ex2.quarter) = Ok out ∧
         data out = Arr2 2 1 [0.5; 0.25] ∧
         is_single_matrix out = PFalse ∧
         matrix_type out = Some Similarity.
Proof.
  destruct (append_stacks_rows Ex.sim2_adj Ex2.quarter [2; 2]%nat)
    as (out & Hout & Hd & Hs & Ht & _).
  - reflexivity.
  - vm_compute. reflexivity.
  - vm_compute. reflexivity.
  - reflexivity.
  - exists out. split_and!; [exact Hout|exact Hd|exact Hs|exact Ht].
Defined.

(** Appending to the empty instance, and appending the empty instance. *)
Lemma append_and_the_empty_instance_witness :
  append (mkAdjacency (Arr1 []) (Some Empty) PNaN PNaN [] None) (Adj Ex.sim2_adj)
  = Ok Ex.sim2_adj ∧
  ∃ msg, append Ex.sim2_adj (Adj (mkAdjacency (Arr1 []) (Some Empty) PNaN PNaN [] None))
         = Raise (ValueError msg).
Proof.
  split.
  - apply (proj1 (append_and_the_empty_instance _ Ex.sim2_adj)). reflexivity.
  - apply (proj1 (proj2 (append_and_the_empty_instance Ex.sim2_adj _)))
      with (sh := [2; 2]%nat).
    + reflexivity.
    + reflexivity.
    + vm_compute. reflexivity.
Defined.

(** A directed matrix appended to a symmetric matrix of the same side. *)
Lemma append_directed_to_symmetric_witness :
  append Ex.sim2_adj (Adj Ex2.directed2) = Raise (ValueError MoreMsg.vstack).
Proof.
  apply (append_directed_to_symmetric Ex.sim2_adj Ex2.directed2 2 [0.5] [1; 2; 3; 4]);
    reflexivity.
Defined.

(** [Adjacency(matrix_type='distance')] with no data, with and without
    labels. *)
Lemma construct_without_data_witness :
  __init__ (A:=float) DNone None (Some MT_distance) None
  = Ok (mkAdjacency (Arr1 []) (Some Empty) PNaN PNaN [] None) ∧
  __init__ (A:=float) DNone None (Some MT_distance) (Some (Labels [])) = Raise IndexError.
Proof.
  destruct (construct_without_data (A:=float) (Some MT_distance))
    as (Hinit & _ & _ & _ & _ & _ & Hlabels & _).
  - discriminate.
  - split; [exact Hinit|apply Hlabels].
Defined.

End MoreWitnesses.
